(** * Configuration lifecycle of the Mattermost demo plugin

    A shallow embedding of the plugin's configuration manager
    (getConfiguration, setConfiguration, Clone, diffConfiguration,
    OnConfigurationChange, ensureDemoUser, ensureDemoChannels), of the
    periodic BackgroundJob and of the dialog-submission handler
    handleDialog, together with the properties the specification states
    about them.

    Go pointers are addresses into two stores kept in the [World]: one of
    configuration structs, one of Go maps (a Go map is a reference).  The
    host server is a record of API functions over an abstract host state;
    every call the plugin makes is appended, with its result, to a trace.
    A Go panic is the failure of the monad [M]; Go errors are ordinary
    return values.

    The embedding is sequential: a hook runs to completion, so the
    reader/writer lock around the configuration pointer, which every
    function takes and releases within one call, has no effect and is left
    out, and the host does not call back into the plugin during a call. *)

From Stdlib Require Import ZArith Ascii String List Lia.
From stdpp Require Import base tactics option list gmap strings.

Local Open Scope string_scope.

(** ** Host data types (package model) *)

Record AppError := {
  AppError_Message : string;
  AppError_StatusCode : Z
}.

(** The Go [error] interface: an [*model.AppError], an [errors.New], or an
    [errors.Wrap] of another error. *)
Inductive error :=
| ErrApp (e : AppError)
| ErrNew (msg : string)
| ErrWrap (cause : error) (msg : string).

Record Team := {
  Team_Id : string;
  Team_Name : string
}.

Record User := {
  User_Id : string;
  User_Username : string;
  User_Password : string;
  User_Email : string;
  User_Nickname : string;
  User_FirstName : string;
  User_LastName : string;
  User_Position : string
}.

Record Bot := {
  Bot_Username : string;
  Bot_DisplayName : string;
  Bot_Description : string
}.

Record Channel := {
  Channel_Id : string;
  Channel_TeamId : string;
  Channel_Type : string;
  Channel_DisplayName : string;
  Channel_Name : string;
  Channel_Header : string;
  Channel_Purpose : string
}.

Record FileInfo := {
  FileInfo_Id : string
}.

(** A decoded JSON value held in an [interface{}]. *)
#[warnings="-register-all"]
Inductive jvalue :=
| JNull
| JBool (b : bool)
| JNumber (literal : string)
| JString (s : string)
| JArray (items : list jvalue)
| JObject (members : list (string * jvalue)).

Record SlackAttachmentField := {
  Field_Title : string;
  Field_Value : jvalue
}.

Record SlackAttachment := {
  Attachment_Fallback : string;
  Attachment_Color : string;
  Attachment_Fields : list SlackAttachmentField
}.

(** [model.SubmitDialogRequest] *)
Record SubmitDialogRequest := {
  Request_Type : string;
  Request_URL : string;
  Request_CallbackId : string;
  Request_State : string;
  Request_UserId : string;
  Request_ChannelId : string;
  Request_TeamId : string;
  Request_Submission : gmap string jvalue;
  Request_Cancelled : bool
}.

(** What the handlers read of an [*http.Request]. *)
Record Request := {
  Request_Body : string
}.

(** The values this plugin puts into [Post.Props]. *)
Inductive propvalue :=
| PString (s : string)
| PBool (b : bool)
| PInt (n : Z)
| PAttachments (atts : list SlackAttachment).

Record Post := {
  Post_Id : string;
  Post_UserId : string;
  Post_ChannelId : string;
  Post_RootId : string;
  Post_Message : string;
  Post_Type : string;
  Post_Props : gmap string propvalue;
  Post_FileIds : list string
}.

Definition http_StatusOK : Z := 200.
Definition http_StatusBadRequest : Z := 400.
Definition http_StatusNotFound : Z := 404.
Definition model_ChannelTypeOpen : string := "O".

(** ** The configuration struct *)

(** Addresses of configuration structs and of Go maps. *)
Definition ptr := nat.
Definition mapref := nat.

Record configuration := {
  Username : string;
  ChannelName : string;
  LastName : string;
  TextStyle : string;
  RandomSecret : string;
  SecretMessage : string;
  EnableMentionUser : bool;
  MentionUser : string;
  SecretNumber : Z;
  IntegrationRequestDelay : Z;
  disabled : bool;
  demoUserID : string;
  (* a Go map is a reference: [None] is the nil map *)
  demoChannelIDs : option mapref
}.

(** [configuration{}]: every field at its zero value. *)
Definition zero_configuration : configuration := {|
  Username := ""; ChannelName := ""; LastName := ""; TextStyle := "";
  RandomSecret := ""; SecretMessage := ""; EnableMentionUser := false;
  MentionUser := ""; SecretNumber := 0; IntegrationRequestDelay := 0;
  disabled := false; demoUserID := ""; demoChannelIDs := None
|}.

(** The exported fields, which the host deserialises from the server
    configuration; a field absent from the stored settings is left as it
    is. *)
Record settings := {
  set_Username : option string;
  set_ChannelName : option string;
  set_LastName : option string;
  set_TextStyle : option string;
  set_RandomSecret : option string;
  set_SecretMessage : option string;
  set_EnableMentionUser : option bool;
  set_MentionUser : option string;
  set_SecretNumber : option Z;
  set_IntegrationRequestDelay : option Z
}.

Definition overlay (s : settings) (c : configuration) : configuration := {|
  Username := default (Username c) (set_Username s);
  ChannelName := default (ChannelName c) (set_ChannelName s);
  LastName := default (LastName c) (set_LastName s);
  TextStyle := default (TextStyle c) (set_TextStyle s);
  RandomSecret := default (RandomSecret c) (set_RandomSecret s);
  SecretMessage := default (SecretMessage c) (set_SecretMessage s);
  EnableMentionUser := default (EnableMentionUser c) (set_EnableMentionUser s);
  MentionUser := default (MentionUser c) (set_MentionUser s);
  SecretNumber := default (SecretNumber c) (set_SecretNumber s);
  IntegrationRequestDelay :=
    default (IntegrationRequestDelay c) (set_IntegrationRequestDelay s);
  disabled := disabled c;
  demoUserID := demoUserID c;
  demoChannelIDs := demoChannelIDs c
|}.

(** ** The plugin and the world it runs in *)

(** The fields of [Plugin] that the modelled functions use (the lock, the
    router and the handle of the background job are left out). *)
Record Plugin := {
  Plugin_client : bool;                    (* p.client != nil *)
  Plugin_configuration : option ptr;       (* p.configuration *)
  Plugin_botID : string
}.

(** Arguments of a log call. *)
Inductive logvalue :=
| LString (s : string)
| LAppError (e : option AppError)       (* an error value *)
| LError (e : error)
| LErrorText (e : AppError).            (* err.Error() *)

(** One entry per call into the host (with what the host returned) and
    per write to the HTTP response. *)
Inductive Event :=
| EvGetTeams (res : list Team * option AppError)
| EvLoadPluginConfiguration (c : ptr) (res : settings * option error)
| EvGetUserByUsername (name : string) (res : option User * option AppError)
| EvCreateUser (u : User) (res : option User * option AppError)
| EvUpdateUser (u : User) (res : option User * option AppError)
| EvCreateTeamMember (teamID userID : string) (res : option AppError)
| EvEnsureBot (b : Bot) (res : string * option error)
| EvGetChannelByNameForTeamName (team name : string) (deleted : bool)
    (res : option Channel * option AppError)
| EvCreateChannel (c : Channel) (res : option Channel * option AppError)
| EvUploadFile (data channelID filename : string)
    (res : option FileInfo * option AppError)
| EvCreatePost (p : Post) (res : option Post * option AppError)
| EvGetUser (id : string) (res : option User * option AppError)
| EvLogInfo (msg : string) (args : list (string * logvalue))
| EvLogWarn (msg : string) (args : list (string * logvalue))
| EvLogError (msg : string) (args : list (string * logvalue))
| EvWriteHeader (status : Z).

(** The host's plugin API, over the host's own state [H]. *)
Record HostAPI (H : Type) := {
  GetTeams : H -> (list Team * option AppError) * H;
  LoadPluginConfiguration : H -> (settings * option error) * H;
  GetUserByUsername : string -> H -> (option User * option AppError) * H;
  CreateUser : User -> H -> (option User * option AppError) * H;
  UpdateUser : User -> H -> (option User * option AppError) * H;
  CreateTeamMember : string -> string -> H -> option AppError * H;
  EnsureBot : Bot -> H -> (string * option error) * H;
  GetChannelByNameForTeamName :
    string -> string -> bool -> H -> (option Channel * option AppError) * H;
  CreateChannel : Channel -> H -> (option Channel * option AppError) * H;
  UploadFile :
    string -> string -> string -> H -> (option FileInfo * option AppError) * H;
  CreatePost : Post -> H -> (option Post * option AppError) * H;
  GetUser : string -> H -> (option User * option AppError) * H
}.

Arguments GetTeams {H}.
Arguments LoadPluginConfiguration {H}.
Arguments GetUserByUsername {H}.
Arguments CreateUser {H}.
Arguments UpdateUser {H}.
Arguments CreateTeamMember {H}.
Arguments EnsureBot {H}.
Arguments GetChannelByNameForTeamName {H}.
Arguments CreateChannel {H}.
Arguments UploadFile {H}.
Arguments CreatePost {H}.
Arguments GetUser {H}.

Record World (H : Type) := {
  plugin : Plugin;
  structs : list configuration;            (* store of configuration structs *)
  maps : list (gmap string string);        (* store of map[string]string *)
  host : H;
  trace : list Event
}.

Arguments plugin {H}.
Arguments structs {H}.
Arguments maps {H}.
Arguments host {H}.
Arguments trace {H}.

(** ** The monad: state passing with panics *)

Inductive Outcome (A : Type) :=
| Ok (a : A)
| Panic (msg : string).

Arguments Ok {A}.
Arguments Panic {A}.

Definition M (H A : Type) : Type := World H -> Outcome A * World H.

Definition ret {H A} (a : A) : M H A := fun w => (Ok a, w).

Definition bind {H A B} (m : M H A) (k : A -> M H B) : M H B :=
  fun w =>
    match m w with
    | (Ok a, w1) => k a w1
    | (Panic msg, w1) => (Panic msg, w1)
    end.

Definition panic {H A} (msg : string) : M H A := fun w => (Panic msg, w).

Declare Scope go_scope.
Delimit Scope go_scope with go.
Notation "x <- c ;; k" := (bind c (fun x => k))
  (at level 100, c at next level, right associativity) : go_scope.
Notation "c ;;; k" := (bind c (fun _ => k))
  (at level 100, right associativity) : go_scope.
Local Open Scope go_scope.

Definition nil_deref : string :=
  "runtime error: invalid memory address or nil pointer dereference".

(** ** World updates *)

Section World.
Context {H : Type}.

Definition with_plugin (p : Plugin) (w : World H) : World H :=
  {| plugin := p; structs := structs w; maps := maps w;
     host := host w; trace := trace w |}.

Definition with_structs (s : list configuration) (w : World H) : World H :=
  {| plugin := plugin w; structs := s; maps := maps w;
     host := host w; trace := trace w |}.

Definition with_maps (m : list (gmap string string)) (w : World H) : World H :=
  {| plugin := plugin w; structs := structs w; maps := m;
     host := host w; trace := trace w |}.

Definition with_host (h : H) (e : Event) (w : World H) : World H :=
  {| plugin := plugin w; structs := structs w; maps := maps w;
     host := h; trace := trace w ++ [e] |}.

Definition with_event (e : Event) (w : World H) : World H :=
  {| plugin := plugin w; structs := structs w; maps := maps w;
     host := host w; trace := trace w ++ [e] |}.

(** A call into the host: the host moves to its next state and the call
    is recorded with its result. *)
Definition api_call {A} (f : H -> A * H) (ev : A -> Event) : M H A :=
  fun w => let r := f (host w) in (Ok r.1, with_host r.2 (ev r.1) w).

(** Logging and response writes return nothing to the plugin. *)
Definition emit (e : Event) : M H unit :=
  fun w => (Ok tt, with_event e w).

Definition get_plugin : M H Plugin := fun w => (Ok (plugin w), w).

Definition put_plugin (p : Plugin) : M H unit :=
  fun w => (Ok tt, with_plugin p w).

(** [&configuration{...}]: a fresh struct at the next free address. *)
Definition alloc_struct (c : configuration) : M H ptr :=
  fun w => (Ok (length (structs w)), with_structs (structs w ++ [c]) w).

(** [*c]: reading through a pointer. *)
Definition load_struct (c : ptr) : M H configuration :=
  fun w =>
    match structs w !! c with
    | Some v => (Ok v, w)
    | None => (Panic nil_deref, w)
    end.

(** [*c = v]: writing through a pointer. *)
Definition store_struct (c : ptr) (v : configuration) : M H unit :=
  fun w =>
    match structs w !! c with
    | Some _ => (Ok tt, with_structs (<[c := v]> (structs w)) w)
    | None => (Panic nil_deref, w)
    end.

(** [make(map[string]string)] *)
Definition make_map : M H mapref :=
  fun w => (Ok (length (maps w)), with_maps (maps w ++ [∅]) w).

(** The bindings a map reference stands for; the nil map has none. *)
Definition map_contents (w : World H) (m : option mapref) : gmap string string :=
  match m with
  | Some r => default ∅ (maps w !! r)
  | None => ∅
  end.

(** [v, ok := m[k]] *)
Definition map_lookup (m : option mapref) (k : string) : M H (option string) :=
  fun w => (Ok (map_contents w m !! k), w).

(** [m[k] = v]; an assignment to an entry of the nil map panics. *)
Definition map_store (m : option mapref) (k v : string) : M H unit :=
  fun w =>
    match m with
    | Some r =>
        match maps w !! r with
        | Some g => (Ok tt, with_maps (<[r := <[k := v]> g]> (maps w)) w)
        | None => (Panic nil_deref, w)
        end
    | None => (Panic "assignment to entry in nil map", w)
    end.

(** [delete(m, k)]; deleting from the nil map is a no-op. *)
Definition map_delete (m : option mapref) (k : string) : M H unit :=
  fun w =>
    match m with
    | Some r =>
        match maps w !! r with
        | Some g => (Ok tt, with_maps (<[r := delete k g]> (maps w)) w)
        | None => (Panic nil_deref, w)
        end
    | None => (Ok tt, w)
    end.

(** Dereference of a pointer returned by the host. *)
Definition deref {A} (p : option A) : M H A :=
  match p with
  | Some a => ret a
  | None => panic nil_deref
  end.

(** [for _, x := range l { body }].  The body answers [Some r] to
    [return r] from the enclosing function and [None] to go on
    ([continue] included). *)
Fixpoint for_range {A R} (l : list A) (body : A -> M H (option R))
  : M H (option R) :=
  match l with
  | [] => ret None
  | x :: rest =>
      r <- body x ;;
      match r with
      | Some v => ret (Some v)
      | None => for_range rest body
      end
  end.
End World.

(** ** The plugin's code *)

Section PluginCode.
Context {H : Type}.
(** The host the plugin is loaded into. *)
Variable api : HostAPI H.
(** The order in which the Go runtime enumerates a map in [range]. *)
Variable range_order : forall V : Type, gmap string V -> list (string * V).
(** [json.Marshal] on a configuration struct. *)
Variable json_Marshal : configuration -> string * option error.

(** [for k, v := range m]; ranging over the nil map runs no iteration. *)
Definition map_range (m : option mapref) : M H (list (string * string)) :=
  fun w => (Ok (range_order string (map_contents w m)), w).

(** *** configuration.go *)

Definition Clone (c : ptr) : M H ptr :=
  (* Deep copy demoChannelIDs, a reference type. *)
  demoChannelIDs' <- make_map ;;
  cfg <- load_struct c ;;
  entries <- map_range (demoChannelIDs cfg) ;;
  for_range (R := unit) entries (fun kv =>
    map_store (Some demoChannelIDs') kv.1 kv.2 ;;;
    ret None) ;;;
  alloc_struct {|
    Username := Username cfg;
    ChannelName := ChannelName cfg;
    LastName := LastName cfg;
    TextStyle := TextStyle cfg;
    RandomSecret := RandomSecret cfg;
    SecretMessage := SecretMessage cfg;
    EnableMentionUser := EnableMentionUser cfg;
    MentionUser := MentionUser cfg;
    SecretNumber := SecretNumber cfg;
    IntegrationRequestDelay := IntegrationRequestDelay cfg;
    disabled := disabled cfg;
    demoUserID := demoUserID cfg;
    demoChannelIDs := Some demoChannelIDs'
  |}.

(** The read lock is taken and released inside the call; in this
    sequential embedding it has no effect. *)
Definition getConfiguration : M H ptr :=
  p <- get_plugin ;;
  match Plugin_configuration p with
  | None => alloc_struct zero_configuration
  | Some c => ret c
  end.

Definition setConfiguration (configuration : option ptr) : M H unit :=
  p <- get_plugin ;;
  if bool_decide (configuration <> None)
     && bool_decide (Plugin_configuration p = configuration)
  then panic "setConfiguration called with the existing configuration"
  else put_plugin {| Plugin_client := Plugin_client p;
                     Plugin_configuration := configuration;
                     Plugin_botID := Plugin_botID p |}.

(** The map [configurationDiff] that diffConfiguration builds from the
    published and the new snapshot. *)
Definition configurationDiff (oldConfiguration newConfiguration : configuration)
  : gmap string propvalue :=
  let d : gmap string propvalue := ∅ in
  let d := if bool_decide (Username newConfiguration <> Username oldConfiguration)
           then <["username" := PString (Username newConfiguration)]> d else d in
  let d := if bool_decide (ChannelName newConfiguration <> ChannelName oldConfiguration)
           then <["channel_name" := PString (ChannelName newConfiguration)]> d else d in
  let d := if bool_decide (LastName newConfiguration <> LastName oldConfiguration)
           then <["lastname" := PString (LastName newConfiguration)]> d else d in
  let d := if bool_decide (TextStyle newConfiguration <> TextStyle oldConfiguration)
           then <["text_style" := PString (ChannelName newConfiguration)]> d else d in
  let d := if bool_decide (RandomSecret newConfiguration <> RandomSecret oldConfiguration)
           then <["random_secret" := PString "<HIDDEN>"]> d else d in
  let d := if bool_decide (SecretMessage newConfiguration <> SecretMessage oldConfiguration)
           then <["secret_message" := PString (SecretMessage newConfiguration)]> d else d in
  let d := if bool_decide (EnableMentionUser newConfiguration
                           <> EnableMentionUser oldConfiguration)
           then <["enable_mention_user" := PBool (EnableMentionUser newConfiguration)]> d
           else d in
  let d := if bool_decide (MentionUser newConfiguration <> MentionUser oldConfiguration)
           then <["mention_user" := PString (MentionUser newConfiguration)]> d else d in
  let d := if bool_decide (SecretNumber newConfiguration <> SecretNumber oldConfiguration)
           then <["secret_number" := PInt (SecretNumber newConfiguration)]> d else d in
  d.

Definition diffConfiguration (newConfiguration : ptr) : M H unit :=
  oldConfiguration <- getConfiguration ;;
  new <- load_struct newConfiguration ;;
  old <- load_struct oldConfiguration ;;
  let diff := configurationDiff old new in
  if bool_decide (size diff = 0) then ret tt else
  r <- api_call (GetTeams api) EvGetTeams ;;
  let '(teams, err) := r in
  match err with
  | Some e =>
      emit (EvLogWarn "Failed to query teams OnConfigChange"
              [("err", LAppError (Some e))])
  | None =>
      for_range (R := unit) teams (fun team =>
        found <- map_lookup (demoChannelIDs new) (Team_Id team) ;;
        match found with
        | None =>
            emit (EvLogWarn "No demo channel id for team"
                    [("team", LString (Team_Id team))]) ;;;
            ret None
        | Some demoChannelID =>
            let '(newConfigurationData, jsonErr) := json_Marshal new in
            match jsonErr with
            | Some _ =>
                (* logs [err], the nil error of GetTeams *)
                emit (EvLogWarn "Failed to marshal new configuration"
                        [("err", LAppError None)]) ;;;
                ret (Some tt)
            | None =>
                r <- api_call
                       (UploadFile api newConfigurationData demoChannelID
                          "configuration.json")
                       (EvUploadFile newConfigurationData demoChannelID
                          "configuration.json") ;;
                let '(fileInfo, err) := r in
                match err with
                | Some e =>
                    emit (EvLogWarn "Failed to attach new configuration"
                            [("err", LAppError (Some e))]) ;;;
                    ret (Some tt)
                | None =>
                    p <- get_plugin ;;
                    fi <- deref fileInfo ;;
                    let post := {|
                      Post_Id := "";
                      Post_UserId := Plugin_botID p;
                      Post_ChannelId := demoChannelID;
                      Post_RootId := "";
                      Post_Message := "OnConfigChange: loading new configuration";
                      Post_Type := "custom_demo_plugin";
                      Post_Props := diff;
                      Post_FileIds := [FileInfo_Id fi]
                    |} in
                    r <- api_call (CreatePost api post) (EvCreatePost post) ;;
                    match r.2 with
                    | Some e =>
                        emit (EvLogWarn "Failed to post OnConfigChange message"
                                [("err", LAppError (Some e))]) ;;;
                        ret (Some tt)
                    | None => ret None
                    end
                end
            end
        end) ;;;
      ret tt
  end.

Definition with_demoUserID (id : string) (c : configuration) : configuration := {|
  Username := Username c; ChannelName := ChannelName c; LastName := LastName c;
  TextStyle := TextStyle c; RandomSecret := RandomSecret c;
  SecretMessage := SecretMessage c; EnableMentionUser := EnableMentionUser c;
  MentionUser := MentionUser c; SecretNumber := SecretNumber c;
  IntegrationRequestDelay := IntegrationRequestDelay c; disabled := disabled c;
  demoUserID := id; demoChannelIDs := demoChannelIDs c
|}.

Definition with_demoChannelIDs (m : option mapref) (c : configuration)
  : configuration := {|
  Username := Username c; ChannelName := ChannelName c; LastName := LastName c;
  TextStyle := TextStyle c; RandomSecret := RandomSecret c;
  SecretMessage := SecretMessage c; EnableMentionUser := EnableMentionUser c;
  MentionUser := MentionUser c; SecretNumber := SecretNumber c;
  IntegrationRequestDelay := IntegrationRequestDelay c; disabled := disabled c;
  demoUserID := demoUserID c; demoChannelIDs := m
|}.

Definition with_disabled (b : bool) (c : configuration) : configuration := {|
  Username := Username c; ChannelName := ChannelName c; LastName := LastName c;
  TextStyle := TextStyle c; RandomSecret := RandomSecret c;
  SecretMessage := SecretMessage c; EnableMentionUser := EnableMentionUser c;
  MentionUser := MentionUser c; SecretNumber := SecretNumber c;
  IntegrationRequestDelay := IntegrationRequestDelay c; disabled := b;
  demoUserID := demoUserID c; demoChannelIDs := demoChannelIDs c
|}.

Definition with_LastName (n : string) (u : User) : User := {|
  User_Id := User_Id u; User_Username := User_Username u;
  User_Password := User_Password u; User_Email := User_Email u;
  User_Nickname := User_Nickname u; User_FirstName := User_FirstName u;
  User_LastName := n; User_Position := User_Position u
|}.

(** In the two ensure functions [inl] carries the value the function goes
    on with and [inr] the error it returns at once. *)
Definition ensureDemoUser (configuration : ptr) : M H (string * option error) :=
  cfg <- load_struct configuration ;;
  r <- api_call (GetUserByUsername api (Username cfg))
         (EvGetUserByUsername (Username cfg)) ;;
  let '(user, err) := r in
  r <- match err with
       | Some e =>
           if bool_decide (AppError_StatusCode e = http_StatusNotFound) then
             emit (EvLogInfo "DemoUser doesn't exist. Trying to create it." []) ;;;
             let newUser := {|
               User_Id := "";
               User_Username := Username cfg;
               User_Password := "Password_123";
               User_Email := Username cfg ++ "@example.com";
               User_Nickname := "Demo Day";
               User_FirstName := "Demo";
               User_LastName := LastName cfg;
               User_Position := "Bot"
             |} in
             r <- api_call (CreateUser api newUser) (EvCreateUser newUser) ;;
             match r.2 with
             | Some e => ret (inr e)
             | None => ret (inl r.1)
             end
           else ret (inr e)
       | None => ret (inl user)
       end ;;
  match r with
  | inr e => ret ("", Some (ErrApp e))
  | inl user =>
      u <- deref user ;;
      r <- (if bool_decide (User_LastName u <> LastName cfg) then
              let u' := with_LastName (LastName cfg) u in
              r <- api_call (UpdateUser api u') (EvUpdateUser u') ;;
              match r.2 with
              | Some e => ret (inr e)
              | None => ret (inl r.1)
              end
            else ret (inl user)) ;;
      match r with
      | inr e => ret ("", Some (ErrApp e))
      | inl user =>
          r <- api_call (GetTeams api) EvGetTeams ;;
          let '(teams, err) := r in
          match err with
          | Some e => ret ("", Some (ErrApp e))
          | None =>
              for_range (R := unit) teams (fun team =>
                u <- deref user ;;
                err <- api_call (CreateTeamMember api (Team_Id team) (User_Id u))
                         (EvCreateTeamMember (Team_Id team) (User_Id u)) ;;
                match err with
                | Some e =>
                    emit (EvLogError "Failed add demo user to team"
                            [("teamID", LString (Team_Id team));
                             ("error", LErrorText e)]) ;;;
                    ret None
                | None => ret None
                end) ;;;
              u <- deref user ;;
              ret (User_Id u, None)
          end
      end
  end.

Definition ensureDemoChannels (configuration : ptr)
  : M H (option mapref * option error) :=
  r <- api_call (GetTeams api) EvGetTeams ;;
  let '(teams, err) := r in
  match err with
  | Some e => ret (None, Some (ErrApp e))
  | None =>
      demoChannelIDs' <- make_map ;;
      r <- for_range teams (fun team =>
             (* Check for the configured channel. Ignore any error. *)
             cfg <- load_struct configuration ;;
             r <- api_call
                    (GetChannelByNameForTeamName api (Team_Name team)
                       (ChannelName cfg) false)
                    (EvGetChannelByNameForTeamName (Team_Name team)
                       (ChannelName cfg) false) ;;
             let channel := r.1 in
             (* Ensure the configured channel exists. *)
             r <- match channel with
                  | None =>
                      let newChannel := {|
                        Channel_Id := "";
                        Channel_TeamId := Team_Id team;
                        Channel_Type := model_ChannelTypeOpen;
                        Channel_DisplayName := "Demo Plugin";
                        Channel_Name := ChannelName cfg;
                        Channel_Header := "The channel used by the demo plugin.";
                        Channel_Purpose :=
                          "This channel was created by a plugin for testing."
                      |} in
                      r <- api_call (CreateChannel api newChannel)
                             (EvCreateChannel newChannel) ;;
                      match r.2 with
                      | Some e => ret (inr e)
                      | None => ret (inl r.1)
                      end
                  | Some _ => ret (inl channel)
                  end ;;
             match r with
             | inr e => ret (Some e)
             | inl channel =>
                 (* Save the ids for later use. *)
                 ch <- deref channel ;;
                 map_store (Some demoChannelIDs') (Team_Id team) (Channel_Id ch) ;;;
                 ret None
             end) ;;
      match r with
      | Some e => ret (None, Some (ErrApp e))
      | None => ret (Some demoChannelIDs', None)
      end
  end.

Definition demoBot : Bot := {|
  Bot_Username := "demoplugin";
  Bot_DisplayName := "Demo Plugin Bot";
  Bot_Description := "A bot account created by the demo plugin."
|}.

Definition OnConfigurationChange : M H (option error) :=
  p <- get_plugin ;;
  (if Plugin_client p then ret tt
   else put_plugin {| Plugin_client := true;
                      Plugin_configuration := Plugin_configuration p;
                      Plugin_botID := Plugin_botID p |}) ;;;
  current <- getConfiguration ;;
  configuration <- Clone current ;;
  (* Load the public configuration fields from the Mattermost server
     configuration: the host deserialises them into the struct. *)
  r <- api_call (LoadPluginConfiguration api)
         (EvLoadPluginConfiguration configuration) ;;
  cfg <- load_struct configuration ;;
  store_struct configuration (overlay r.1 cfg) ;;;
  match r.2 with
  | Some loadConfigErr =>
      ret (Some (ErrWrap loadConfigErr "failed to load plugin configuration"))
  | None =>
      r <- ensureDemoUser configuration ;;
      let '(demoUserID', err) := r in
      match err with
      | Some e => ret (Some (ErrWrap e "failed to ensure demo user"))
      | None =>
          cfg <- load_struct configuration ;;
          store_struct configuration (with_demoUserID demoUserID' cfg) ;;;
          r <- api_call (EnsureBot api demoBot) (EvEnsureBot demoBot) ;;
          let '(botID, ensureBotError) := r in
          match ensureBotError with
          | Some e => ret (Some (ErrWrap e "failed to ensure demo bot"))
          | None =>
              p <- get_plugin ;;
              put_plugin {| Plugin_client := Plugin_client p;
                            Plugin_configuration := Plugin_configuration p;
                            Plugin_botID := botID |} ;;;
              r <- ensureDemoChannels configuration ;;
              cfg <- load_struct configuration ;;
              store_struct configuration (with_demoChannelIDs r.1 cfg) ;;;
              match r.2 with
              | Some e => ret (Some (ErrWrap e "failed to ensure demo channels"))
              | None =>
                  diffConfiguration configuration ;;;
                  setConfiguration (Some configuration) ;;;
                  ret None
              end
          end
      end
  end.

(** setEnabled wraps setConfiguration to configure if the plugin is enabled. *)
Definition setEnabled (enabled : bool) : M H unit :=
  current <- getConfiguration ;;
  configuration <- Clone current ;;
  cfg <- load_struct configuration ;;
  store_struct configuration (with_disabled (negb enabled) cfg) ;;;
  setConfiguration (Some configuration).

(** *** command_hooks.go *)

Definition plainPost (userID channelID message : string) : Post := {|
  Post_Id := ""; Post_UserId := userID; Post_ChannelId := channelID;
  Post_RootId := ""; Post_Message := message; Post_Type := "";
  Post_Props := ∅; Post_FileIds := []
|}.

Definition postPluginMessage (teamID msg : string) : M H (option AppError) :=
  configuration <- getConfiguration ;;
  cfg <- load_struct configuration ;;
  if disabled cfg then ret None else
  let msg := if EnableMentionUser cfg
             then "tag @" ++ MentionUser cfg ++ " | " ++ msg else msg in
  let msg := TextStyle cfg ++ msg ++ TextStyle cfg in
  p <- get_plugin ;;
  if bool_decide (teamID <> "") then
    found <- map_lookup (demoChannelIDs cfg) teamID ;;
    let post := plainPost (Plugin_botID p) (default "" found) msg in
    r <- api_call (CreatePost api post) (EvCreatePost post) ;;
    ret r.2
  else
    entries <- map_range (demoChannelIDs cfg) ;;
    r <- for_range entries (fun kv =>
           let post := plainPost (Plugin_botID p) kv.2 msg in
           r <- api_call (CreatePost api post) (EvCreatePost post) ;;
           match r.2 with
           | Some e => ret (Some e)
           | None => ret None
           end) ;;
    ret r.

Definition BackgroundJob : M H unit :=
  configuration <- getConfiguration ;;
  cfg <- load_struct configuration ;;
  if disabled cfg then ret tt else
  p <- get_plugin ;;
  entries <- map_range (demoChannelIDs cfg) ;;
  for_range (R := unit) entries (fun kv =>
    let channelID := kv.2 in
    let post := plainPost (Plugin_botID p) channelID "Background job executed" in
    r <- api_call (CreatePost api post) (EvCreatePost post) ;;
    match r.2 with
    | Some e =>
        emit (EvLogError "Failed to post BackgroundJob message"
                [("channel_id", LString channelID); ("error", LErrorText e)]) ;;;
        ret None
    | None => ret None
    end) ;;;
  ret tt.
End PluginCode.

(** ** http_hooks.go: the dialog submission handler *)

(** [strings.Split(s, sep)] for a non-empty separator: [skip] counts the
    bytes of a separator still to be dropped, [cur] is the piece being
    read. *)
Fixpoint split_from (sep : string) (skip : nat) (cur s : string) : list string :=
  match s with
  | EmptyString => [cur]
  | String a s' =>
      match skip with
      | S n => split_from sep n cur s'
      | O =>
          if String.prefix sep s
          then cur :: split_from sep (String.length sep - 1) "" s'
          else split_from sep 0 (cur ++ String a "") s'
      end
  end.

Definition strings_Split (s sep : string) : list string := split_from sep 0 "" s.

Definition newline : string := String (ascii_of_nat 10) "".

(** The colour handleDialog picks for a priority. *)
Definition priorityColor (priority : string) : string :=
  if bool_decide (priority = "High") then "#FF0000"
  else if bool_decide (priority = "Medium") then "#FFA500"
  else if bool_decide (priority = "Low") then "#000000"
  else "".

(** The loop that builds the attachment fields from the entries of
    [request.Submission], in the order [range] yields them. *)
Definition submissionFields (entries : list (string * jvalue))
  : list SlackAttachmentField :=
  flat_map (fun kv =>
    match kv.2 with
    | JNull => []
    | v =>
        let builder := strings_Split kv.1 "-" in
        let k2 := default "" (last builder) in
        [{| Field_Title := k2; Field_Value := v |}]
    end) entries.

(** The text of the reply that tags the configured users. *)
Definition tagMessage (tagUsers : string) : string :=
  if bool_decide (tagUsers = "")
  then "Update the plugin configuration to tag users in the future."
  else
    let tagusers := strings_Split tagUsers "," in
    let builder := fold_left (fun b value => b ++ ("@" ++ value) ++ ", ") tagusers "" in
    let msg := "cc:" ++ builder in
    if bool_decide (0 < String.length msg)
    then String.substring 0 (String.length msg - 2) msg
    else msg.

(** The dynamic type of a decoded JSON value, as the runtime prints it. *)
Definition dynamic_type (v : option jvalue) : string :=
  match v with
  | None | Some JNull => "nil"
  | Some (JBool _) => "bool"
  | Some (JNumber _) => "float64"
  | Some (JString _) => "string"
  | Some (JArray _) => "[]interface {}"
  | Some (JObject _) => "map[string]interface {}"
  end.

(** The message of the panic of a failed assertion [x.(string)]. *)
Definition conversion_panic (v : option jvalue) : string :=
  "interface conversion: interface {} is " ++ dynamic_type v ++ ", not string".

Definition zero_SubmitDialogRequest : SubmitDialogRequest := {|
  Request_Type := ""; Request_URL := ""; Request_CallbackId := "";
  Request_State := ""; Request_UserId := ""; Request_ChannelId := "";
  Request_TeamId := ""; Request_Submission := ∅; Request_Cancelled := false
|}.

Section Dialog.
Context {H : Type}.
Variable api : HostAPI H.
Variable range_order : forall V : Type, gmap string V -> list (string * V).
(** [manifest.Id], from the plugin manifest. *)
Variable manifest_Id : string.
(** [json.NewDecoder(r.Body).Decode(&request)] on the zero request. *)
Variable json_Decode : string -> SubmitDialogRequest * option error.
(** The fields [ChannelID] and [TagUsers] that this handler reads of the
    configuration struct; the struct declaration that has them is not
    part of the sources. *)
Variable ChannelID : configuration -> string.
Variable TagUsers : configuration -> string.

(** [x.(string)] on an [interface{}] looked up in a map: a missing key
    yields the nil interface. *)
Definition assert_string (v : option jvalue) : M H string :=
  match v with
  | Some (JString s) => ret s
  | _ => panic (conversion_panic v)
  end.

(** [p.configuration], read without the lock. *)
Definition published : M H configuration :=
  p <- get_plugin ;;
  match Plugin_configuration p with
  | Some c => load_struct c
  | None => panic nil_deref
  end.

Definition handleDialog (r : Request) : M H unit :=
  configuration <- getConfiguration ;;
  (* the struct is read once: nothing writes to it during the loop *)
  cfg <- load_struct configuration ;;
  r2 <- api_call (GetTeams api) EvGetTeams ;;
  let '(teams, err2) := r2 in
  (* the result of errors.Wrap(err2, ...) is dropped *)
  for_range (R := unit) teams (fun team =>
    found <- map_lookup (demoChannelIDs cfg) (Team_Id team) ;;
    match found with
    | None =>
        emit (EvLogWarn "No demo channel id for team"
                [("team", LString (Team_Id team))]) ;;;
        ret None
    | Some _ =>
        let msg := "OnActivate: " ++ manifest_Id in
        postPluginMessage api range_order (Team_Id team) msg ;;;
        ret None
    end) ;;;
  let request := zero_SubmitDialogRequest in
  if Request_Cancelled request then ret tt else
  let '(request, err) := json_Decode (Request_Body r) in
  match err with
  | Some e =>
      emit (EvLogError "Failed to decode SubmitDialogRequest" [("err", LError e)]) ;;;
      emit (EvWriteHeader http_StatusBadRequest)
  | None =>
      r <- api_call (GetUser api (Request_UserId request))
             (EvGetUser (Request_UserId request)) ;;
      let '(user, appErr) := r in
      match appErr with
      | Some e =>
          emit (EvLogError "Failed to get user for dialog" [("err", LErrorText e)]) ;;;
          emit (EvWriteHeader http_StatusOK)
      | None =>
          priority <- assert_string (Request_Submission request !! "4-User Impact") ;;
          let color := priorityColor priority in
          let fields :=
            submissionFields (range_order jvalue (Request_Submission request)) in
          p <- get_plugin ;;
          pc <- published ;;
          u <- deref user ;;
          let post := {|
            Post_Id := "";
            Post_UserId := Plugin_botID p;
            Post_ChannelId := ChannelID pc;
            Post_RootId := "";
            Post_Message := "@" ++ User_Username u ++ " submitted a ticket" ++ newline;
            Post_Type := "custom_demo_plugin";
            Post_Props :=
              {[ "attachments" :=
                   PAttachments [{| Attachment_Fallback := "test";
                                    Attachment_Color := color;
                                    Attachment_Fields := fields |}] ]};
            Post_FileIds := []
          |} in
          r <- api_call (CreatePost api post) (EvCreatePost post) ;;
          let '(rootPost, appErr) := r in
          match appErr with
          | Some e =>
              emit (EvLogError "Failed to post handleDialog message"
                      [("err", LErrorText e)])
          | None =>
              pc <- published ;;
              let msg := tagMessage (TagUsers pc) in
              r <- (if negb (Request_Cancelled request) then
                      p <- get_plugin ;;
                      pc <- published ;;
                      root <- deref rootPost ;;
                      let reply := {|
                        Post_Id := "";
                        Post_UserId := Plugin_botID p;
                        Post_ChannelId := ChannelID pc;
                        Post_RootId := Post_Id root;
                        Post_Message := msg;
                        Post_Type := "custom_demo_plugin";
                        Post_Props := ∅;
                        Post_FileIds := []
                      |} in
                      r <- api_call (CreatePost api reply) (EvCreatePost reply) ;;
                      match r.2 with
                      | Some e =>
                          emit (EvLogError "Failed to post handleDialog message"
                                  [("err", LErrorText e)]) ;;;
                          (* return *)
                          ret (Some tt)
                      | None => ret None
                      end
                    else ret None) ;;
              match r with
              | Some _ => ret tt
              | None => emit (EvWriteHeader http_StatusOK)
              end
          end
      end
  end.
End Dialog.

(** ** A small host for running the code on concrete inputs *)

Module Mock.
(** The host state: its channels and users, the teams for which it
    refuses to create a channel, the stored plugin settings and the posts
    it has accepted.  The teams are fixed. *)
Record state := {
  channels : list Channel;
  users : list User;
  refused : list string;
  stored : settings;
  posts : list Post
}.

Definition no_settings : settings := {|
  set_Username := None; set_ChannelName := None; set_LastName := None;
  set_TextStyle := None; set_RandomSecret := None; set_SecretMessage := None;
  set_EnableMentionUser := None; set_MentionUser := None;
  set_SecretNumber := None; set_IntegrationRequestDelay := None
|}.

Definition not_found : AppError :=
  {| AppError_Message := "not found"; AppError_StatusCode := http_StatusNotFound |}.

Definition forbidden : AppError :=
  {| AppError_Message := "forbidden"; AppError_StatusCode := 403 |}.

Definition find_user (name : string) (h : state) : option User :=
  List.find (fun u => bool_decide (User_Username u = name)) (users h).

Definition find_channel (teams : list Team) (team name : string) (h : state)
  : option Channel :=
  List.find (fun c =>
    bool_decide (Channel_Name c = name)
    && existsb (fun t => bool_decide (Team_Name t = team)
                         && bool_decide (Team_Id t = Channel_TeamId c))
         teams) (channels h).

Definition add_channel (c : Channel) (h : state) : state :=
  {| channels := channels h ++ [c]; users := users h;
     refused := refused h; stored := stored h; posts := posts h |}.

Definition add_user (u : User) (h : state) : state :=
  {| channels := channels h; users := users h ++ [u];
     refused := refused h; stored := stored h; posts := posts h |}.

Definition add_post (p : Post) (h : state) : state :=
  {| channels := channels h; users := users h;
     refused := refused h; stored := stored h; posts := posts h ++ [p] |}.

Definition created_channel (c : Channel) : Channel :=
  {| Channel_Id := "channel-" ++ Channel_TeamId c;
     Channel_TeamId := Channel_TeamId c; Channel_Type := Channel_Type c;
     Channel_DisplayName := Channel_DisplayName c;
     Channel_Name := Channel_Name c; Channel_Header := Channel_Header c;
     Channel_Purpose := Channel_Purpose c |}.

Definition created_user (u : User) : User :=
  {| User_Id := "user-" ++ User_Username u; User_Username := User_Username u;
     User_Password := User_Password u; User_Email := User_Email u;
     User_Nickname := User_Nickname u; User_FirstName := User_FirstName u;
     User_LastName := User_LastName u; User_Position := User_Position u |}.

Definition created_post (p : Post) : Post :=
  {| Post_Id := "post"; Post_UserId := Post_UserId p;
     Post_ChannelId := Post_ChannelId p; Post_RootId := Post_RootId p;
     Post_Message := Post_Message p; Post_Type := Post_Type p;
     Post_Props := Post_Props p; Post_FileIds := Post_FileIds p |}.

(** The user the host knows under an id. *)
Definition user_of (id : string) : User :=
  {| User_Id := id; User_Username := "reporter"; User_Password := "";
     User_Email := ""; User_Nickname := ""; User_FirstName := "";
     User_LastName := ""; User_Position := "" |}.

Definition api (teams : list Team) : HostAPI state := {|
  GetTeams h := ((teams, None), h);
  LoadPluginConfiguration h := ((stored h, None), h);
  GetUserByUsername name h :=
    match find_user name h with
    | Some u => ((Some u, None), h)
    | None => ((None, Some not_found), h)
    end;
  CreateUser u h := ((Some (created_user u), None), add_user (created_user u) h);
  UpdateUser u h := ((Some u, None), h);
  CreateTeamMember _ _ h := (None, h);
  EnsureBot _ h := (("bot", None), h);
  GetChannelByNameForTeamName team name _ h :=
    match find_channel teams team name h with
    | Some c => ((Some c, None), h)
    | None => ((None, Some not_found), h)
    end;
  CreateChannel c h :=
    if bool_decide (Channel_TeamId c ∈ refused h)
    then ((None, Some forbidden), h)
    else ((Some (created_channel c), None), add_channel (created_channel c) h);
  UploadFile _ _ _ h := ((Some {| FileInfo_Id := "file" |}, None), h);
  CreatePost p h := ((Some (created_post p), None), add_post p h);
  GetUser id h := ((Some (user_of id), None), h)
|}.

(** [range] enumerates a map in the order of its keys' encoding. *)
Definition range_order (V : Type) (m : gmap string V) : list (string * V) :=
  map_to_list m.

Definition json_Marshal (c : configuration) : string * option error :=
  ("{}", None).

Definition manifest_Id : string := "com.mattermost.demo-plugin".

Definition submission (entries : gmap string jvalue) : SubmitDialogRequest := {|
  Request_Type := "dialog_submission"; Request_URL := "";
  Request_CallbackId := ""; Request_State := ""; Request_UserId := "u1";
  Request_ChannelId := ""; Request_TeamId := "";
  Request_Submission := entries; Request_Cancelled := false
|}.

(** A decoder for three request bodies. *)
Definition json_Decode (body : string) : SubmitDialogRequest * option error :=
  if bool_decide (body = "no impact") then
    (submission {[ "1-Summary" := JString "disk full" ]}, None)
  else if bool_decide (body = "urgent") then
    (submission {[ "4-User Impact" := JString "Urgent" ]}, None)
  else (zero_SubmitDialogRequest, Some (ErrNew "unexpected end of JSON input")).

Definition ChannelID (c : configuration) : string := "tickets".
Definition TagUsers (c : configuration) : string := "alice,bob".

Definition quiet_host : state := {|
  channels := []; users := []; refused := [];
  stored := no_settings; posts := []
|}.

(** A host that refuses to create a channel in the team ["b"]. *)
Definition refusing_host : state := {|
  channels := []; users := []; refused := ["b"];
  stored := no_settings; posts := []
|}.

Definition teamA : Team := {| Team_Id := "a"; Team_Name := "alpha" |}.
Definition teamB : Team := {| Team_Id := "b"; Team_Name := "beta" |}.

(** The plugin right after it has been loaded: nothing published. *)
Definition fresh_world (h : state) : World state := {|
  plugin := {| Plugin_client := false; Plugin_configuration := None;
               Plugin_botID := "" |};
  structs := []; maps := []; host := h; trace := []
|}.

Definition demo_configuration (off : bool) : configuration := {|
  Username := "demo"; ChannelName := "demo"; LastName := "Plugin";
  TextStyle := ""; RandomSecret := "s3cret"; SecretMessage := "hello";
  EnableMentionUser := false; MentionUser := ""; SecretNumber := 7;
  IntegrationRequestDelay := 0; disabled := off; demoUserID := "user-demo";
  demoChannelIDs := Some 0
|}.

(** A plugin that has published a configuration with a channel for the
    team ["a"]. *)
Definition published_world (off : bool) (h : state) : World state := {|
  plugin := {| Plugin_client := true; Plugin_configuration := Some 0;
               Plugin_botID := "bot" |};
  structs := [demo_configuration off];
  maps := [{[ "a" := "channel-a" ]}];
  host := h; trace := []
|}.

(** *** The runs of the examples *)

(** A host with the teams ["a"] and ["b"]; the reload and the channel
    setup run on it from a published configuration, the host refusing the
    channel of ["b"]. *)
Definition two_teams : HostAPI state := api [teamA; teamB].

Definition reload_refused : Outcome (option error) * World state :=
  OnConfigurationChange two_teams range_order json_Marshal
    (published_world false refusing_host).


(** A host without teams. *)
Definition teamless : HostAPI state := api [].

Definition reload_teamless : Outcome (option error) * World state :=
  OnConfigurationChange teamless range_order json_Marshal
    (published_world false quiet_host).

(** The dialog handler on a host with one team. *)
Definition one_team : HostAPI state := api [teamA].

Definition dialog (body : string) : Outcome unit * World state :=
  handleDialog one_team range_order manifest_Id json_Decode ChannelID TagUsers
    {| Request_Body := body |} (published_world false quiet_host).

(** *** Further hosts and worlds *)

(** [a], with another answer to CreatePost. *)
Definition with_CreatePost
    (f : Post -> state -> (option Post * option AppError) * state)
    (a : HostAPI state) : HostAPI state := {|
  GetTeams := GetTeams a;
  LoadPluginConfiguration := LoadPluginConfiguration a;
  GetUserByUsername := GetUserByUsername a;
  CreateUser := CreateUser a;
  UpdateUser := UpdateUser a;
  CreateTeamMember := CreateTeamMember a;
  EnsureBot := EnsureBot a;
  GetChannelByNameForTeamName := GetChannelByNameForTeamName a;
  CreateChannel := CreateChannel a;
  UploadFile := UploadFile a;
  CreatePost := f;
  GetUser := GetUser a
|}.

(** [a], with another answer to GetUser. *)
Definition with_GetUser
    (f : string -> state -> (option User * option AppError) * state)
    (a : HostAPI state) : HostAPI state := {|
  GetTeams := GetTeams a;
  LoadPluginConfiguration := LoadPluginConfiguration a;
  GetUserByUsername := GetUserByUsername a;
  CreateUser := CreateUser a;
  UpdateUser := UpdateUser a;
  CreateTeamMember := CreateTeamMember a;
  EnsureBot := EnsureBot a;
  GetChannelByNameForTeamName := GetChannelByNameForTeamName a;
  CreateChannel := CreateChannel a;
  UploadFile := UploadFile a;
  CreatePost := CreatePost a;
  GetUser := f
|}.

(** A host with the teams ["a"] and ["b"] that accepts no post in the
    channel ["channel-a"]. *)
Definition picky : HostAPI state :=
  with_CreatePost (fun p h =>
    if bool_decide (Post_ChannelId p = "channel-a")
    then ((None, Some forbidden), h)
    else ((Some (created_post p), None), add_post p h)) two_teams.

(** A host with one team that knows no user by id. *)
Definition strangers : HostAPI state :=
  with_GetUser (fun _ h => ((None, Some not_found), h)) one_team.

(** A plugin that has published a configuration with a channel for each
    of two teams. *)
Definition two_channel_world (h : state) : World state := {|
  plugin := {| Plugin_client := true; Plugin_configuration := Some 0;
               Plugin_botID := "bot" |};
  structs := [demo_configuration false];
  maps := [{[ "a" := "channel-a"; "b" := "channel-b" ]}];
  host := h; trace := []
|}.


End Mock.

(** ** Vocabulary of the properties *)

Section Vocabulary.
Context {H : Type}.
Local Open Scope list_scope.

(** The events a run from [w] to [w'] has added to the trace. *)
Definition run_events (w w' : World H) : list Event :=
  drop (length (trace w)) (trace w').

(** No dangling pointers: the published pointer addresses a struct, and
    every map reference held by a struct addresses a map. *)
Definition wf_world (w : World H) : Prop :=
  (forall c, Plugin_configuration (plugin w) = Some c ->
             is_Some (structs w !! c))
  /\ (forall c cfg r, structs w !! c = Some cfg ->
                      demoChannelIDs cfg = Some r -> r < length (maps w)).

(** What a holder of a map can do to it: bind a key (new or already
    bound) or remove one. *)
Inductive mutation :=
| Assign (k v : string)
| Delete (k : string).

Definition mutate (m : option mapref) (op : mutation) : M H unit :=
  match op with
  | Assign k v => map_store m k v
  | Delete k => map_delete m k
  end.

Fixpoint mutate_all (m : option mapref) (ops : list mutation) : M H unit :=
  match ops with
  | [] => ret tt
  | op :: rest => mutate m op ;;; mutate_all m rest
  end.

(** Two structs agree on every field that is not a reference. *)
Definition agree_scalars (a b : configuration) : Prop :=
  Username a = Username b
  /\ ChannelName a = ChannelName b
  /\ LastName a = LastName b
  /\ TextStyle a = TextStyle b
  /\ RandomSecret a = RandomSecret b
  /\ SecretMessage a = SecretMessage b
  /\ EnableMentionUser a = EnableMentionUser b
  /\ MentionUser a = MentionUser b
  /\ SecretNumber a = SecretNumber b
  /\ IntegrationRequestDelay a = IntegrationRequestDelay b
  /\ disabled a = disabled b
  /\ demoUserID a = demoUserID b.

(** The effect of a mutation on the bindings. *)
Definition apply_mutation (g : gmap string string) (op : mutation)
  : gmap string string :=
  match op with
  | Assign k v => <[k := v]> g
  | Delete k => delete k g
  end.

(** [wp m Q w]: run from [w], [m] ends (with a value or a panic) in an
    outcome and a world that satisfy [Q]. *)
Definition wp {A} (m : M H A) (Q : Outcome A -> World H -> Prop) (w : World H)
  : Prop := Q (m w).1 (m w).2.

(** A call to CreateChannel that the host answered with an error. *)
Definition creation_failed (e : Event) : Prop :=
  match e with
  | EvCreateChannel _ (_, Some _) => True
  | _ => False
  end.

Definition is_warning (e : Event) : Prop :=
  match e with
  | EvLogWarn _ _ => True
  | _ => False
  end.

(** [stable n m P w w']: from [w] to [w'] the published pointer, the
    structs below address [n] and the maps below address [m] are kept,
    the stores have not shrunk, and the events added all satisfy [P]. *)
Definition stable (n m : nat) (P : Event -> Prop) (w w' : World H) : Prop :=
  Plugin_configuration (plugin w') = Plugin_configuration (plugin w)
  /\ n <= length (structs w) <= length (structs w')
  /\ m <= length (maps w) <= length (maps w')
  /\ (forall l, l < n -> structs w' !! l = structs w !! l)
  /\ (forall l, l < m -> maps w' !! l = maps w !! l)
  /\ exists evs, trace w' = (trace w ++ evs) /\ Forall P evs.

(** [host_step P w w']: from [w] to [w'] only the host and the trace have
    moved, and the events added all satisfy [P]. *)
Definition host_step (P : Event -> Prop) (w w' : World H) : Prop :=
  plugin w' = plugin w
  /\ structs w' = structs w
  /\ maps w' = maps w
  /\ exists evs, trace w' = (trace w ++ evs) /\ Forall P evs.

(** Every event but a failed CreateChannel. *)
Definition ok_event (e : Event) : Prop := ~ creation_failed e.

(** The host has found ([GetChannelByNameForTeamName]) or created
    ([CreateChannel]) the channel [ch] for the team [team]. *)
Definition ensured (team : Team) (ch : Channel) (e : Event) : Prop :=
  match e with
  | EvGetChannelByNameForTeamName name _ _ (Some ch', _) =>
      name = Team_Name team /\ ch' = ch
  | EvCreateChannel c (Some ch', None) =>
      Channel_TeamId c = Team_Id team /\ ch' = ch
  | _ => False
  end.

(** The mapping [g] binds exactly the ids of [teams], each to the id of a
    channel that the events [evs] show ensured for a team of that id. *)
Definition channels_ensured (teams : list Team) (g : gmap string string)
    (evs : list Event) : Prop :=
  dom g = list_to_set (Team_Id <$> teams)
  /\ forall k v, g !! k = Some v ->
       exists team ch, team ∈ teams /\ Team_Id team = k /\ v = Channel_Id ch
                       /\ Exists (ensured team ch) evs.


(** The calls ensureDemoUser makes. *)
Definition user_event (e : Event) : Prop :=
  match e with
  | EvGetUserByUsername _ _ | EvCreateUser _ _ | EvUpdateUser _ _
  | EvGetTeams _ | EvCreateTeamMember _ _ _
  | EvLogInfo _ _ | EvLogError _ _ => True
  | _ => False
  end.

(** Every event but a call to EnsureBot that succeeded. *)
Definition bot_pending (e : Event) : Prop :=
  match e with
  | EvEnsureBot _ (_, None) => False
  | _ => True
  end.

(** The published pointer, if any, addresses a struct. *)
Definition published_valid (w : World H) : Prop :=
  forall p, Plugin_configuration (plugin w) = Some p -> is_Some (structs w !! p).

(** What the announcing loop of handleDialog does: it asks for the teams,
    warns, and creates posts without properties. *)
Definition announce_event (e : Event) : Prop :=
  match e with
  | EvGetTeams _ | EvLogWarn _ _ => True
  | EvCreatePost p _ => Post_Props p = ∅
  | _ => False
  end.

(** Every event but a write of the response status. *)
Definition no_header (e : Event) : Prop :=
  match e with
  | EvWriteHeader _ => False
  | _ => True
  end.

(** A post none of whose attachments has a colour. *)
Definition colourless (p : Post) : Prop :=
  forall atts att,
    Post_Props p !! "attachments" = Some (PAttachments atts) ->
    att ∈ atts -> Attachment_Color att = "".

Definition colourless_event (e : Event) : Prop :=
  match e with
  | EvCreatePost p _ => colourless p
  | _ => True
  end.

(** The nine conditional assignments of diffConfiguration, in program
    order: the condition, the key and the value assigned. *)
Definition diff_entries (old new : configuration)
  : list (bool * string * propvalue) := [
  (bool_decide (Username new <> Username old),
   "username", PString (Username new));
  (bool_decide (ChannelName new <> ChannelName old),
   "channel_name", PString (ChannelName new));
  (bool_decide (LastName new <> LastName old),
   "lastname", PString (LastName new));
  (bool_decide (TextStyle new <> TextStyle old),
   "text_style", PString (ChannelName new));
  (bool_decide (RandomSecret new <> RandomSecret old),
   "random_secret", PString "<HIDDEN>");
  (bool_decide (SecretMessage new <> SecretMessage old),
   "secret_message", PString (SecretMessage new));
  (bool_decide (EnableMentionUser new <> EnableMentionUser old),
   "enable_mention_user", PBool (EnableMentionUser new));
  (bool_decide (MentionUser new <> MentionUser old),
   "mention_user", PString (MentionUser new));
  (bool_decide (SecretNumber new <> SecretNumber old),
   "secret_number", PInt (SecretNumber new))
].

Definition set_entry (d : gmap string propvalue)
    (e : bool * string * propvalue) : gmap string propvalue :=
  if e.1.1 then <[e.1.2 := e.2]> d else d.

(** The map reference of a struct, if any, is below [n]. *)
Definition map_ok (n : nat) (cfg : configuration) : Prop :=
  forall r, demoChannelIDs cfg = Some r -> r < n.

(** One step of the copying loop of Clone. *)
Definition assign (g : gmap string string) (kv : string * string)
  : gmap string string := <[kv.1 := kv.2]> g.

(** The struct Clone builds: [cfg] with its map field redirected. *)
Definition clone_of (cfg : configuration) (r : mapref) : configuration :=
  with_demoChannelIDs (Some r) cfg.
End Vocabulary.

(** ** Vocabulary of the further properties *)

(** [strings.Join(elems, sep)] *)
Fixpoint strings_Join (elems : list string) (sep : string) : string :=
  match elems with
  | [] => ""
  | [x] => x
  | x :: rest => x ++ sep ++ strings_Join rest sep
  end.

(** The byte [a] occurs in [s]. *)
Definition contains_byte (a : ascii) (s : string) : Prop :=
  a ∈ list_ascii_of_string s.

(** [v == nil] for a decoded JSON value. *)
Definition is_nil (v : jvalue) : bool :=
  match v with
  | JNull => true
  | _ => false
  end.

Section RunVocabulary.
Context {H : Type}.
Local Open Scope list_scope.

(** The posts handed to CreatePost, in the order of the calls. *)
Definition posts_of (evs : list Event) : list Post :=
  omap (fun e => match e with
                 | EvCreatePost p _ => Some p
                 | _ => None
                 end) evs.

(** [host_run evs w w']: from [w] to [w'] only the host and the trace have
    moved, and the events added are [evs]. *)
Definition host_run (evs : list Event) (w w' : World H) : Prop :=
  plugin w' = plugin w
  /\ structs w' = structs w
  /\ maps w' = maps w
  /\ trace w' = trace w ++ evs.

(** What BackgroundJob does with the host: it creates posts and logs the
    posts that failed. *)
Definition job_event (e : Event) : Prop :=
  match e with
  | EvCreatePost _ _ => True
  | EvLogError msg _ => msg = "Failed to post BackgroundJob message"%string
  | _ => False
  end.

(** A call to CreatePost that the host answered without an error. *)
Definition post_accepted (e : Event) : Prop :=
  match e with
  | EvCreatePost _ (_, None) => True
  | _ => False
  end.

(** The text postPluginMessage sends for [msg] under the settings [cfg]. *)
Definition styled (cfg : configuration) (msg : string) : string :=
  (TextStyle cfg
   ++ (if EnableMentionUser cfg
       then "tag @" ++ MentionUser cfg ++ " | " ++ msg else msg)
   ++ TextStyle cfg)%string.

(** The team memberships asked of the host, in the order of the calls. *)
Definition memberships_of (evs : list Event) : list (string * string) :=
  omap (fun e => match e with
                 | EvCreateTeamMember teamID userID _ => Some (teamID, userID)
                 | _ => None
                 end) evs.


(** The user ensureDemoUser asks the host to create. *)
Definition demoUser (cfg : configuration) : User := {|
  User_Id := "";
  User_Username := Username cfg;
  User_Password := "Password_123";
  User_Email := (Username cfg ++ "@example.com")%string;
  User_Nickname := "Demo Day";
  User_FirstName := "Demo";
  User_LastName := LastName cfg;
  User_Position := "Bot"
|}.

(** The channel ensureDemoChannels asks the host to create for a team. *)
Definition demoChannel (cfg : configuration) (team : Team) : Channel := {|
  Channel_Id := "";
  Channel_TeamId := Team_Id team;
  Channel_Type := model_ChannelTypeOpen;
  Channel_DisplayName := "Demo Plugin";
  Channel_Name := ChannelName cfg;
  Channel_Header := "The channel used by the demo plugin.";
  Channel_Purpose := "This channel was created by a plugin for testing."
|}.

(** The calls ensureDemoChannels makes for one team: the lookup alone when
    it yields a channel, the lookup followed by the creation when it
    yields none. *)
Definition channel_setup (cfg : configuration) (team : Team) (evs : list Event)
  : Prop :=
  (exists ch err,
     evs = [EvGetChannelByNameForTeamName (Team_Name team) (ChannelName cfg)
              false (Some ch, err)])
  \/ (exists err res,
        evs = [EvGetChannelByNameForTeamName (Team_Name team) (ChannelName cfg)
                 false (None, err);
               EvCreateChannel (demoChannel cfg team) res]).

(** The nine fields diffConfiguration compares are the same in both. *)
Definition same_compared (old new : configuration) : Prop :=
  Username new = Username old
  /\ ChannelName new = ChannelName old
  /\ LastName new = LastName old
  /\ TextStyle new = TextStyle old
  /\ RandomSecret new = RandomSecret old
  /\ SecretMessage new = SecretMessage old
  /\ EnableMentionUser new = EnableMentionUser old
  /\ MentionUser new = MentionUser old
  /\ SecretNumber new = SecretNumber old.

(** The post handleDialog creates for a ticket. *)
Definition ticketPost (botID channelID username color : string)
    (fields : list SlackAttachmentField) : Post := {|
  Post_Id := "";
  Post_UserId := botID;
  Post_ChannelId := channelID;
  Post_RootId := "";
  Post_Message := ("@" ++ username ++ " submitted a ticket" ++ newline)%string;
  Post_Type := "custom_demo_plugin";
  Post_Props :=
    {[ "attachments"%string :=
         PAttachments [{| Attachment_Fallback := "test";
                          Attachment_Color := color;
                          Attachment_Fields := fields |}] ]};
  Post_FileIds := []
|}.

(** The reply handleDialog posts in the thread of the ticket [rootID]. *)
Definition replyPost (botID channelID rootID msg : string) : Post := {|
  Post_Id := "";
  Post_UserId := botID;
  Post_ChannelId := channelID;
  Post_RootId := rootID;
  Post_Message := msg;
  Post_Type := "custom_demo_plugin";
  Post_Props := ∅;
  Post_FileIds := []
|}.

(** Every event but a call to CreatePost. *)
Definition no_post (e : Event) : Prop :=
  match e with
  | EvCreatePost _ _ => False
  | _ => True
  end.

(** What existed in [w] is in [w'] what it was: no struct and no map of
    [w] has been written to. *)
Definition snapshots_kept (w w' : World H) : Prop :=
  (forall c cfg, structs w !! c = Some cfg -> structs w' !! c = Some cfg)
  /\ (forall r g, maps w !! r = Some g -> maps w' !! r = Some g).

End RunVocabulary.

(** ** Running the monad *)

Section Run.
Context {H : Type}.
Local Open Scope list_scope.

Lemma bind_inv {A B} (m : M H A) (k : A -> M H B) w r w' :
  bind m k w = (r, w') ->
  (exists a w1, m w = (Ok a, w1) /\ k a w1 = (r, w'))
  \/ (exists msg, m w = (Panic msg, w') /\ r = Panic msg).
Proof.
  unfold bind. destruct (m w) as [[a|msg] w1]; intros E.
  - left. eauto.
  - right. inversion E; subst. eauto.
Qed.

Lemma bind_ok {A B} (m : M H A) (k : A -> M H B) w a w1 :
  m w = (Ok a, w1) -> bind m k w = k a w1.
Proof. unfold bind. by intros ->. Qed.

Lemma bind_panic {A B} (m : M H A) (k : A -> M H B) w msg w1 :
  m w = (Panic msg, w1) -> bind m k w = (Panic msg, w1).
Proof. unfold bind. by intros ->. Qed.

(** *** Rules of [wp] *)

Lemma wp_elim {A} (m : M H A) Q w r w' :
  m w = (r, w') -> wp m Q w -> Q r w'.
Proof. unfold wp. by intros ->. Qed.

Lemma wp_mono {A} (m : M H A) (Q Q' : Outcome A -> World H -> Prop) w :
  (forall r w', Q r w' -> Q' r w') -> wp m Q w -> wp m Q' w.
Proof. unfold wp. auto. Qed.

Lemma wp_and {A} (m : M H A) (Q Q' : Outcome A -> World H -> Prop) w :
  wp m Q w -> wp m Q' w -> wp m (fun r w' => Q r w' /\ Q' r w') w.
Proof. unfold wp. auto. Qed.

Lemma wp_bind {A B} (m : M H A) (k : A -> M H B) Q w :
  wp m (fun r w1 => match r with
                    | Ok a => wp (k a) Q w1
                    | Panic msg => Q (Panic msg) w1
                    end) w ->
  wp (bind m k) Q w.
Proof. unfold wp, bind. by destruct (m w) as [[a|msg] w1]. Qed.

Lemma wp_ret {A} (a : A) Q (w : World H) : Q (Ok a) w -> wp (ret a) Q w.
Proof. done. Qed.

Lemma wp_panic {A} msg (Q : Outcome A -> World H -> Prop) w :
  Q (Panic msg) w -> wp (panic msg) Q w.
Proof. done. Qed.

Lemma wp_api_call {A} (f : H -> A * H) ev Q w :
  Q (Ok (f (host w)).1) (with_host (f (host w)).2 (ev (f (host w)).1) w) ->
  wp (api_call f ev) Q w.
Proof. done. Qed.

Lemma wp_api_call_gen {A} (f : H -> A * H) ev Q w :
  (forall a h, f (host w) = (a, h) -> Q (Ok a) (with_host h (ev a) w)) ->
  wp (api_call f ev) Q w.
Proof.
  intros HQ. apply wp_api_call. apply HQ. by destruct (f (host w)).
Qed.

Lemma wp_emit e Q (w : World H) : Q (Ok tt) (with_event e w) -> wp (emit e) Q w.
Proof. done. Qed.

Lemma wp_get_plugin Q (w : World H) : Q (Ok (plugin w)) w -> wp get_plugin Q w.
Proof. done. Qed.

Lemma wp_put_plugin p Q (w : World H) :
  Q (Ok tt) (with_plugin p w) -> wp (put_plugin p) Q w.
Proof. done. Qed.

Lemma wp_alloc_struct c Q (w : World H) :
  Q (Ok (length (structs w))) (with_structs (structs w ++ [c]) w) ->
  wp (alloc_struct c) Q w.
Proof. done. Qed.

Lemma wp_load_struct c Q (w : World H) :
  (forall v, structs w !! c = Some v -> Q (Ok v) w) ->
  (structs w !! c = None -> Q (Panic nil_deref) w) ->
  wp (load_struct c) Q w.
Proof.
  intros Hs Hn. unfold wp, load_struct.
  destruct (structs w !! c) as [v0|]; simpl; [by apply Hs|by apply Hn].
Qed.

Lemma wp_store_struct c v Q (w : World H) :
  (is_Some (structs w !! c) ->
   Q (Ok tt) (with_structs (<[c := v]> (structs w)) w)) ->
  (structs w !! c = None -> Q (Panic nil_deref) w) ->
  wp (store_struct c v) Q w.
Proof.
  intros Hs Hn. unfold wp, store_struct.
  destruct (structs w !! c) as [v0|]; simpl; [by apply Hs|by apply Hn].
Qed.

Lemma wp_make_map Q (w : World H) :
  Q (Ok (length (maps w))) (with_maps (maps w ++ [∅]) w) -> wp make_map Q w.
Proof. done. Qed.

Lemma wp_map_lookup m k Q (w : World H) :
  Q (Ok (map_contents w m !! k)) w -> wp (map_lookup m k) Q w.
Proof. done. Qed.

Lemma wp_map_store (r : mapref) k v Q (w : World H) :
  (forall g, maps w !! r = Some g ->
             Q (Ok tt) (with_maps (<[r := <[k := v]> g]> (maps w)) w)) ->
  (maps w !! r = None -> Q (Panic nil_deref) w) ->
  wp (map_store (Some r) k v) Q w.
Proof.
  intros Hs Hn. unfold wp, map_store.
  destruct (maps w !! r) as [g|]; simpl; [by apply Hs|by apply Hn].
Qed.

Lemma wp_deref {A} (p : option A) Q (w : World H) :
  (forall a, p = Some a -> Q (Ok a) w) ->
  (p = None -> Q (Panic nil_deref) w) ->
  wp (deref p) Q w.
Proof. intros Hs Hn. destruct p; unfold wp; simpl; [by apply Hs|by apply Hn]. Qed.

(** A loop is verified with an invariant [I], indexed by the elements
    already visited, that holds whenever the body goes on; leaving the loop
    early or panicking must establish [Q]. *)
Lemma wp_for_range_prefix {A R} (I : list A -> World H -> Prop) (l : list A)
    (body : A -> M H (option R)) Q :
  (forall pre x post w, l = pre ++ x :: post -> I pre w ->
     wp (body x) (fun r w' => match r with
                              | Ok None => I (pre ++ [x]) w'
                              | other => Q other w'
                              end) w) ->
  (forall w, I l w -> Q (Ok None) w) ->
  forall w, I [] w -> wp (for_range l body) Q w.
Proof.
  intros Hbody Hexit.
  cut (forall post pre w, l = pre ++ post -> I pre w ->
                          wp (for_range post body) Q w).
  { intros Hcut w HI. by apply (Hcut l [] w). }
  induction post as [|x post IH]; intros pre w El HI; simpl.
  - apply Hexit. by rewrite El, app_nil_r.
  - apply wp_bind.
    eapply wp_mono; [|by apply (Hbody pre x post)].
    intros [[v|]|msg] w'; simpl; auto.
    intros HI'. apply (IH (pre ++ [x])); [|done].
    by rewrite <- app_assoc.
Qed.

(** The same with an invariant that does not look at the elements. *)
Lemma wp_for_range {A R} (I : World H -> Prop) (l : list A)
    (body : A -> M H (option R)) Q :
  (forall x w, x ∈ l -> I w ->
     wp (body x) (fun r w' => match r with
                              | Ok None => I w'
                              | other => Q other w'
                              end) w) ->
  (forall w, I w -> Q (Ok None) w) ->
  forall w, I w -> wp (for_range l body) Q w.
Proof.
  intros Hbody Hexit. induction l as [|x l IH]; intros w HI; simpl.
  - by apply Hexit.
  - apply wp_bind.
    eapply wp_mono; [|apply Hbody; [left|exact HI]].
    intros [[v|]|msg] w'; simpl; auto.
    intros HI'. apply IH; [|done].
    intros y w1 Hy. apply Hbody. by right.
Qed.

(** *** Rules of [host_step] and [stable] *)

Lemma host_step_refl P (w : World H) : host_step P w w.
Proof. repeat split. exists []. by rewrite app_nil_r. Qed.

Lemma host_step_host P (w w1 : World H) h e :
  host_step P w w1 -> P e -> host_step P w (with_host h e w1).
Proof.
  intros (? & ? & ? & evs & E & HP) He. repeat split; try done.
  exists (evs ++ [e]). simpl. rewrite E, app_assoc. split; [done|].
  apply Forall_app. by split; [|constructor].
Qed.


Lemma host_step_event P (w w1 : World H) e :
  host_step P w w1 -> P e -> host_step P w (with_event e w1).
Proof.
  intros (? & ? & ? & evs & E & HP) He. repeat split; try done.
  exists (evs ++ [e]). simpl. rewrite E, app_assoc. split; [done|].
  apply Forall_app. by split; [|constructor].
Qed.

Lemma stable_refl n m P (w : World H) :
  n <= length (structs w) -> m <= length (maps w) -> stable n m P w w.
Proof.
  intros. repeat split; try done; try lia.
  exists []. by rewrite app_nil_r.
Qed.

Lemma stable_host_step n m P (w0 w w' : World H) :
  stable n m P w0 w -> host_step P w w' -> stable n m P w0 w'.
Proof.
  intros (Hp & Hs & Hm & Hsl & Hml & evs & E & HP) (Ep & Es & Em & evs' & E' & HP').
  unfold stable. rewrite Ep, Es, Em.
  repeat split; try done; try lia.
  exists (evs ++ evs'). rewrite E', E, app_assoc. split; [done|].
  by apply Forall_app.
Qed.

Lemma stable_plugin n m P (w0 w : World H) p :
  stable n m P w0 w ->
  Plugin_configuration p = Plugin_configuration (plugin w) ->
  stable n m P w0 (with_plugin p w).
Proof.
  intros (Hp & Hs & Hm & Hsl & Hml & Hev) Ep.
  unfold stable. simpl. rewrite Ep. repeat split; try done; lia.
Qed.

Lemma stable_alloc_struct n m P (w0 w : World H) c :
  stable n m P w0 w -> stable n m P w0 (with_structs (structs w ++ [c]) w).
Proof.
  intros (Hp & Hs & Hm & Hsl & Hml & Hev).
  unfold stable. simpl. rewrite length_app. simpl.
  repeat split; try done; try lia.
  intros l Hl. rewrite lookup_app_l by lia. by apply Hsl.
Qed.

Lemma stable_store_struct n m P (w0 w : World H) c v :
  stable n m P w0 w -> n <= c ->
  stable n m P w0 (with_structs (<[c := v]> (structs w)) w).
Proof.
  intros (Hp & Hs & Hm & Hsl & Hml & Hev) Hc.
  unfold stable. simpl. rewrite length_insert.
  repeat split; try done; try lia.
  intros l Hl. rewrite list_lookup_insert_ne by lia. by apply Hsl.
Qed.

Lemma stable_make_map n m P (w0 w : World H) g :
  stable n m P w0 w -> stable n m P w0 (with_maps (maps w ++ [g]) w).
Proof.
  intros (Hp & Hs & Hm & Hsl & Hml & Hev).
  unfold stable. simpl. rewrite length_app. simpl.
  repeat split; try done; try lia.
  intros l Hl. rewrite lookup_app_l by lia. by apply Hml.
Qed.

Lemma stable_map_store n m P (w0 w : World H) r g :
  stable n m P w0 w -> m <= r ->
  stable n m P w0 (with_maps (<[r := g]> (maps w)) w).
Proof.
  intros (Hp & Hs & Hm & Hsl & Hml & Hev) Hr.
  unfold stable. simpl. rewrite length_insert.
  repeat split; try done; try lia.
  intros l Hl. rewrite list_lookup_insert_ne by lia. by apply Hml.
Qed.

Lemma stable_host n m P (w0 w : World H) h e :
  stable n m P w0 w -> P e -> stable n m P w0 (with_host h e w).
Proof.
  intros Hs He. eapply stable_host_step; [exact Hs|].
  apply host_step_host; [apply host_step_refl|done].
Qed.

Lemma stable_event n m P (w0 w : World H) e :
  stable n m P w0 w -> P e -> stable n m P w0 (with_event e w).
Proof.
  intros Hs He. eapply stable_host_step; [exact Hs|].
  apply host_step_event; [apply host_step_refl|done].
Qed.

Lemma stable_length_structs n m P (w0 w : World H) :
  stable n m P w0 w -> n <= length (structs w).
Proof. intros (_ & ? & _). lia. Qed.

Lemma stable_length_maps n m P (w0 w : World H) :
  stable n m P w0 w -> m <= length (maps w).
Proof. intros (_ & _ & ? & _). lia. Qed.



Lemma stable_clone n m P (w0 w : World H) c g :
  stable n m P w0 w ->
  stable n m P w0 (with_structs (structs w ++ [c]) (with_maps (maps w ++ [g]) w)).
Proof.
  intros HS. apply (stable_alloc_struct n m P w0 (with_maps (maps w ++ [g]) w)).
  by apply stable_make_map.
Qed.

Lemma stable_weaken n m (P P' : Event -> Prop) (w0 w : World H) :
  (forall e, P e -> P' e) -> stable n m P w0 w -> stable n m P' w0 w.
Proof.
  intros HPP (Hp & Hs & Hm & Hsl & Hml & evs & E & HP).
  repeat split; try done; try lia.
  exists evs. split; [done|]. eapply Forall_impl; eauto.
Qed.

Lemma stable_run_events n m P (w0 w : World H) :
  stable n m P w0 w -> Forall P (run_events w0 w).
Proof.
  intros (_ & _ & _ & _ & _ & evs & E & HP). unfold run_events.
  by rewrite E, drop_app_length.
Qed.

(** *** Rules of [wf_world] *)

Lemma wf_map_ok (w : World H) c cfg :
  wf_world w -> structs w !! c = Some cfg -> map_ok (length (maps w)) cfg.
Proof. intros [_ Hmaps] Hc r Hr. by eapply Hmaps. Qed.

Lemma map_ok_mono n n' cfg : map_ok n cfg -> n <= n' -> map_ok n' cfg.
Proof. intros Hok Hle r Hr. apply Hok in Hr. lia. Qed.

Lemma map_ok_same n a b :
  demoChannelIDs a = demoChannelIDs b -> map_ok n b -> map_ok n a.
Proof. intros E Hok r. rewrite E. apply Hok. Qed.

Lemma map_ok_nil n cfg : demoChannelIDs cfg = None -> map_ok n cfg.
Proof. intros E r. by rewrite E. Qed.

Lemma map_ok_ref n cfg r :
  demoChannelIDs cfg = Some r -> r < n -> map_ok n cfg.
Proof. intros E Hr r'. rewrite E. by intros [= <-]. Qed.

Lemma wf_host (w : World H) h e : wf_world w -> wf_world (with_host h e w).
Proof. done. Qed.

Lemma wf_event (w : World H) e : wf_world w -> wf_world (with_event e w).
Proof. done. Qed.

Lemma wf_plugin (w : World H) p :
  wf_world w ->
  Plugin_configuration p = Plugin_configuration (plugin w) ->
  wf_world (with_plugin p w).
Proof. intros [Hpub Hmaps] E. split; [|done]. simpl. by rewrite E. Qed.

Lemma wf_publish (w : World H) p c :
  wf_world w -> Plugin_configuration p = Some c -> is_Some (structs w !! c) ->
  wf_world (with_plugin p w).
Proof.
  intros [Hpub Hmaps] E Hc. split; [|done]. simpl. rewrite E.
  by intros ? [= <-].
Qed.

Lemma wf_alloc (w : World H) cfg :
  wf_world w -> map_ok (length (maps w)) cfg ->
  wf_world (with_structs (structs w ++ [cfg]) w).
Proof.
  intros [Hpub Hmaps] Hok. split; simpl.
  - intros c Hc. apply lookup_lt_is_Some. rewrite length_app.
    apply Hpub, lookup_lt_is_Some in Hc. lia.
  - intros c cfg' r Hc Hr. apply lookup_app_Some in Hc as [Hc|[_ Hc]].
    + by eapply Hmaps.
    + apply list_lookup_singleton_Some in Hc as [_ <-]. by apply Hok.
Qed.

Lemma wf_store (w : World H) c v :
  wf_world w -> map_ok (length (maps w)) v ->
  wf_world (with_structs (<[c := v]> (structs w)) w).
Proof.
  intros [Hpub Hmaps] Hok. split; simpl.
  - intros p Hp. apply lookup_lt_is_Some. rewrite length_insert.
    by apply lookup_lt_is_Some, Hpub.
  - intros c' cfg' r Hc Hr.
    apply list_lookup_insert_Some in Hc as [(_ & <- & _)|[_ Hc]].
    + by apply Hok.
    + by eapply Hmaps.
Qed.

Lemma wf_make_map (w : World H) g :
  wf_world w -> wf_world (with_maps (maps w ++ [g]) w).
Proof.
  intros [Hpub Hmaps]. split; [done|]. simpl. intros c cfg r Hc Hr.
  rewrite length_app. specialize (Hmaps _ _ _ Hc Hr). lia.
Qed.

Lemma wf_map_store (w : World H) r g :
  wf_world w -> wf_world (with_maps (<[r := g]> (maps w)) w).
Proof.
  intros [Hpub Hmaps]. split; [done|]. simpl. intros c cfg r' Hc Hr.
  rewrite length_insert. by eapply Hmaps.
Qed.

Lemma wf_host_step P (w w' : World H) :
  host_step P w w' -> wf_world w -> wf_world w'.
Proof.
  intros (Ep & Es & Em & _) [Hpub Hmaps].
  split; rewrite ?Ep, ?Es, ?Em; done.
Qed.

(** A step that keeps the plugin and the structs and adds maps. *)
Lemma wf_extend (w w' : World H) tail :
  wf_world w ->
  plugin w' = plugin w -> structs w' = structs w -> maps w' = maps w ++ tail ->
  wf_world w'.
Proof.
  intros [Hpub Hmaps] Ep Es Em. split; rewrite ?Ep, ?Es, ?Em; [done|].
  intros c cfg r Hc Hr. rewrite length_app. specialize (Hmaps _ _ _ Hc Hr). lia.
Qed.
End Run.

(** One step of symbolic execution of a [wp] goal. *)
Ltac wp_prim :=
  cbv beta iota zeta; cbn [fst snd];
  lazymatch goal with
  | |- wp (bind _ _) _ _ => apply wp_bind
  | |- wp (ret _) _ _ => apply wp_ret
  | |- wp (panic _) _ _ => apply wp_panic
  | |- wp (api_call _ _) _ _ =>
      let a := fresh "res" in
      let h := fresh "h" in
      let Hc := fresh "Hcall" in
      apply wp_api_call_gen; intros a h Hc; try destruct a as [? ?]
  | |- wp (emit _) _ _ => apply wp_emit
  | |- wp get_plugin _ _ => apply wp_get_plugin
  | |- wp (put_plugin _) _ _ => apply wp_put_plugin
  | |- wp (alloc_struct _) _ _ => apply wp_alloc_struct
  | |- wp make_map _ _ => apply wp_make_map
  | |- wp (map_lookup _ _) _ _ => apply wp_map_lookup
  | |- wp (load_struct _) _ _ => apply wp_load_struct; [intros ? ?|intros ?]
  | |- wp (store_struct _ _) _ _ => apply wp_store_struct; [intros ?|intros ?]
  | |- wp (map_store (Some _) _ _) _ _ =>
      apply wp_map_store; [intros ? ?|intros ?]
  | |- wp (deref _) _ _ => apply wp_deref; [intros ? ?|intros ?]
  | |- wp (match ?x with _ => _ end) _ _ => destruct x eqn:?
  end; cbv beta iota zeta; cbn [fst snd].

(** Closes a goal [host_step P w w'] where [w'] is [w], or a world known
    to be a host step away from [w], followed by host calls and events. *)
Ltac host_step_solve :=
  repeat first
    [ assumption
    | apply host_step_refl
    | apply host_step_host
    | apply host_step_event
    | (cbv beta iota delta
         [ok_event creation_failed user_event bot_pending announce_event
          no_header];
       first [tauto | reflexivity]) ].

(** Closes a goal [stable n m P w0 w'] where [w'] is a world known to be
    stable followed by host calls, events and allocations. *)
Ltac stable_solve :=
  repeat first
    [ assumption
    | apply stable_host
    | apply stable_event
    | apply stable_clone
    | (apply stable_store_struct; [|lia])
    | apply stable_alloc_struct
    | apply stable_make_map
    | (apply stable_plugin; [|reflexivity])
    | (cbv beta iota delta
         [ok_event creation_failed user_event bot_pending announce_event
          no_header];
       first [tauto | reflexivity]) ].

(** Refutes a read through a pointer that is known to be allocated. *)
Ltac dangling :=
  exfalso; simpl in *;
  repeat match goal with
         | Hn : _ !! _ = None |- _ => apply lookup_ge_None_1 in Hn
         | Hs : is_Some (_ !! _) |- _ => apply lookup_lt_is_Some_1 in Hs
         | Hs : _ !! _ = Some _ |- _ => apply lookup_lt_Some in Hs
         end;
  rewrite ?length_app, ?length_insert in *; simpl in *; lia.

(** Closes a goal [wf_world w'] where [w'] is a well-formed world followed
    by host calls, events, allocations and writes of structs whose map
    reference is that of a struct read before. *)
Ltac wf_solve :=
  repeat first
    [ assumption
    | apply wf_host
    | apply wf_event
    | apply wf_make_map
    | apply wf_map_store
    | (apply wf_plugin; [|reflexivity])
    | (apply wf_alloc; [|map_ok_solve])
    | (apply wf_store; [|map_ok_solve]) ]
with map_ok_solve :=
  first
    [ by apply map_ok_nil
    | match goal with
      | Hs : structs ?y !! _ = Some ?v |- map_ok _ _ =>
          apply map_ok_mono with (n := length (maps y));
          [ apply map_ok_same with (b := v); [reflexivity|];
            eapply (wf_map_ok y); [wf_solve|exact Hs]
          | simpl; rewrite ?length_app, ?length_insert; simpl; lia ]
      end ].

(** Closes goals about the events of a short explicit trace. *)
Ltac events_solve :=
  rewrite ?Forall_app, ?Exists_app, ?Forall_cons, ?Exists_cons,
    ?Forall_nil, ?Exists_nil;
  unfold ok_event, creation_failed, is_warning; simpl;
  intuition (auto; try congruence).

(** ** Properties of the configuration manager *)

Section Properties.
Context {H : Type}.
Local Open Scope list_scope.
Variable api : HostAPI H.
Variable range_order : forall V : Type, gmap string V -> list (string * V).

Implicit Types (w : World H) (c : ptr) (cfg : configuration).

Lemma getConfiguration_published w c :
  Plugin_configuration (plugin w) = Some c ->
  getConfiguration w = (Ok c, w).
Proof. intros E. unfold getConfiguration, bind, get_plugin. by rewrite E. Qed.

Lemma getConfiguration_unpublished w :
  Plugin_configuration (plugin w) = None ->
  getConfiguration w
  = (Ok (length (structs w)),
     with_structs (structs w ++ [zero_configuration]) w).
Proof. intros E. unfold getConfiguration, bind, get_plugin. by rewrite E. Qed.

Lemma load_struct_ok w c cfg :
  structs w !! c = Some cfg -> load_struct c w = (Ok cfg, w).
Proof. intros E. unfold load_struct. by rewrite E. Qed.

Lemma store_struct_ok w c cfg v :
  structs w !! c = Some cfg ->
  store_struct c v w = (Ok tt, with_structs (<[c := v]> (structs w)) w).
Proof. intros E. unfold store_struct. by rewrite E. Qed.

(** C5.  In a plugin state in which nothing has been published (the
    configuration pointer is nil), getConfiguration neither panics nor
    returns nil: it returns a pointer to a fresh struct whose fields all
    have their zero values, and publishes nothing. *)
Theorem getConfiguration_unpublished_zero w :
  Plugin_configuration (plugin w) = None ->
  exists c w',
    getConfiguration w = (Ok c, w')
    /\ structs w' !! c = Some zero_configuration
    /\ Username zero_configuration = ""
    /\ ChannelName zero_configuration = ""
    /\ LastName zero_configuration = ""
    /\ TextStyle zero_configuration = ""
    /\ RandomSecret zero_configuration = ""
    /\ SecretMessage zero_configuration = ""
    /\ EnableMentionUser zero_configuration = false
    /\ MentionUser zero_configuration = ""
    /\ SecretNumber zero_configuration = 0%Z
    /\ IntegrationRequestDelay zero_configuration = 0%Z
    /\ disabled zero_configuration = false
    /\ demoUserID zero_configuration = ""
    /\ demoChannelIDs zero_configuration = None
    /\ plugin w' = plugin w.
Proof.
  intros Hnil.
  exists (length (structs w)),
         (with_structs (structs w ++ [zero_configuration]) w).
  split.
  - by apply getConfiguration_unpublished.
  - split; [|by repeat split].
    simpl. rewrite lookup_app_r by lia. by rewrite Nat.sub_diag.
Qed.

Lemma setConfiguration_same_instance_panics_aux w c :
  Plugin_configuration (plugin w) = Some c ->
  setConfiguration (Some c) w
  = (Panic "setConfiguration called with the existing configuration", w).
Proof.
  intros Hpub. unfold setConfiguration, bind, get_plugin. rewrite Hpub.
  rewrite !bool_decide_eq_true_2 by done. reflexivity.
Qed.

(** C2.  Whatever the plugin state, setConfiguration called with the
    very pointer that is published panics, and the published pointer is
    not replaced. *)
Theorem setConfiguration_same_instance_panics w c :
  Plugin_configuration (plugin w) = Some c ->
  setConfiguration (Some c) w
  = (Panic "setConfiguration called with the existing configuration", w).
Proof.
  intros Hpub. unfold setConfiguration, bind, get_plugin. rewrite Hpub.
  rewrite !bool_decide_eq_true_2 by done. reflexivity.
Qed.

(** With nothing published, the guard [configuration != nil] lets a nil
    argument through: there is no instance to be mistaken for. *)
Lemma setConfiguration_nil_unpublished w :
  Plugin_configuration (plugin w) = None ->
  exists w', setConfiguration None w = (Ok tt, w')
             /\ Plugin_configuration (plugin w') = None.
Proof.
  intros Hnil. eexists. split.
  - unfold setConfiguration, bind, get_plugin. rewrite Hnil.
    rewrite bool_decide_eq_false_2 by (intros ?; done). reflexivity.
  - reflexivity.
Qed.

(** A different pointer is published without a panic. *)
Lemma setConfiguration_other w c :
  Plugin_configuration (plugin w) <> Some c ->
  setConfiguration (Some c) w
  = (Ok tt, with_plugin {| Plugin_client := Plugin_client (plugin w);
                           Plugin_configuration := Some c;
                           Plugin_botID := Plugin_botID (plugin w) |} w).
Proof.
  intros Hne. unfold setConfiguration, bind, get_plugin.
  rewrite (bool_decide_eq_false_2 (Plugin_configuration (plugin w) = Some c))
    by done.
  rewrite andb_false_r. reflexivity.
Qed.

(** C8.  When the published configuration is disabled, BackgroundJob
    returns at once and leaves the world as it was: the host is not
    called, so no post is created on any channel. *)
Theorem BackgroundJob_disabled_skips w c cfg :
  Plugin_configuration (plugin w) = Some c ->
  structs w !! c = Some cfg ->
  disabled cfg = true ->
  BackgroundJob api range_order w = (Ok tt, w)
  /\ forall post res, EvCreatePost post res ∉ run_events w w.
Proof.
  intros Hpub Hc Hdis. split.
  - unfold BackgroundJob.
    rewrite (bind_ok _ _ _ _ _ (getConfiguration_published _ _ Hpub)).
    rewrite (bind_ok _ _ _ _ _ (load_struct_ok _ _ _ Hc)).
    by rewrite Hdis.
  - intros post res. unfold run_events. rewrite drop_all. apply not_elem_of_nil.
Qed.

(** *** Clone *)

Lemma with_maps_id w : with_maps (maps w) w = w.
Proof. by destruct w. Qed.

Lemma with_structs_id w : with_structs (structs w) w = w.
Proof. by destruct w. Qed.

(** The copying loop of Clone, run on a map [r] that holds [g]. *)
Lemma copy_loop_run (r : mapref) entries : forall w g,
  maps w !! r = Some g ->
  for_range (R := unit) entries (fun kv =>
    map_store (Some r) kv.1 kv.2 ;;; ret None) w
  = (Ok None, with_maps (<[r := fold_left assign entries g]> (maps w)) w).
Proof.
  induction entries as [|kv entries IH]; intros w g Hr; simpl.
  - rewrite list_insert_id by done. by rewrite with_maps_id.
  - unfold bind at 1. unfold bind at 1. unfold map_store at 1. rewrite Hr.
    unfold ret at 1.
    rewrite (IH _ (<[kv.1 := kv.2]> g)).
    + simpl. by rewrite list_insert_insert_eq.
    + simpl. apply list_lookup_insert_eq. by eapply lookup_lt_Some.
Qed.

Lemma fold_assign_list_to_map (l : list (string * string)) :
  fold_left assign l ∅ = list_to_map (reverse l).
Proof.
  induction l as [|kv l IH] using rev_ind; [done|].
  rewrite fold_left_app, reverse_snoc. simpl. by rewrite IH.
Qed.

(** Go leaves the order of [range] over a map unspecified; it visits
    every binding once. *)
Hypothesis range_order_perm :
  forall (V : Type) (m : gmap string V), range_order V m ≡ₚ map_to_list m.

(** Whatever the order of enumeration, the loop rebuilds the map. *)
Lemma fold_assign_range (g : gmap string string) :
  fold_left assign (range_order string g) ∅ = g.
Proof using range_order_perm.
  rewrite fold_assign_list_to_map.
  rewrite <- (list_to_map_to_list g) at 2.
  apply list_to_map_proper.
  - rewrite fmap_reverse, reverse_Permutation, range_order_perm.
    apply NoDup_fst_map_to_list.
  - rewrite reverse_Permutation. apply range_order_perm.
Qed.

(** Clone, run: one new map, filled by the copying loop, one new struct,
    nothing else touched. *)
Lemma Clone_run_loop w c cfg :
  structs w !! c = Some cfg ->
  Clone range_order c w
  = (Ok (length (structs w)),
     with_structs (structs w ++ [clone_of cfg (length (maps w))])
       (with_maps
          (maps w ++ [fold_left assign
                        (range_order string (map_contents w (demoChannelIDs cfg)))
                        ∅]) w)).
Proof.
  intros Hc. unfold Clone.
  unfold bind at 1. unfold make_map at 1.
  unfold bind at 1. unfold load_struct at 1. simpl structs at 1. rewrite Hc.
  unfold bind at 1. unfold map_range at 1.
  unfold bind at 1.
  erewrite copy_loop_run; last first.
  { simpl. rewrite lookup_app_r by lia. by rewrite Nat.sub_diag. }
  unfold alloc_struct. simpl.
  assert (map_contents
            (with_maps (maps w ++ [∅]) w) (demoChannelIDs cfg)
          = map_contents w (demoChannelIDs cfg)) as ->.
  { unfold map_contents. destruct (demoChannelIDs cfg) as [r|]; [|done].
    simpl. destruct (decide (r < length (maps w))).
    - by rewrite lookup_app_l.
    - rewrite (lookup_ge_None_2 (maps w)) by lia.
      rewrite lookup_app_r by lia.
      by destruct (r - length (maps w)) as [|[|k]]. }
  rewrite insert_app_r_alt by lia. rewrite Nat.sub_diag. reflexivity.
Qed.

Lemma Clone_dangling w c :
  structs w !! c = None ->
  Clone range_order c w = (Panic nil_deref, with_maps (maps w ++ [∅]) w).
Proof.
  intros Hc. unfold Clone.
  unfold bind at 1. unfold make_map at 1.
  unfold bind at 1. unfold load_struct at 1. simpl structs at 1. by rewrite Hc.
Qed.

Lemma wp_Clone c Q w :
  (forall cfg g, structs w !! c = Some cfg ->
     Q (Ok (length (structs w)))
       (with_structs (structs w ++ [clone_of cfg (length (maps w))])
          (with_maps (maps w ++ [g]) w))) ->
  (structs w !! c = None ->
     Q (Panic nil_deref) (with_maps (maps w ++ [∅]) w)) ->
  wp (Clone range_order c) Q w.
Proof.
  intros Hok Hpanic. unfold wp. destruct (structs w !! c) as [cfg|] eqn:Hc.
  - rewrite (Clone_run_loop _ _ _ Hc). by apply Hok.
  - rewrite (Clone_dangling _ _ Hc). by apply Hpanic.
Qed.

Lemma wp_getConfiguration Q w :
  (forall c, Plugin_configuration (plugin w) = Some c -> Q (Ok c) w) ->
  (Plugin_configuration (plugin w) = None ->
     Q (Ok (length (structs w)))
       (with_structs (structs w ++ [zero_configuration]) w)) ->
  wp getConfiguration Q w.
Proof.
  intros Hpub Hnil. unfold wp.
  destruct (Plugin_configuration (plugin w)) as [c|] eqn:E.
  - rewrite (getConfiguration_published _ _ E). by apply Hpub.
  - rewrite (getConfiguration_unpublished _ E). by apply Hnil.
Qed.

Lemma wp_setConfiguration c Q w :
  (Plugin_configuration (plugin w) = Some c ->
     Q (Panic "setConfiguration called with the existing configuration") w) ->
  (Plugin_configuration (plugin w) <> Some c ->
     Q (Ok tt)
       (with_plugin {| Plugin_client := Plugin_client (plugin w);
                       Plugin_configuration := Some c;
                       Plugin_botID := Plugin_botID (plugin w) |} w)) ->
  wp (setConfiguration (Some c)) Q w.
Proof.
  intros Hsame Hother. unfold wp.
  destruct (decide (Plugin_configuration (plugin w) = Some c)) as [E|E].
  - rewrite (setConfiguration_same_instance_panics_aux _ _ E). by apply Hsame.
  - rewrite (setConfiguration_other _ _ E). by apply Hother.
Qed.

Lemma wp_map_range m Q w :
  Q (Ok (range_order string (map_contents w m))) w ->
  wp (map_range range_order m) Q w.
Proof. done. Qed.

(** Symbolic execution through the configuration functions too. *)
Ltac wp_step :=
  cbv beta iota zeta; cbn [fst snd];
  lazymatch goal with
  | |- wp getConfiguration _ _ =>
      apply wp_getConfiguration; [intros ? ?|intros ?]
  | |- wp (Clone _ _) _ _ => apply wp_Clone; [intros ? ? ?|intros ?]
  | |- wp (setConfiguration (Some _)) _ _ =>
      apply wp_setConfiguration; [intros ?|intros ?]
  | |- wp (map_range _ _) _ _ => apply wp_map_range
  | |- _ => wp_prim
  end; cbv beta iota zeta; cbn [fst snd].

Ltac wp_run := repeat wp_step.

(** Clone, run: the new map holds the bindings of the original's map. *)
Lemma Clone_run w c cfg :
  structs w !! c = Some cfg ->
  Clone range_order c w
  = (Ok (length (structs w)),
     with_structs (structs w ++ [clone_of cfg (length (maps w))])
       (with_maps (maps w ++ [map_contents w (demoChannelIDs cfg)]) w)).
Proof using range_order_perm.
  intros Hc. rewrite (Clone_run_loop _ _ _ Hc). by rewrite fold_assign_range.
Qed.

Lemma mutate_all_run (r : mapref) ops : forall w g,
  maps w !! r = Some g ->
  mutate_all (Some r) ops w
  = (Ok tt, with_maps (<[r := fold_left apply_mutation ops g]> (maps w)) w).
Proof.
  induction ops as [|op ops IH]; intros w g Hr; simpl.
  - rewrite list_insert_id by done. by rewrite with_maps_id.
  - assert (mutate (Some r) op w
            = (Ok tt, with_maps (<[r := apply_mutation g op]> (maps w)) w)) as E.
    { destruct op as [k v|k]; simpl;
        [unfold map_store|unfold map_delete]; by rewrite Hr. }
    rewrite (bind_ok _ _ _ _ _ E).
    rewrite (IH _ (apply_mutation g op)).
    + simpl. by rewrite list_insert_insert_eq.
    + simpl. apply list_lookup_insert_eq. by eapply lookup_lt_Some.
Qed.

(** C3.  Clone returns a new struct that agrees with the original on every
    field: the scalar fields are equal and its demoChannelIDs map holds
    the same bindings (the nil map is cloned as an empty map).  The
    clone's map is a map of its own: after any sequence of assignments
    (to new or to bound keys) and deletions on it, the original struct and
    the bindings of the original's map are what they were. *)
Theorem Clone_deep_copy w c cfg :
  wf_world w ->
  structs w !! c = Some cfg ->
  exists c' cfg' r' w',
    Clone range_order c w = (Ok c', w')
    /\ c' <> c
    /\ structs w' !! c' = Some cfg'
    /\ structs w' !! c = Some cfg
    /\ agree_scalars cfg' cfg
    /\ demoChannelIDs cfg' = Some r'
    /\ demoChannelIDs cfg <> Some r'
    /\ map_contents w' (demoChannelIDs cfg') = map_contents w (demoChannelIDs cfg)
    /\ map_contents w' (demoChannelIDs cfg) = map_contents w (demoChannelIDs cfg)
    /\ forall ops, exists w'',
         mutate_all (demoChannelIDs cfg') ops w' = (Ok tt, w'')
         /\ map_contents w'' (demoChannelIDs cfg')
            = fold_left apply_mutation ops (map_contents w (demoChannelIDs cfg))
         /\ structs w'' !! c = Some cfg
         /\ map_contents w'' (demoChannelIDs cfg)
            = map_contents w (demoChannelIDs cfg).
Proof using range_order_perm.
  intros [_ Hmaps] Hc.
  assert (Hlt : c < length (structs w)) by by eapply lookup_lt_Some.
  assert (Hr : demoChannelIDs cfg <> Some (length (maps w))).
  { intros E. specialize (Hmaps _ _ _ Hc E). lia. }
  assert (Hframe : forall g,
    map_contents
      (with_structs (structs w ++ [clone_of cfg (length (maps w))])
         (with_maps (maps w ++ [g]) w)) (demoChannelIDs cfg)
    = map_contents w (demoChannelIDs cfg)).
  { intros g. unfold map_contents.
    destruct (demoChannelIDs cfg) as [r|] eqn:E; [|done].
    simpl. rewrite lookup_app_l; [done|]. by eapply Hmaps. }
  eexists _, _, _, _. split; [by apply Clone_run|].
  split; [lia|].
  split; [simpl; rewrite lookup_app_r by lia; by rewrite Nat.sub_diag|].
  split; [simpl; by rewrite lookup_app_l|].
  split; [by repeat split|].
  split; [reflexivity|].
  split; [done|].
  split.
  { simpl. rewrite lookup_app_r by lia. by rewrite Nat.sub_diag. }
  split; [apply Hframe|].
  intros ops. simpl demoChannelIDs.
  eexists. split.
  { apply mutate_all_run. simpl. rewrite lookup_app_r by lia.
    by rewrite Nat.sub_diag. }
  split.
  { simpl. rewrite list_lookup_insert_eq; [done|]. rewrite length_app. simpl. lia. }
  split.
  - simpl. by rewrite lookup_app_l.
  - unfold map_contents. destruct (demoChannelIDs cfg) as [r|] eqn:Er; [|done].
    simpl. assert (r < length (maps w)) by by eapply Hmaps.
    rewrite list_lookup_insert_ne by lia. by rewrite lookup_app_l.
Qed.

(** *** ensureDemoUser *)

(** ensureDemoUser only talks to the host, about users and teams. *)
Lemma ensureDemoUser_user_events c w :
  wp (ensureDemoUser api c) (fun _ w' => host_step user_event w w') w.
Proof.
  unfold ensureDemoUser. wp_run; try host_step_solve.
  all: try (apply (wp_for_range (host_step user_event w));
            [intros team w1 _ HI; wp_run; host_step_solve
            |intros w1 HI; wp_run; host_step_solve
            |host_step_solve]).
Qed.




(** *** ensureDemoChannels *)

Lemma channels_ensured_nil evs : channels_ensured [] ∅ evs.
Proof. split; [by rewrite dom_empty_L|]. intros k v. by rewrite lookup_empty. Qed.

Lemma channels_ensured_snoc pre g evs more team ch :
  channels_ensured pre g evs ->
  Exists (ensured team ch) (evs ++ more) ->
  channels_ensured (pre ++ [team]) (<[Team_Id team := Channel_Id ch]> g)
    (evs ++ more).
Proof.
  intros [Hdom Hbound] Hnew. split.
  - rewrite dom_insert_L, Hdom, fmap_app, list_to_set_app_L. simpl.
    by rewrite (right_id_L ∅ (∪)), (comm_L (∪)).
  - intros k v. rewrite lookup_insert. case_decide as Hk.
    + intros [= <-]. exists team, ch. rewrite elem_of_app, list_elem_of_singleton.
      eauto.
    + intros Hg. destruct (Hbound _ _ Hg) as (t & c' & Ht & Hid & Hv & Hex).
      exists t, c'. rewrite elem_of_app, Exists_app. eauto 6.
Qed.

Lemma ensureDemoChannels_teams_error c w teams e :
  (GetTeams api (host w)).1 = (teams, Some e) ->
  ensureDemoChannels api c w
  = (Ok (None, Some (ErrApp e)),
     with_host (GetTeams api (host w)).2 (EvGetTeams (teams, Some e)) w).
Proof.
  intros E. unfold ensureDemoChannels, bind, api_call. by rewrite E.
Qed.

Lemma ensureDemoChannels_spec c w teams :
  (GetTeams api (host w)).1 = (teams, None) ->
  wp (ensureDemoChannels api c) (fun r w' =>
    plugin w' = plugin w /\ structs w' = structs w
    /\ exists g evs,
         maps w' = maps w ++ [g]
         /\ trace w' = trace w ++ evs
         /\ match r with
            | Ok (Some mr, None) =>
                mr = length (maps w)
                /\ channels_ensured teams g evs
                /\ Forall ok_event evs
            | Ok (None, Some e) =>
                (exists a, e = ErrApp a)
                /\ Exists creation_failed evs
                /\ Forall (fun e => ~ is_warning e) evs
            | Ok _ => False
            | Panic _ => Forall ok_event evs
            end) w.
Proof.
  intros E. unfold ensureDemoChannels.
  wp_step. wp_step. rewrite Hcall in E. simpl in E. injection E as -> ->.
  wp_step. wp_step. wp_step.
  apply (wp_for_range_prefix (fun pre wi =>
    plugin wi = plugin w /\ structs wi = structs w
    /\ exists g evs,
         maps wi = maps w ++ [g]
         /\ trace wi = trace w ++ evs
         /\ channels_ensured pre g evs
         /\ Forall ok_event evs
         /\ Forall (fun e => ~ is_warning e) evs)).
  - intros pre team post wi El (Hp & Hs & g & evs & Hm & Ht & Hce & Hok & Hnw).
    wp_run.
    all: simpl in *; simplify_eq.
    all: split; [done|split; [done|]].
    all: rewrite Ht, <- ?app_assoc; simpl.
    all: try (rewrite Hm in *;
              match goal with
              | Hl : (_ ++ [_]) !! length _ = Some _ |- _ =>
                  rewrite lookup_app_r, Nat.sub_diag in Hl by lia;
                  simpl in Hl; injection Hl as <-
              end;
              rewrite insert_app_r_alt, Nat.sub_diag by lia; simpl).
    all: eexists _, _;
      (split; [first [reflexivity|exact Hm]|split; [reflexivity|]]).
    all: try (split; [apply channels_ensured_snoc; [done|]|]).
    all: try (split; [by eexists|]).
    all: unfold ensured; events_solve.
  - intros wi (Hp & Hs & g & evs & Hm & Ht & Hce & Hok & Hnw).
    wp_step. simpl. eauto 10.
  - simpl. repeat split. eexists _, _. repeat split.
    + apply channels_ensured_nil.
    + events_solve.
    + events_solve.
Qed.



(** *** diffConfiguration *)

Section Reload.
Variable json_Marshal : configuration -> string * option error.

(** diffConfiguration publishes nothing and writes to no existing struct
    or map; CreateChannel is not among its calls. *)
Lemma diffConfiguration_stable n m w0 c w :
  stable n m ok_event w0 w ->
  wp (diffConfiguration api json_Marshal c)
    (fun _ w' => stable n m ok_event w0 w') w.
Proof.
  intros HS. unfold diffConfiguration. wp_run; try stable_solve.
  all: apply (wp_for_range (stable n m ok_event w0));
    [intros team w1 _ HI; wp_run; stable_solve
    |intros w1 HI; wp_run; stable_solve
    |stable_solve].
Qed.

(** *** OnConfigurationChange *)





(** *** Well-formedness is kept *)

Lemma getConfiguration_wf w :
  wf_world w ->
  wp getConfiguration (fun _ w' => wf_world w') w.
Proof. intros Hwf. wp_run; wf_solve. Qed.

Lemma Clone_wf c w :
  wf_world w ->
  wp (Clone range_order c) (fun _ w' => wf_world w') w.
Proof.
  intros Hwf. wp_step; [|wf_solve].
  apply (wf_alloc (with_maps (maps w ++ [g]) w)); [wf_solve|].
  apply (map_ok_ref _ _ (length (maps w))); [done|].
  simpl. rewrite length_app. simpl. lia.
Qed.

Lemma diffConfiguration_wf c w :
  wf_world w ->
  wp (diffConfiguration api json_Marshal c) (fun _ w' => wf_world w') w.
Proof.
  intros Hwf. unfold diffConfiguration. wp_run; try wf_solve.
  all: apply (wp_for_range wf_world);
    [intros team w1 _ HI; wp_run; wf_solve
    |intros w1 HI; wp_run; wf_solve
    |wf_solve].
Qed.

Lemma ensureDemoChannels_wf c w :
  wf_world w ->
  wp (ensureDemoChannels api c) (fun r w' =>
    wf_world w'
    /\ structs w' = structs w
    /\ forall a, r = Ok a ->
         map_ok (length (maps w')) (with_demoChannelIDs a.1 zero_configuration)) w.
Proof.
  intros Hwf.
  destruct (GetTeams api (host w)).1 as [teams [e|]] eqn:Eteams.
  - unfold wp. rewrite (ensureDemoChannels_teams_error _ _ _ _ Eteams). simpl.
    split; [wf_solve|]. split; [done|]. intros a [= <-]. by apply map_ok_nil.
  - eapply wp_mono; [|by apply ensureDemoChannels_spec].
    intros r w' (Hp & Hs & g & evs & Hm & Ht & Hr).
    split; [by eapply wf_extend|]. split; [done|].
    intros [mr err] ->. destruct mr as [mr|]; [|by apply map_ok_nil].
    destruct err; [done|]. destruct Hr as (-> & _).
    apply (map_ok_ref _ _ (length (maps w))); [done|].
    rewrite Hm, length_app. simpl. lia.
Qed.

(** A reload, however it ends, leaves no dangling pointer. *)
Lemma OnConfigurationChange_wf w :
  wf_world w ->
  wp (OnConfigurationChange api range_order json_Marshal)
    (fun _ w' => wf_world w') w.
Proof.
  intros Hwf. unfold OnConfigurationChange.
  wp_step. wp_step. wp_step.
  apply (wp_mono _ (fun r w1 => r = Ok tt /\ wf_world w1)).
  2:{ destruct (Plugin_client (plugin w)); wp_step; (split; [done|wf_solve]). }
  intros ? w1 [-> Hwf1]. wp_step.
  eapply wp_mono; [|by apply getConfiguration_wf].
  intros [c|msg] w2 Hwf2; [|done]. wp_step.
  eapply wp_mono; [|by apply Clone_wf].
  intros [c'|msg] w3 Hwf3; [|done].
  wp_run; try wf_solve.
  (* ensureDemoUser *)
  match goal with
  | |- wp _ _ ?wx => assert (Hwf4 : wf_world wx) by wf_solve
  end.
  eapply wp_mono; [|apply ensureDemoUser_user_events].
  intros r w4 Hstep. apply wf_host_step in Hstep; [|done]. clear Hwf4.
  destruct r as [[uid [e|]]|msg]; [by wp_step|..|done].
  wp_run; try wf_solve.
  (* ensureDemoChannels *)
  match goal with
  | |- wp _ _ ?wx => assert (Hwf5 : wf_world wx) by wf_solve
  end.
  eapply wp_mono; [|by apply ensureDemoChannels_wf].
  intros [[mr err]|msg] w6 (Hwf6 & _ & Hmr); [|done].
  specialize (Hmr _ eq_refl).
  assert (Hstore : forall cfg,
    wf_world (with_structs (<[c' := with_demoChannelIDs mr cfg]> (structs w6)) w6)).
  { intros cfg. apply wf_store; [done|]. by eapply map_ok_same. }
  wp_run; try done.
  match goal with |- wp _ _ ?wx => remember wx as w7 eqn:Ew7 end.
  assert (Hwf7 : wf_world w7) by (subst w7; apply Hstore).
  assert (Hc7 : c' < length (structs w7)).
  { subst w7. simpl. rewrite length_insert. by apply lookup_lt_is_Some. }
  clear Ew7.
  eapply wp_mono;
    [|apply wp_and;
      [by apply diffConfiguration_wf
      |by apply (diffConfiguration_stable (length (structs w7))
                   (length (maps w7)) w7), stable_refl]].
  intros [[]|msg] w8 [Hwf8 (_ & Hlen & _)]; [|done].
  wp_run; try done.
  apply wf_publish with (c := c'); [done|done|].
  apply lookup_lt_is_Some. lia.
Qed.

(** setEnabled does not panic: it publishes a clone of the current
    configuration with the flag set. *)
Lemma setEnabled_publishes enabled w :
  wf_world w ->
  wp (setEnabled range_order enabled) (fun r w' =>
    r = Ok tt
    /\ wf_world w'
    /\ exists c cfg,
         Plugin_configuration (plugin w') = Some c
         /\ structs w' !! c = Some cfg
         /\ disabled cfg = negb enabled) w.
Proof.
  intros Hwf. pose proof Hwf as [Hpub _]. unfold setEnabled.
  wp_step.
  apply (wp_mono _ (fun r w1 =>
    wf_world w1
    /\ exists c, r = Ok c /\ is_Some (structs w1 !! c)
                 /\ forall p, Plugin_configuration (plugin w1) = Some p ->
                              p < length (structs w1))).
  2:{ wp_step; (split; [wf_solve|]); eexists; (split; [done|]).
      - split; [by apply Hpub|].
        intros p Hp. by apply lookup_lt_is_Some, Hpub.
      - simpl. rewrite lookup_app_r by lia. rewrite Nat.sub_diag.
        split; [by eexists|]. intros p Hp. congruence. }
  intros ? w1 (Hwf1 & c & -> & Hc & Hlt). wp_step.
  wp_step; [|dangling]. wp_step. wp_step; [|dangling].
  wp_step. wp_step; [|dangling].
  simpl in *. rewrite lookup_app_r in * by lia. rewrite Nat.sub_diag in *.
  simplify_eq/=.
  wp_step.
  { match goal with Hp : Plugin_configuration _ = Some _ |- _ =>
      apply Hlt in Hp; lia end. }
  split; [done|]. split.
  - apply wf_publish with (c := length (structs w1)); [|done|].
    + apply (wf_store (with_structs (structs w1 ++ [_])
                         (with_maps (maps w1 ++ [g]) w1))).
      * apply (wf_alloc (with_maps (maps w1 ++ [g]) w1)); [wf_solve|].
        apply (map_ok_ref _ _ (length (maps w1))); [done|].
        simpl. rewrite length_app. simpl. lia.
      * apply (map_ok_ref _ _ (length (maps w1))); [done|].
        simpl. rewrite length_app. simpl. lia.
    + simpl. apply lookup_lt_is_Some.
      rewrite length_insert, length_app. simpl. lia.
  - eexists _, _. simpl. split; [done|]. split.
    + rewrite list_lookup_insert_eq; [done|]. rewrite length_app. simpl. lia.
    + reflexivity.
Qed.

(** *** Reload on a host without teams *)

Section NoTeams.
Hypothesis no_teams : forall h, (GetTeams api h).1 = ([], None).





End NoTeams.
End Reload.

(** *** diffConfiguration: the entries of the diff *)

(** configurationDiff is the run of its nine conditional assignments. *)
Lemma configurationDiff_fold old new :
  configurationDiff old new = fold_left set_entry (diff_entries old new) ∅.
Proof. reflexivity. Qed.

Lemma fold_set_entry_absent (l : list (bool * string * propvalue)) (k : string) :
  k ∉ (l.*1).*2 -> fold_left set_entry l ∅ !! k = None.
Proof.
  induction l as [|[[b k'] v] l IH] using rev_ind; intros Hk; [done|].
  rewrite !fmap_app, elem_of_app in Hk. simpl in Hk.
  rewrite fold_left_app. simpl. unfold set_entry at 1. simpl.
  destruct b.
  - rewrite lookup_insert_ne; [apply IH; tauto|].
    intros ->. apply Hk. right. by left.
  - apply IH. tauto.
Qed.

Lemma fold_set_entry_lookup (l : list (bool * string * propvalue))
    (b : bool) (k : string) (v : propvalue) :
  NoDup ((l.*1).*2) -> (b, k, v) ∈ l ->
  fold_left set_entry l ∅ !! k = if b then Some v else None.
Proof.
  induction l as [|[[b' k'] v'] l IH] using rev_ind; intros Hnd Hin.
  - by apply elem_of_nil in Hin.
  - rewrite !fmap_app in Hnd. simpl in Hnd.
    apply NoDup_app in Hnd as (Hnd & Hfresh & _).
    rewrite fold_left_app. simpl. unfold set_entry at 1. simpl.
    apply elem_of_app in Hin as [Hin|Hin].
    + assert (k <> k') as Hne.
      { intros ->. apply (Hfresh k'); [|by left].
        apply list_elem_of_fmap. eexists (b, k'). split; [done|].
        apply list_elem_of_fmap. by eexists (b, k', v). }
      destruct b'; [rewrite lookup_insert_ne by done|]; by apply IH.
    + apply list_elem_of_singleton in Hin. injection Hin as <- <- <-.
      destruct b; [by rewrite lookup_insert_eq|].
      apply fold_set_entry_absent. intros Hk. by apply (Hfresh k); [|left].
Qed.

(** What diffConfiguration puts under each key: the diff has an entry for
    a key exactly when the assignment's condition holds, and the entry is
    the value of that assignment. *)
Lemma configurationDiff_entry old new (b : bool) (k : string) (v : propvalue) :
  (b, k, v) ∈ diff_entries old new ->
  configurationDiff old new !! k = if b then Some v else None.
Proof.
  rewrite configurationDiff_fold. apply fold_set_entry_lookup.
  apply (bool_decide_unpack _). by vm_compute.
Qed.

Lemma configurationDiff_other_key old new (k : string) :
  k ∉ ((diff_entries old new).*1).*2 -> configurationDiff old new !! k = None.
Proof. rewrite configurationDiff_fold. apply fold_set_entry_absent. Qed.

(** Whenever the text style changes, the entry ["text_style"] of the diff
    carries the new channel name. *)
Lemma configurationDiff_text_style old new :
  TextStyle new <> TextStyle old ->
  configurationDiff old new !! "text_style" = Some (PString (ChannelName new)).
Proof.
  intros Hne.
  rewrite (configurationDiff_entry old new
             (bool_decide (TextStyle new <> TextStyle old)) "text_style"
             (PString (ChannelName new))).
  - by rewrite bool_decide_eq_true_2.
  - unfold diff_entries. rewrite !elem_of_cons. tauto.
Qed.

(** The entry of another field carries that field's new value. *)
Lemma configurationDiff_username old new :
  Username new <> Username old ->
  configurationDiff old new !! "username" = Some (PString (Username new)).
Proof.
  intros Hne.
  rewrite (configurationDiff_entry old new
             (bool_decide (Username new <> Username old)) "username"
             (PString (Username new))).
  - by rewrite bool_decide_eq_true_2.
  - unfold diff_entries. rewrite !elem_of_cons. tauto.
Qed.

(** *** postPluginMessage and handleDialog *)

Lemma stable_published_valid n m P w0 w :
  stable n m P w0 w -> published_valid w0 -> published_valid w.
Proof.
  intros (Hp & Hs & _) Hvalid p. rewrite Hp. intros Hpub%Hvalid.
  apply lookup_lt_is_Some. apply lookup_lt_is_Some in Hpub. lia.
Qed.

Lemma postPluginMessage_spec n m w0 teamID msg w :
  published_valid w0 ->
  stable n m announce_event w0 w ->
  wp (postPluginMessage api range_order teamID msg) (fun r w' =>
    (exists e, r = Ok e) /\ stable n m announce_event w0 w') w.
Proof.
  intros Hvalid HS. pose proof (stable_published_valid _ _ _ _ _ HS Hvalid) as Hv.
  unfold postPluginMessage. wp_run.
  all: try (split; [by eexists|stable_solve]).
  all: try (apply (wp_for_range (stable n m announce_event w0));
            [intros kv w1 _ HI; wp_run; try stable_solve;
             (split; [by eexists|stable_solve])
            |intros w1 HI; wp_run; (split; [by eexists|stable_solve])
            |stable_solve]).
  all: try (specialize (Hv _ ltac:(eassumption))); dangling.
Qed.

Lemma announce_event_no_header e : announce_event e -> no_header e.
Proof. destruct e; simpl; tauto. Qed.

Lemma announce_event_colourless e : announce_event e -> colourless_event e.
Proof.
  destruct e; simpl; try tauto. intros Hprops atts att. by rewrite Hprops.
Qed.

Lemma priorityColor_other s :
  s <> "High" -> s <> "Medium" -> s <> "Low" -> priorityColor s = "".
Proof.
  intros H1 H2 H3. unfold priorityColor.
  by rewrite !bool_decide_eq_false_2.
Qed.

Lemma priorityColor_known :
  priorityColor "High" = "#FF0000"
  /\ priorityColor "Medium" = "#FFA500"
  /\ priorityColor "Low" = "#000000".
Proof. by vm_compute. Qed.

Section DialogProperties.
Variable manifest_Id : string.
Variable json_Decode : string -> SubmitDialogRequest * option error.
Variable ChannelID : configuration -> string.
Variable TagUsers : configuration -> string.

Abbreviation handler :=
  (handleDialog api range_order manifest_Id json_Decode ChannelID TagUsers).

(** The announcing loop of handleDialog: it does not panic and does not
    leave the function; it warns and creates posts without properties. *)
Lemma announce_loop n m w0 cfg (teams : list Team) (Q : _ -> World H -> Prop) w :
  published_valid w0 ->
  stable n m announce_event w0 w ->
  (forall w', stable n m announce_event w0 w' -> Q (Ok None) w') ->
  wp (for_range (R := unit) teams (fun team =>
        found <- map_lookup (demoChannelIDs cfg) (Team_Id team) ;;
        match found with
        | None =>
            emit (EvLogWarn "No demo channel id for team"
                    [("team", LString (Team_Id team))]) ;;;
            ret None
        | Some _ =>
            let msg := "OnActivate: " ++ manifest_Id in
            postPluginMessage api range_order (Team_Id team) msg ;;;
            ret None
        end)%string) Q w.
Proof.
  intros Hvalid HS HQ.
  apply (wp_for_range (stable n m announce_event w0)); [|done|done].
  intros team w1 _ HS1. wp_run; [|stable_solve].
  eapply wp_mono; [|by apply (postPluginMessage_spec n m w0)].
  intros ? w2 [[e ->] HS2]. by wp_run.
Qed.

(** A submission without a string under ["4-User Impact"]: the handler
    reaches the type assertion and panics there. *)
Lemma handleDialog_panics_spec r request w :
  published_valid w ->
  json_Decode (Request_Body r) = (request, None) ->
  (forall h, (GetUser api (Request_UserId request) h).1.2 = None) ->
  (forall s, Request_Submission request !! "4-User Impact" <> Some (JString s)) ->
  wp (handler r) (fun out w' =>
    out = Panic (conversion_panic (Request_Submission request !! "4-User Impact"))
    /\ stable (length (structs w)) (length (maps w)) no_header w w') w.
Proof.
  intros Hvalid Hdec Huser Hkey.
  set (n := length (structs w)). set (m := length (maps w)).
  assert (HS0 : stable n m announce_event w w) by by apply stable_refl.
  unfold handleDialog.
  wp_step.
  apply (wp_mono _ (fun r w1 =>
    stable n m announce_event w w1
    /\ exists c, r = Ok c /\ is_Some (structs w1 !! c))).
  2:{ wp_step; (split; [stable_solve|]); eexists; (split; [done|]).
      - by apply Hvalid.
      - simpl. rewrite lookup_app_r by lia. by rewrite Nat.sub_diag. }
  intros ? w1 (HS1 & c & -> & Hc).
  wp_step. wp_step; [|dangling]. wp_step. wp_step. wp_step.
  apply (announce_loop n m w); [done|stable_solve|].
  intros w2 HS2. apply (stable_weaken _ _ _ _ _ _ announce_event_no_header) in HS2.
  cbn [Request_Cancelled zero_SubmitDialogRequest]. rewrite Hdec.
  wp_step. wp_step.
  pose proof (Huser (host w2)) as Hu. rewrite Hcall0 in Hu. simpl in Hu. subst.
  wp_step. unfold assert_string.
  destruct (Request_Submission request !! "4-User Impact") as [[]|] eqn:Hlook;
    try (by destruct (Hkey _ eq_refl));
    wp_step; (split; [done|stable_solve]).
Qed.

(** A submission whose priority is a string other than the three known
    ones: whatever the handler posts carries no colour. *)
Lemma handleDialog_colourless_spec r request s w :
  published_valid w ->
  json_Decode (Request_Body r) = (request, None) ->
  Request_Submission request !! "4-User Impact" = Some (JString s) ->
  s <> "High" -> s <> "Medium" -> s <> "Low" ->
  wp (handler r) (fun _ w' =>
    stable (length (structs w)) (length (maps w)) colourless_event w w') w.
Proof.
  intros Hvalid Hdec Hlook Hhigh Hmedium Hlow.
  set (n := length (structs w)). set (m := length (maps w)).
  assert (HS0 : stable n m announce_event w w) by by apply stable_refl.
  unfold handleDialog.
  wp_step.
  apply (wp_mono _ (fun r w1 =>
    stable n m announce_event w w1
    /\ exists c, r = Ok c /\ is_Some (structs w1 !! c))).
  2:{ wp_step; (split; [stable_solve|]); eexists; (split; [done|]).
      - by apply Hvalid.
      - simpl. rewrite lookup_app_r by lia. by rewrite Nat.sub_diag. }
  intros ? w1 (HS1 & c & -> & Hc).
  wp_step. wp_step; [|dangling]. wp_step. wp_step. wp_step.
  apply (announce_loop n m w); [done|stable_solve|].
  intros w2 HS2.
  apply (stable_weaken _ _ _ _ _ _ announce_event_colourless) in HS2.
  cbn [Request_Cancelled zero_SubmitDialogRequest]. rewrite Hdec, Hlook.
  unfold assert_string, published. wp_run.
  all: repeat first [assumption | apply stable_host | apply stable_event].
  all: simpl; try tauto.
  all: intros atts att Hl Hin; simpl in Hl.
  all: first
    [ by rewrite lookup_empty in Hl
    | rewrite lookup_singleton_eq in Hl; injection Hl as <-;
      apply list_elem_of_singleton in Hin as ->; simpl;
      by apply priorityColor_other ].
Qed.

(** C9.  (1) A request that decodes, from a user the host knows, whose
    submission has no string under ["4-User Impact"] (the key is missing or
    bound to something else), makes handleDialog panic at the type
    assertion; no response status has been written.  (2) For a request
    whose submission binds that key to a string other than "High",
    "Medium" and "Low", every attachment of every post the handler creates
    has the empty string as its colour. *)
Theorem handleDialog_unchecked_priority r request w :
  published_valid w ->
  json_Decode (Request_Body r) = (request, None) ->
  ((forall h, (GetUser api (Request_UserId request) h).1.2 = None) ->
   (forall s, Request_Submission request !! "4-User Impact" <> Some (JString s)) ->
   exists w',
     handler r w
     = (Panic (conversion_panic (Request_Submission request !! "4-User Impact")),
        w')
     /\ forall status, EvWriteHeader status ∉ run_events w w')
  /\ (forall s,
        Request_Submission request !! "4-User Impact" = Some (JString s) ->
        s <> "High" -> s <> "Medium" -> s <> "Low" ->
        priorityColor s = ""
        /\ forall post res atts att,
             EvCreatePost post res ∈ run_events w (handler r w).2 ->
             Post_Props post !! "attachments" = Some (PAttachments atts) ->
             att ∈ atts ->
             Attachment_Color att = "").
Proof.
  intros Hvalid Hdec. split.
  - intros Huser Hkey.
    pose proof (handleDialog_panics_spec r request w Hvalid Hdec Huser Hkey)
      as [Hout HS].
    exists (handler r w).2. split.
    + rewrite <- Hout. by destruct (handler r w).
    + intros status Hin.
      by apply (proj1 (Forall_forall _ _) (stable_run_events _ _ _ _ _ HS)) in Hin.
  - intros s Hlook Hhigh Hmedium Hlow. split; [by apply priorityColor_other|].
    pose proof (handleDialog_colourless_spec r request s w Hvalid Hdec Hlook
                  Hhigh Hmedium Hlow) as HS.
    intros post res atts att Hin.
    apply (proj1 (Forall_forall _ _) (stable_run_events _ _ _ _ _ HS)) in Hin.
    apply Hin.
Qed.
End DialogProperties.
End Properties.

(** * Further properties of the code *)

(** ** Properties of the dialog helpers *)

Lemma string_app_cons a (s t : string) : String a s ++ t = String a (s ++ t).
Proof. reflexivity. Qed.

Lemma string_app_nil_r (s : string) : s ++ "" = s.
Proof. induction s as [|a s IH]; [done|]. by rewrite string_app_cons, IH. Qed.

Lemma string_app_assoc (s t u : string) : (s ++ t) ++ u = s ++ (t ++ u).
Proof. induction s as [|a s IH]; [done|]. by rewrite !string_app_cons, IH. Qed.

Lemma string_length_app (s t : string) :
  String.length (s ++ t) = String.length s + String.length t.
Proof.
  induction s as [|a s IH]; [done|]. rewrite string_app_cons. simpl. by rewrite IH.
Qed.

Lemma substring_app_l (s t : string) : substring 0 (String.length s) (s ++ t) = s.
Proof.
  induction s as [|a s IH].
  - by destruct t.
  - rewrite string_app_cons. simpl. by rewrite IH.
Qed.

Lemma contains_byte_app a (s t : string) :
  contains_byte a (s ++ t) <-> contains_byte a s \/ contains_byte a t.
Proof.
  unfold contains_byte. induction s as [|b s IH].
  - change ("" ++ t) with t. simpl. rewrite elem_of_nil. tauto.
  - rewrite string_app_cons. simpl. rewrite !elem_of_cons, IH. tauto.
Qed.

Lemma split_from_nonempty sep s : forall skip cur, split_from sep skip cur s <> [].
Proof.
  induction s as [|a s IH]; intros skip cur; cbn [split_from]; [done|].
  destruct skip; [|apply IH].
  destruct (String.prefix sep (String a s)); [done|apply IH].
Qed.

Lemma split_from_char (c : ascii) s : forall cur,
  ~ contains_byte c cur ->
  exists title pre,
    last (split_from (String c "") 0 cur s) = Some title
    /\ ~ contains_byte c title
    /\ cur ++ s = pre ++ title
    /\ (pre = "" \/ exists p, pre = p ++ String c "").
Proof.
  induction s as [|a s IH]; intros cur Hcur.
  - exists cur, "". simpl. rewrite string_app_nil_r. eauto.
  - cbn [split_from String.prefix]. destruct (ascii_dec c a) as [<-|Hne].
    + destruct (IH "") as (title & pre & Hlast & Htitle & Hs & Hpre).
      { unfold contains_byte. simpl. apply not_elem_of_nil. }
      change ("" ++ s) with s in Hs. exists title, (cur ++ String c pre).
      split.
      { replace (String.prefix "" s) with true by (by destruct s).
        cbn [String.length Nat.sub]. cbv iota. by rewrite last_cons, Hlast. }
      split; [done|]. split.
      { by rewrite string_app_assoc, string_app_cons, Hs. }
      right. destruct Hpre as [->|[p ->]].
      * exists cur. done.
      * exists (cur ++ String c p). rewrite string_app_assoc. done.
    + destruct (IH (cur ++ String a "")) as (title & pre & Hlast & Htitle & Hs & Hpre).
      { rewrite contains_byte_app. intros [?|Ha]; [done|].
        unfold contains_byte in Ha. simpl in Ha.
        apply list_elem_of_singleton in Ha. done. }
      exists title, pre. split; [done|split; [done|split; [|done]]].
      rewrite <- Hs, string_app_assoc. done.
Qed.

(** X1.  The fields of a ticket are, in the order of the range, the
    entries of the submission whose value is not nil; the value is passed
    on as it is, and the title is the part of the key after its last
    ['-'] (the whole key when it has none), so a title never contains a
    ['-']. *)
Theorem submissionFields_titles (entries : list (string * jvalue)) :
  Forall2 (fun kv f =>
             Field_Value f = kv.2
             /\ last (strings_Split kv.1 "-") = Some (Field_Title f)
             /\ ~ contains_byte "-" (Field_Title f)
             /\ exists pre, kv.1 = pre ++ Field_Title f
                            /\ (pre = "" \/ exists p, pre = p ++ "-"))
    (filter (fun kv => is_nil kv.2 = false) entries)
    (submissionFields entries).
Proof.
  induction entries as [|[k v] entries IH]; [constructor|].
  unfold submissionFields. simpl.
  assert (Hfield : is_nil v = false ->
    Forall2 (fun kv f =>
             Field_Value f = kv.2
             /\ last (strings_Split kv.1 "-") = Some (Field_Title f)
             /\ ~ contains_byte "-" (Field_Title f)
             /\ exists pre, kv.1 = pre ++ Field_Title f
                            /\ (pre = "" \/ exists p, pre = p ++ "-"))
      ((k, v) :: filter (fun kv => is_nil kv.2 = false) entries)
      ({| Field_Title := default "" (last (strings_Split k "-"));
          Field_Value := v |} :: submissionFields entries)).
  { intros _. constructor; [|exact IH]. simpl.
    destruct (split_from_char "-" k "") as (title & pre & Hlast & Htitle & Hs & Hpre).
    { unfold contains_byte. simpl. apply not_elem_of_nil. }
    unfold strings_Split. rewrite Hlast. simpl. eauto 6. }
  rewrite filter_cons. destruct v; simpl; try (by apply Hfield).
  exact IH.
Qed.

Lemma tag_builder (l : list string) : forall acc,
  l <> [] ->
  fold_left (fun b value => b ++ ("@" ++ value) ++ ", ") l acc
  = acc ++ strings_Join (map (String.append "@") l) ", " ++ ", ".
Proof.
  induction l as [|x l IH]; intros acc Hl; [done|].
  destruct l as [|y l].
  - simpl. done.
  - change (fold_left _ (x :: y :: l) acc)
      with (fold_left (fun b value => b ++ ("@" ++ value) ++ ", ") (y :: l)
              (acc ++ ("@" ++ x) ++ ", ")).
    rewrite IH by done.
    change (strings_Join (map (String.append "@") (x :: y :: l)) ", ")
      with (("@" ++ x) ++ ", " ++ strings_Join (map (String.append "@") (y :: l)) ", ").
    by rewrite !string_app_assoc.
Qed.

(** X2.  The text of the reply: a fixed hint when no users are
    configured, and otherwise ["cc:"] followed by the comma-separated
    names of the setting, each with an ['@'] in front, joined by [", "]
    (the separator the loop writes after the last name is cut off). *)
Theorem tagMessage_lists_users (tagUsers : string) :
  tagMessage tagUsers
  = if bool_decide (tagUsers = "")
    then "Update the plugin configuration to tag users in the future."
    else "cc:" ++ strings_Join (map (String.append "@") (strings_Split tagUsers ",")) ", ".
Proof.
  unfold tagMessage. case_bool_decide; [done|].
  rewrite tag_builder by apply split_from_nonempty.
  set (names := strings_Join _ _).
  rewrite bool_decide_eq_true_2 by (simpl; lia).
  change ("cc:" ++ "" ++ names ++ ", ") with ("cc:" ++ names ++ ", ").
  rewrite <- (string_app_assoc "cc:" names ", ").
  rewrite string_length_app. simpl String.length at 2.
  replace (String.length ("cc:" ++ names) + 2 - 2) with (String.length ("cc:" ++ names)) by lia.
  apply substring_app_l.
Qed.

(** ** Runs that only talk to the host *)

Section HostRuns.
Context {H : Type}.
Local Open Scope list_scope.
Implicit Types (w : World H).

Lemma wp_result {A} (m : M H A) (Q : Outcome A -> World H -> Prop) w :
  wp m Q w -> exists r w', m w = (r, w') /\ Q r w'.
Proof. unfold wp. destruct (m w) as [r w']. eauto. Qed.

Lemma host_run_refl w : host_run [] w w.
Proof. repeat split. by rewrite app_nil_r. Qed.

Lemma host_run_host evs evs' w w1 h e :
  host_run evs w w1 -> evs' = evs ++ [e] -> host_run evs' w (with_host h e w1).
Proof.
  intros (? & ? & ? & E) ->. repeat split; try done.
  simpl. by rewrite E, app_assoc.
Qed.

Lemma host_run_event evs evs' w w1 e :
  host_run evs w w1 -> evs' = evs ++ [e] -> host_run evs' w (with_event e w1).
Proof.
  intros (? & ? & ? & E) ->. repeat split; try done.
  simpl. by rewrite E, app_assoc.
Qed.

Lemma host_run_events evs w w' : host_run evs w w' -> run_events w w' = evs.
Proof. intros (_ & _ & _ & E). unfold run_events. by rewrite E, drop_app_length. Qed.

Lemma posts_of_app (evs evs' : list Event) :
  posts_of (evs ++ evs') = posts_of evs ++ posts_of evs'.
Proof. apply omap_app. Qed.

Lemma memberships_of_app (evs evs' : list Event) :
  memberships_of (evs ++ evs') = memberships_of evs ++ memberships_of evs'.
Proof. apply omap_app. Qed.
End HostRuns.

(** Closes a goal [host_run evs w w'] where [w'] is [w], or a world known
    to be a host run away from [w], followed by host calls and events. *)
Ltac host_run_solve :=
  first [ eassumption
        | apply host_run_refl
        | eapply host_run_host; [host_run_solve|reflexivity]
        | eapply host_run_event; [host_run_solve|reflexivity] ].

(** Splits [posts_of] and the like over the events appended. *)
Ltac events_split :=
  rewrite ?posts_of_app, ?memberships_of_app, ?map_app, ?Forall_app; simpl.

(** One step of a run, as [wp_prim], with the rules of the configuration
    manager. *)
Ltac wp_go :=
  cbv beta iota zeta; cbn [fst snd];
  lazymatch goal with
  | |- wp getConfiguration _ _ =>
      apply wp_getConfiguration; [intros ? ?|intros ?]
  | |- wp (Clone _ _) _ _ => apply wp_Clone; [intros ? ? ?|intros ?]
  | |- wp (setConfiguration (Some _)) _ _ =>
      apply wp_setConfiguration; [intros ?|intros ?]
  | |- wp (map_range _ _) _ _ => apply wp_map_range
  | |- _ => wp_prim
  end; cbv beta iota zeta; cbn [fst snd].

Section Posting.
Context {H : Type}.
Local Open Scope list_scope.
Variable api : HostAPI H.
Variable range_order : forall V : Type, gmap string V -> list (string * V).
Implicit Types (w : World H) (c : ptr) (cfg : configuration).

Lemma BackgroundJob_spec w c cfg :
  Plugin_configuration (plugin w) = Some c ->
  structs w !! c = Some cfg ->
  disabled cfg = false ->
  wp (BackgroundJob api range_order) (fun r w' =>
    r = Ok tt
    /\ exists evs,
         host_run evs w w'
         /\ posts_of evs
            = map (fun kv => plainPost (Plugin_botID (plugin w)) kv.2
                               "Background job executed")
                (range_order string (map_contents w (demoChannelIDs cfg)))
         /\ Forall job_event evs) w.
Proof.
  intros Hpub Hc Hen. unfold BackgroundJob.
  repeat wp_go.
  all: try congruence; simplify_eq.
  apply (wp_for_range_prefix (fun pre wi =>
    exists evs,
      host_run evs w wi
      /\ posts_of evs
         = map (fun kv => plainPost (Plugin_botID (plugin w)) kv.2
                            "Background job executed") pre
      /\ Forall job_event evs)).
  - intros pre kv post wi _ (evs & Hrun & Hposts & Hev).
    repeat wp_go.
    all: eexists; (split; [host_run_solve|]).
    all: events_split; rewrite Hposts, ?app_nil_r.
    all: repeat split; try done; by repeat constructor.
  - intros wi (evs & Hrun & Hposts & Hev). repeat wp_go. eauto.
  - exists []. split; [apply host_run_refl|]. split; [done|constructor].
Qed.

(** postPluginMessage for one team, run: one call to CreatePost, whose
    error is the result. *)
Lemma postPluginMessage_team_run w c cfg teamID msg :
  Plugin_configuration (plugin w) = Some c ->
  structs w !! c = Some cfg ->
  disabled cfg = false ->
  teamID <> "" ->
  let post := plainPost (Plugin_botID (plugin w))
                (default "" (map_contents w (demoChannelIDs cfg) !! teamID))
                (styled cfg msg) in
  postPluginMessage api range_order teamID msg w
  = (Ok (CreatePost api post (host w)).1.2,
     with_host (CreatePost api post (host w)).2
       (EvCreatePost post (CreatePost api post (host w)).1) w).
Proof.
  intros Hpub Hc Hen Hteam post. unfold postPluginMessage.
  rewrite (bind_ok _ _ _ _ _ (getConfiguration_published _ _ Hpub)).
  rewrite (bind_ok _ _ _ _ _ (load_struct_ok _ _ _ Hc)).
  rewrite Hen. rewrite bool_decide_eq_true_2 by done. reflexivity.
Qed.

Lemma postPluginMessage_broadcast_spec w c cfg msg :
  Plugin_configuration (plugin w) = Some c ->
  structs w !! c = Some cfg ->
  disabled cfg = false ->
  wp (postPluginMessage api range_order "" msg) (fun r w' =>
    exists evs,
      host_run evs w w'
      /\ posts_of evs
         `prefix_of` map (fun kv => plainPost (Plugin_botID (plugin w)) kv.2
                                      (styled cfg msg))
                       (range_order string (map_contents w (demoChannelIDs cfg)))
      /\ match r with
         | Ok None =>
             posts_of evs
             = map (fun kv => plainPost (Plugin_botID (plugin w)) kv.2
                                (styled cfg msg))
                 (range_order string (map_contents w (demoChannelIDs cfg)))
             /\ Forall post_accepted evs
         | Ok (Some e) =>
             exists evs0 p res,
               evs = evs0 ++ [EvCreatePost p (res, Some e)]
               /\ Forall post_accepted evs0
         | Panic _ => False
         end) w.
Proof.
  intros Hpub Hc Hen. unfold postPluginMessage.
  repeat wp_go.
  all: try congruence; simplify_eq.
  set (f := fun kv : string * string =>
              plainPost (Plugin_botID (plugin w)) kv.2 (styled cfg msg)).
  apply (wp_for_range_prefix (fun pre wi =>
    exists evs,
      host_run evs w wi
      /\ posts_of evs = map f pre
      /\ Forall post_accepted evs)).
  - intros pre kv post wi El (evs & Hrun & Hposts & Hev).
    repeat wp_go.
    all: eexists; (split; [host_run_solve|]).
    + split; [|eauto]. rewrite El. events_split. rewrite Hposts.
      apply prefix_app, prefix_cons, prefix_nil.
    + events_split. rewrite Hposts. repeat split; try done.
      by repeat constructor.
  - intros wi (evs & Hrun & Hposts & Hev). repeat wp_go.
    exists evs. rewrite Hposts. done.
  - exists []. split; [apply host_run_refl|]. split; [done|constructor].
Qed.

(** *** ensureDemoUser *)


Lemma ensureDemoUser_lookup_error_spec c cfg w user e h1 :
  structs w !! c = Some cfg ->
  GetUserByUsername api (Username cfg) (host w) = ((user, Some e), h1) ->
  wp (ensureDemoUser api c) (fun r w' =>
    if bool_decide (AppError_StatusCode e = http_StatusNotFound) then
      exists res evs,
        host_run (EvGetUserByUsername (Username cfg) (user, Some e)
                  :: EvLogInfo "DemoUser doesn't exist. Trying to create it." []
                  :: EvCreateUser (demoUser cfg) res :: evs) w w'
        /\ forall e', res.2 = Some e' ->
                      r = Ok ("", Some (ErrApp e')) /\ evs = []
    else
      r = Ok ("", Some (ErrApp e))
      /\ host_run [EvGetUserByUsername (Username cfg) (user, Some e)] w w') w.
Proof.
  intros Hc Hlookup. unfold ensureDemoUser.
  wp_go. wp_go; [|congruence]. simplify_eq.
  wp_go. wp_go. rewrite Hlookup in Hcall. injection Hcall as <- <- <-.
  wp_go. case_bool_decide as Hcode.
  - apply wp_bind, wp_emit. apply wp_bind, wp_api_call. cbn [host with_host with_event].
    fold (demoUser cfg).
    destruct (CreateUser api (demoUser cfg) h1) as [[created [e'|]] h2] eqn:Hcreate;
      cbn [fst snd].
    + repeat wp_go. exists (created, Some e'), []. split; [host_run_solve|].
      by intros ? [= <-].
    + wp_go.
      apply (wp_mono _ (fun _ w' =>
        exists evs,
          host_run (EvGetUserByUsername (Username cfg) (user, Some e)
                    :: EvLogInfo "DemoUser doesn't exist. Trying to create it." []
                    :: EvCreateUser (demoUser cfg) (created, None) :: evs) w w')).
      { intros r w' [evs Hev]. exists (created, None), evs. split; [done|]. done. }
      repeat wp_go.
      all: try (eexists; host_run_solve).
      all: apply (wp_for_range (fun wi =>
        exists evs,
          host_run (EvGetUserByUsername (Username cfg) (user, Some e)
                    :: EvLogInfo "DemoUser doesn't exist. Trying to create it." []
                    :: EvCreateUser (demoUser cfg) (created, None) :: evs) w wi));
        [ intros team wi _ [evs Hi]; repeat wp_go; eexists; host_run_solve
        | intros wi [evs Hi]; repeat wp_go; eexists; host_run_solve
        | eexists; host_run_solve ].
  - repeat wp_go. split; [done|host_run_solve].
Qed.

(** *** ensureDemoChannels *)

Lemma trace_group (t t0 : list Event) e groups grp :
  t = t0 ++ e :: concat groups ->
  t ++ grp = t0 ++ e :: concat (groups ++ [grp]).
Proof.
  intros ->. rewrite concat_app. simpl. by rewrite app_nil_r, <- app_assoc.
Qed.

Lemma ensureDemoChannels_shape_spec c cfg w teams :
  structs w !! c = Some cfg ->
  (GetTeams api (host w)).1 = (teams, None) ->
  wp (ensureDemoChannels api c) (fun r w' =>
    exists groups,
      run_events w w' = EvGetTeams (teams, None) :: concat groups
      /\ Forall2 (channel_setup cfg) (take (length groups) teams) groups
      /\ forall m, r = Ok (Some m, None) -> length groups = length teams) w.
Proof.
  intros Hc E. unfold ensureDemoChannels.
  wp_go. wp_go. rewrite Hcall in E. simpl in E. injection E as -> ->.
  wp_go. wp_go. wp_go.
  apply (wp_for_range_prefix (fun pre wi =>
    plugin wi = plugin w /\ structs wi = structs w
    /\ length (maps w) < length (maps wi)
    /\ exists groups,
         trace wi = trace w ++ EvGetTeams (teams, None) :: concat groups
         /\ Forall2 (channel_setup cfg) pre groups)).
  - intros pre team post wi El (Hp & Hs & Hm & groups & Ht & Hshape).
    assert (Htake : forall grp,
      channel_setup cfg team grp ->
      Forall2 (channel_setup cfg)
        (take (length (groups ++ [grp])) teams) (groups ++ [grp])).
    { intros grp Hgrp. rewrite El.
      rewrite length_app. simpl.
      rewrite <- (Forall2_length _ _ _ Hshape).
      rewrite (cons_middle team), app_assoc.
      assert (length pre + 1 = length (pre ++ [team])) as ->
        by (rewrite length_app; simpl; lia).
      rewrite take_app_length. apply Forall2_app; [done|].
      constructor; [done|constructor]. }
    assert (Hevents : forall wj grp,
      trace wj = (trace wi ++ grp) ->
      run_events w wj = EvGetTeams (teams, None) :: concat (groups ++ [grp])).
    { intros wj grp Hj. unfold run_events.
      rewrite Hj, Ht, <- app_assoc, drop_app_length, concat_app. simpl.
      by rewrite app_nil_r. }
    repeat wp_go.
    all: simpl in *.
    all: try congruence.
    all: match goal with
         | Hl : structs _ !! _ = _ |- _ => rewrite Hs, Hc in Hl; simplify_eq
         end.
    all: try (split; [done|split; [done|split;
              [rewrite ?length_insert; lia|]]]).
    all: rewrite <- ?app_assoc; simpl.
    all: try (eexists; split; [by apply trace_group|];
              apply Forall2_app; [done|]; constructor; [|constructor]).
    all: try (eexists (groups ++ [_]); split;
              [ apply Hevents; simpl; rewrite <- ?app_assoc; reflexivity
              | split; [apply Htake|intros ? [=]] ]).
    all: unfold channel_setup, demoChannel; eauto 10.
  - intros wi (Hp & Hs & Hm & groups & Ht & Hshape). repeat wp_go.
    exists groups. split.
    { unfold run_events. by rewrite Ht, drop_app_length. }
    pose proof (Forall2_length _ _ _ Hshape) as Hlen.
    split; [|done]. rewrite <- Hlen. by rewrite firstn_all.
  - simpl. repeat split; [rewrite length_app; simpl; lia|].
    exists []. split; [done|constructor].
Qed.

(** *** setEnabled *)

Hypothesis range_order_perm :
  forall (V : Type) (m : gmap string V), range_order V m ≡ₚ map_to_list m.

Lemma setEnabled_run enabled w c cfg :
  wf_world w ->
  Plugin_configuration (plugin w) = Some c ->
  structs w !! c = Some cfg ->
  setEnabled range_order enabled w
  = (Ok tt,
     with_plugin {| Plugin_client := Plugin_client (plugin w);
                    Plugin_configuration := Some (length (structs w));
                    Plugin_botID := Plugin_botID (plugin w) |}
       (with_structs
          (structs w
           ++ [with_disabled (negb enabled) (clone_of cfg (length (maps w)))])
          (with_maps (maps w ++ [map_contents w (demoChannelIDs cfg)]) w))).
Proof using range_order_perm.
  intros Hwf Hpub Hc. unfold setEnabled.
  rewrite (bind_ok _ _ _ _ _ (getConfiguration_published _ _ Hpub)).
  rewrite (bind_ok _ _ _ _ _ (Clone_run _ range_order_perm _ _ _ Hc)).
  assert (Hlt : c < length (structs w)) by by eapply lookup_lt_Some.
  set (w1 := with_structs _ _).
  assert (Hnew : structs w1 !! length (structs w)
                 = Some (clone_of cfg (length (maps w)))).
  { subst w1. simpl. rewrite lookup_app_r by lia. by rewrite Nat.sub_diag. }
  rewrite (bind_ok _ _ _ _ _ (load_struct_ok _ _ _ Hnew)).
  rewrite (bind_ok _ _ _ _ _ (store_struct_ok _ _ _ _ Hnew)).
  rewrite setConfiguration_other.
  - subst w1. simpl. rewrite insert_app_r_alt by lia.
    by rewrite Nat.sub_diag.
  - simpl. rewrite Hpub. intros [= ->]. lia.
Qed.

(** *** diffConfiguration *)

Lemma configurationDiff_empty_iff old new :
  configurationDiff old new = ∅ <-> same_compared old new.
Proof.
  split.
  - intros Hempty.
    assert (Hoff : forall b k v,
      (b, k, v) ∈ diff_entries old new -> b = false).
    { intros b k v Hin. pose proof (configurationDiff_entry _ _ _ _ _ Hin) as Hk.
      rewrite Hempty, lookup_empty in Hk. by destruct b. }
    unfold same_compared.
    repeat split.
    all: match goal with
         | |- ?x ?n = ?x ?o =>
             destruct (decide (x n = x o)) as [|Hne]; [done|exfalso]
         end.
    all: match type of Hne with
         | ?P =>
             eapply (bool_decide_eq_false_1 P);
               [eapply Hoff; unfold diff_entries; rewrite !elem_of_cons;
                eauto 12|done]
         end.
  - intros (E1 & E2 & E3 & E4 & E5 & E6 & E7 & E8 & E9).
    unfold configurationDiff.
    rewrite !bool_decide_eq_false_2 by (intros Hne; by apply Hne).
    reflexivity.
Qed.

Variable json_Marshal : configuration -> string * option error.

Lemma diffConfiguration_unchanged_run w c old c' new :
  Plugin_configuration (plugin w) = Some c ->
  structs w !! c = Some old ->
  structs w !! c' = Some new ->
  same_compared old new ->
  diffConfiguration api json_Marshal c' w = (Ok tt, w).
Proof.
  intros Hpub Hc Hc' Hsame. unfold diffConfiguration.
  rewrite (bind_ok _ _ _ _ _ (getConfiguration_published _ _ Hpub)).
  rewrite (bind_ok _ _ _ _ _ (load_struct_ok _ _ _ Hc')).
  rewrite (bind_ok _ _ _ _ _ (load_struct_ok _ _ _ Hc)).
  apply configurationDiff_empty_iff in Hsame. rewrite Hsame.
  reflexivity.
Qed.

Lemma diffConfiguration_changed_spec w c old c' new :
  Plugin_configuration (plugin w) = Some c ->
  structs w !! c = Some old ->
  structs w !! c' = Some new ->
  ~ same_compared old new ->
  wp (diffConfiguration api json_Marshal c') (fun _ w' =>
    exists res evs, trace w' = trace w ++ EvGetTeams res :: evs) w.
Proof.
  intros Hpub Hc Hc' Hdiff. unfold diffConfiguration.
  wp_go. wp_go; [|congruence]. wp_go. wp_go; [|congruence].
  wp_go. wp_go; [|congruence]. simplify_eq.
  rewrite bool_decide_eq_false_2; last first.
  { intros Hsize. apply Hdiff, configurationDiff_empty_iff.
    by apply map_size_empty_iff. }
  apply wp_bind, wp_api_call. cbv beta iota zeta.
  destruct (GetTeams api (host w)) as [[teams [e|]] h]; cbn [fst snd].
  - repeat wp_go. simpl. rewrite <- app_assoc. by eexists _, _.
  - wp_go.
    apply (wp_for_range (fun wi =>
      exists evs, trace wi = trace w ++ EvGetTeams (teams, None) :: evs)).
    + intros team wi _ [evs Hi]. repeat wp_go.
      all: simpl; rewrite Hi, <- ?app_assoc; simpl; repeat eexists.
    + intros wi [evs Hi]. repeat wp_go. eauto.
    + simpl. by exists [].
Qed.

(** *** The properties *)


(** X4.  For a team id that is not empty, postPluginMessage makes exactly
    one call to CreatePost and returns the error of that call.  The post
    carries the styled text and goes to the channel bound to the team in
    the published map; for a team the map does not bind, it goes to the
    channel with the empty id. *)
Theorem postPluginMessage_one_team w c cfg teamID msg r w' :
  Plugin_configuration (plugin w) = Some c ->
  structs w !! c = Some cfg ->
  disabled cfg = false ->
  teamID <> "" ->
  postPluginMessage api range_order teamID msg w = (r, w') ->
  exists res,
    run_events w w'
    = [EvCreatePost
         (plainPost (Plugin_botID (plugin w))
            (default "" (map_contents w (demoChannelIDs cfg) !! teamID))
            (styled cfg msg)) res]
    /\ r = Ok res.2.
Proof.
  intros Hpub Hc Hen Hteam Hrun.
  rewrite (postPluginMessage_team_run w c cfg teamID msg Hpub Hc Hen Hteam)
    in Hrun.
  injection Hrun as <- <-. eexists. split; [|reflexivity].
  unfold run_events. simpl. by rewrite drop_app_length.
Qed.

(** X5.  With the empty team id, postPluginMessage posts the styled text
    to the demo channels in the order of the range and stops at the first
    post the host refuses: the posts it asked for are a prefix of the
    posts for all channels; it returns nil exactly when every channel got
    its post, and otherwise the error of its last call, all earlier calls
    having succeeded. *)
Theorem postPluginMessage_broadcast_stops_at_failure w c cfg msg r w' :
  Plugin_configuration (plugin w) = Some c ->
  structs w !! c = Some cfg ->
  disabled cfg = false ->
  postPluginMessage api range_order "" msg w = (r, w') ->
  let every :=
    map (fun kv => plainPost (Plugin_botID (plugin w)) kv.2 (styled cfg msg))
      (range_order string (map_contents w (demoChannelIDs cfg))) in
  posts_of (run_events w w') `prefix_of` every
  /\ match r with
     | Ok None =>
         posts_of (run_events w w') = every
         /\ Forall post_accepted (run_events w w')
     | Ok (Some e) =>
         exists evs p res,
           run_events w w' = evs ++ [EvCreatePost p (res, Some e)]
           /\ Forall post_accepted evs
     | Panic _ => False
     end.
Proof.
  intros Hpub Hc Hen Hrun every.
  pose proof (wp_elim _ _ _ _ _ Hrun
                (postPluginMessage_broadcast_spec w c cfg msg Hpub Hc Hen))
    as (evs & Hhost & Hprefix & Hr).
  by rewrite (host_run_events _ _ _ Hhost).
Qed.


(** X7.  When the lookup of the demo user fails, ensureDemoUser creates
    the user only if the status of the error is 404: it then logs and
    calls CreateUser with the configured names, and an error of the
    creation is returned with nothing else done.  With any other status
    the lookup is the only call and its error is returned. *)
Theorem ensureDemoUser_creates_only_on_not_found c cfg w user e h1 r w' :
  structs w !! c = Some cfg ->
  GetUserByUsername api (Username cfg) (host w) = ((user, Some e), h1) ->
  ensureDemoUser api c w = (r, w') ->
  if bool_decide (AppError_StatusCode e = http_StatusNotFound) then
    exists res evs,
      run_events w w'
      = EvGetUserByUsername (Username cfg) (user, Some e)
        :: EvLogInfo "DemoUser doesn't exist. Trying to create it." []
        :: EvCreateUser (demoUser cfg) res :: evs
      /\ forall e', res.2 = Some e' -> r = Ok ("", Some (ErrApp e')) /\ evs = []
  else
    r = Ok ("", Some (ErrApp e))
    /\ run_events w w' = [EvGetUserByUsername (Username cfg) (user, Some e)].
Proof.
  intros Hc Hlookup Hrun.
  pose proof (wp_elim _ _ _ _ _ Hrun
                (ensureDemoUser_lookup_error_spec c cfg w user e h1 Hc Hlookup))
    as Hspec.
  simpl in Hspec. case_bool_decide.
  - destruct Hspec as (res & evs & Hhost & Hfail). exists res, evs.
    by rewrite (host_run_events _ _ _ Hhost).
  - destruct Hspec as [-> Hhost]. by rewrite (host_run_events _ _ _ Hhost).
Qed.

(** X8.  After the team query, ensureDemoChannels handles the teams in
    order, and for each team it handles it makes either the lookup alone,
    which yielded a channel, or the lookup, which yielded none, followed
    by the creation of the channel with the configured name in that team:
    it never creates a channel it has found.  When it returns a map, every
    team has been handled. *)
Theorem ensureDemoChannels_creates_only_missing c cfg w teams r w' :
  structs w !! c = Some cfg ->
  (GetTeams api (host w)).1 = (teams, None) ->
  ensureDemoChannels api c w = (r, w') ->
  exists groups,
    run_events w w' = EvGetTeams (teams, None) :: concat groups
    /\ Forall2 (channel_setup cfg) (take (length groups) teams) groups
    /\ forall m, r = Ok (Some m, None) -> length groups = length teams.
Proof.
  intros Hc Hteams Hrun.
  exact (wp_elim _ _ _ _ _ Hrun
           (ensureDemoChannels_shape_spec c cfg w teams Hc Hteams)).
Qed.

(** X9.  setEnabled publishes a new struct and leaves the struct published
    before as it was.  The new struct has [disabled] set to the negation
    of the argument and every other field but the map as before; its map
    is another map with the same bindings.  The host is not called. *)
Theorem setEnabled_flips_only_the_flag enabled w c cfg r w' :
  wf_world w ->
  Plugin_configuration (plugin w) = Some c ->
  structs w !! c = Some cfg ->
  setEnabled range_order enabled w = (r, w') ->
  r = Ok tt
  /\ exists c' cfg',
       Plugin_configuration (plugin w') = Some c'
       /\ c' <> c
       /\ structs w' !! c' = Some cfg'
       /\ with_demoChannelIDs (demoChannelIDs cfg) cfg'
          = with_disabled (negb enabled) cfg
       /\ demoChannelIDs cfg' <> demoChannelIDs cfg
       /\ map_contents w' (demoChannelIDs cfg')
          = map_contents w (demoChannelIDs cfg)
       /\ structs w' !! c = Some cfg
       /\ Plugin_botID (plugin w') = Plugin_botID (plugin w)
       /\ host w' = host w
       /\ trace w' = trace w.
Proof.
  intros Hwf Hpub Hc Hrun.
  rewrite (setEnabled_run enabled w c cfg Hwf Hpub Hc) in Hrun.
  injection Hrun as <- <-. split; [done|].
  assert (Hlt : c < length (structs w)) by by eapply lookup_lt_Some.
  eexists _, _. simpl. split; [done|]. split; [lia|].
  split; [by rewrite lookup_app_r, Nat.sub_diag by lia|].
  split; [by destruct cfg|].
  split.
  { simpl. destruct (demoChannelIDs cfg) as [r|] eqn:Er; [|done].
    destruct Hwf as [_ Hmaps]. pose proof (Hmaps _ _ _ Hc Er). intros [=]. lia. }
  split.
  { unfold map_contents. simpl. by rewrite lookup_app_r, Nat.sub_diag by lia. }
  split; [by rewrite lookup_app_l by lia|done].
Qed.

(** X10.  What setEnabled publishes governs the hooks that run next:
    after [setEnabled(false)] BackgroundJob and postPluginMessage return
    at once without calling the host; after [setEnabled(true)]
    BackgroundJob asks for a post on every demo channel of the
    configuration published before. *)
Theorem setEnabled_governs_the_hooks enabled w c cfg r w1 :
  wf_world w ->
  Plugin_configuration (plugin w) = Some c ->
  structs w !! c = Some cfg ->
  setEnabled range_order enabled w = (r, w1) ->
  if enabled then
    posts_of (run_events w1 (BackgroundJob api range_order w1).2)
    = map (fun kv => plainPost (Plugin_botID (plugin w)) kv.2
                       "Background job executed")
        (range_order string (map_contents w (demoChannelIDs cfg)))
  else
    BackgroundJob api range_order w1 = (Ok tt, w1)
    /\ forall teamID msg,
         postPluginMessage api range_order teamID msg w1 = (Ok None, w1).
Proof.
  intros Hwf Hpub Hc Hrun.
  rewrite (setEnabled_run enabled w c cfg Hwf Hpub Hc) in Hrun.
  injection Hrun as <- <-.
  set (w1 := with_plugin _ _).
  assert (Hpub1 : Plugin_configuration (plugin w1) = Some (length (structs w)))
    by done.
  assert (Hc1 : structs w1 !! length (structs w)
                = Some (with_disabled (negb enabled)
                          (clone_of cfg (length (maps w))))).
  { subst w1. simpl. by rewrite lookup_app_r, Nat.sub_diag by lia. }
  destruct enabled.
  - pose proof (BackgroundJob_spec w1 _ _ Hpub1 Hc1 eq_refl) as Hjob.
    unfold wp in Hjob. destruct Hjob as (_ & evs & Hhost & Hposts & _).
    rewrite (host_run_events _ _ _ Hhost), Hposts.
    subst w1. unfold map_contents. simpl.
    by rewrite lookup_app_r, Nat.sub_diag by lia.
  - split; [|intros teamID msg].
    + unfold BackgroundJob.
      rewrite (bind_ok _ _ _ _ _ (getConfiguration_published _ _ Hpub1)).
      by rewrite (bind_ok _ _ _ _ _ (load_struct_ok _ _ _ Hc1)).
    + unfold postPluginMessage.
      rewrite (bind_ok _ _ _ _ _ (getConfiguration_published _ _ Hpub1)).
      by rewrite (bind_ok _ _ _ _ _ (load_struct_ok _ _ _ Hc1)).
Qed.

(** X11.  diffConfiguration compares nine fields of the new struct with
    the published one (the integration delay and the internal fields are
    not among them).  When the nine agree it returns at once and the world
    is as before: nothing is announced.  When one differs, its first call
    to the host is the team query. *)
Theorem diffConfiguration_silent_iff_unchanged w c old c' new r w' :
  Plugin_configuration (plugin w) = Some c ->
  structs w !! c = Some old ->
  structs w !! c' = Some new ->
  diffConfiguration api json_Marshal c' w = (r, w') ->
  (same_compared old new -> r = Ok tt /\ w' = w)
  /\ (~ same_compared old new ->
      exists res evs, run_events w w' = EvGetTeams res :: evs).
Proof.
  intros Hpub Hc Hc' Hrun. split.
  - intros Hsame.
    rewrite (diffConfiguration_unchanged_run w c old c' new Hpub Hc Hc' Hsame)
      in Hrun.
    by injection Hrun as <- <-.
  - intros Hdiff.
    pose proof (wp_elim _ _ _ _ _ Hrun
                  (diffConfiguration_changed_spec w c old c' new Hpub Hc Hc'
                     Hdiff))
      as (res & evs & Ht).
    exists res, evs. unfold run_events. by rewrite Ht, drop_app_length.
Qed.
End Posting.

(** Closes a goal [stable n m P w0 w'] by following the updates that
    lead from [w0] to [w']. *)
Ltac stable_go :=
  repeat first
    [ assumption
    | (apply stable_refl; lia)
    | apply stable_host
    | apply stable_event
    | apply stable_alloc_struct
    | apply stable_make_map
    | apply stable_clone
    | (apply stable_store_struct; [|lia])
    | (apply stable_plugin; [|reflexivity])
    | exact I
    | done ].

(** ** Runs of the dialog handler *)

Section DialogRuns.
Context {H : Type}.
Local Open Scope list_scope.
Variable api : HostAPI H.
Variable range_order : forall V : Type, gmap string V -> list (string * V).
Variable manifest_Id : string.
Variable json_Decode : string -> SubmitDialogRequest * option error.
Variable ChannelID : configuration -> string.
Variable TagUsers : configuration -> string.
Implicit Types (w : World H) (c : ptr) (cfg : configuration).

Abbreviation handler :=
  (handleDialog api range_order manifest_Id json_Decode ChannelID TagUsers).

Lemma host_run_announce evs evs' w w1 w2 :
  host_run evs w w1 -> host_run evs' w1 w2 -> host_run (evs ++ evs') w w2.
Proof.
  intros (Hp & Hs & Hm & Ht) (Hp' & Hs' & Hm' & Ht').
  repeat split; try congruence. by rewrite Ht', Ht, app_assoc.
Qed.

(** With a configuration published, postPluginMessage only talks to the
    host: it creates posts without properties. *)
Lemma postPluginMessage_published w0 c cfg teamID msg evs w :
  Plugin_configuration (plugin w0) = Some c ->
  structs w0 !! c = Some cfg ->
  host_run evs w0 w ->
  Forall announce_event evs ->
  wp (postPluginMessage api range_order teamID msg) (fun r w' =>
    (exists e, r = Ok e)
    /\ exists evs', host_run evs' w0 w' /\ Forall announce_event evs') w.
Proof.
  intros Hpub Hc Hrun Hev. pose proof Hrun as (Hp & Hs & Hm & Ht).
  unfold postPluginMessage. repeat wp_go.
  all: try (rewrite Hp in *; rewrite Hs in *; congruence).
  all: try (split; [by eexists|]; eexists; split; [host_run_solve|];
            rewrite ?Forall_app; repeat split; try done;
            by repeat constructor).
  apply (wp_for_range (fun wi =>
    exists evs', host_run evs' w0 wi /\ Forall announce_event evs')).
  - intros kv wi _ (evs' & Hrun' & Hev'). repeat wp_go.
    all: try (split; [by eexists|]).
    all: eexists; (split; [host_run_solve|]).
    all: rewrite ?Forall_app; repeat split; try done; by repeat constructor.
  - intros wi (evs' & Hrun' & Hev'). repeat wp_go. split; [by eexists|]. eauto.
  - eauto.
Qed.

(** The announcing loop of handleDialog with a configuration published. *)
Lemma announce_loop_published w0 c cfg0 cfg (teams : list Team)
    (Q : _ -> World H -> Prop) evs w :
  Plugin_configuration (plugin w0) = Some c ->
  structs w0 !! c = Some cfg0 ->
  host_run evs w0 w ->
  Forall announce_event evs ->
  (forall evs' w', host_run evs' w0 w' -> Forall announce_event evs' ->
                   Q (Ok None) w') ->
  wp (for_range (R := unit) teams (fun team =>
        found <- map_lookup (demoChannelIDs cfg) (Team_Id team) ;;
        match found with
        | None =>
            emit (EvLogWarn "No demo channel id for team"
                    [("team", LString (Team_Id team))]) ;;;
            ret None
        | Some _ =>
            let msg := "OnActivate: " ++ manifest_Id in
            postPluginMessage api range_order (Team_Id team) msg ;;;
            ret None
        end)%string) Q w.
Proof.
  intros Hpub Hc Hrun Hev HQ.
  apply (wp_for_range (fun wi =>
    exists evs', host_run evs' w0 wi /\ Forall announce_event evs')).
  - intros team wi _ (evs' & Hrun' & Hev'). wp_go. wp_go. wp_go.
    + wp_go.
      eapply wp_mono; [|by eapply postPluginMessage_published].
      intros ? w2 [[e ->] Hinv]. by wp_go.
    + repeat wp_go. eexists. split; [host_run_solve|].
      rewrite Forall_app. split; [done|]. by repeat constructor.
  - intros wi (evs' & Hrun' & Hev'). by eapply HQ.
  - eauto.
Qed.

(** Runs handleDialog, with a configuration published, up to the end of
    the announcing loop. *)
Ltac dialog_prefix Hpub Hc :=
  unfold handleDialog;
  wp_go; (wp_go; [|congruence]);
  wp_go; (wp_go; [|congruence]);
  wp_go; wp_go; wp_go;
  eapply announce_loop_published;
    [exact Hpub|exact Hc|host_run_solve|by repeat constructor|];
  cbn [Request_Cancelled zero_SubmitDialogRequest].

Lemma handleDialog_undecodable_spec r request e w c cfg :
  Plugin_configuration (plugin w) = Some c ->
  structs w !! c = Some cfg ->
  json_Decode (Request_Body r) = (request, Some e) ->
  wp (handler r) (fun out w' =>
    out = Ok tt
    /\ exists evs,
         host_run (evs ++ [EvLogError "Failed to decode SubmitDialogRequest"
                            [("err", LError e)];
                          EvWriteHeader http_StatusBadRequest]) w w'
         /\ Forall announce_event evs) w.
Proof.
  intros Hpub Hc Hdec. dialog_prefix Hpub Hc.
  intros evs w2 Hrun Hev. rewrite Hdec. repeat wp_go.
  split; [done|]. exists evs. split; [|done].
  eapply host_run_announce; [exact Hrun|]. host_run_solve.
Qed.

Lemma handleDialog_unknown_user_spec r request user e w c cfg :
  Plugin_configuration (plugin w) = Some c ->
  structs w !! c = Some cfg ->
  json_Decode (Request_Body r) = (request, None) ->
  (forall h, (GetUser api (Request_UserId request) h).1 = (user, Some e)) ->
  wp (handler r) (fun out w' =>
    out = Ok tt
    /\ exists evs,
         host_run (evs ++ [EvGetUser (Request_UserId request) (user, Some e);
                          EvLogError "Failed to get user for dialog"
                            [("err", LErrorText e)];
                          EvWriteHeader http_StatusOK]) w w'
         /\ Forall announce_event evs) w.
Proof.
  intros Hpub Hc Hdec Huser. dialog_prefix Hpub Hc.
  intros evs w2 Hrun Hev. rewrite Hdec.
  wp_go. apply wp_api_call. rewrite (Huser (host w2)). repeat wp_go.
  split; [done|]. exists evs. split; [|done].
  eapply host_run_announce; [exact Hrun|]. host_run_solve.
Qed.

Lemma handleDialog_ticket_spec r request s u w c cfg :
  Plugin_configuration (plugin w) = Some c ->
  structs w !! c = Some cfg ->
  json_Decode (Request_Body r) = (request, None) ->
  (forall h, (GetUser api (Request_UserId request) h).1 = (Some u, None)) ->
  Request_Submission request !! "4-User Impact" = Some (JString s) ->
  wp (handler r) (fun out w' =>
    exists evs res tail,
      host_run (evs ++ EvGetUser (Request_UserId request) (Some u, None)
                :: EvCreatePost
                     (ticketPost (Plugin_botID (plugin w)) (ChannelID cfg)
                        (User_Username u) (priorityColor s)
                        (submissionFields
                           (range_order jvalue (Request_Submission request))))
                     res
                :: tail) w w'
      /\ Forall announce_event evs
      /\ match res with
         | (_, Some e) =>
             out = Ok tt
             /\ tail = [EvLogError "Failed to post handleDialog message"
                          [("err", LErrorText e)]]
         | (root, None) =>
             if Request_Cancelled request
             then out = Ok tt /\ tail = [EvWriteHeader http_StatusOK]
             else
               match root with
               | None => out = Panic nil_deref /\ tail = []
               | Some root =>
                   exists res',
                     out = Ok tt
                     /\ tail
                        = EvCreatePost
                            (replyPost (Plugin_botID (plugin w)) (ChannelID cfg)
                               (Post_Id root) (tagMessage (TagUsers cfg)))
                            res'
                          :: match res'.2 with
                             | Some e =>
                                 [EvLogError "Failed to post handleDialog message"
                                    [("err", LErrorText e)]]
                             | None => [EvWriteHeader http_StatusOK]
                             end
               end
         end) w.
Proof.
  intros Hpub Hc Hdec Huser Hprio. dialog_prefix Hpub Hc.
  intros evs w2 (Hp & Hs & Hm & Ht) Hev. rewrite Hdec.
  wp_go. apply wp_api_call. rewrite (Huser (host w2)).
  rewrite Hprio. unfold assert_string, published.
  cbv beta iota zeta. cbn [fst snd].
  destruct (Request_Cancelled request) eqn:Hcan; cbn [negb].
  all: repeat wp_go.
  all: simpl in *; rewrite ?Hp, ?Hs in *; simplify_eq.
  all: exists evs; unfold host_run, ticketPost, replyPost; simpl;
    rewrite ?Hp, ?Hs, ?Hm, Ht, <- ?app_assoc; simpl.
  all: eexists (_, _), _; (split; [repeat split; reflexivity|]);
    (split; [done|]); simpl.
  all: try done.
  all: match goal with
       | |- exists res', _ /\ EvCreatePost _ ?res :: _ = _ => by exists res
       end.
Qed.

Lemma handleDialog_unpublished_spec r request s w :
  Plugin_configuration (plugin w) = None ->
  json_Decode (Request_Body r) = (request, None) ->
  (forall h, (GetUser api (Request_UserId request) h).1.2 = None) ->
  Request_Submission request !! "4-User Impact" = Some (JString s) ->
  wp (handler r) (fun out w' =>
    out = Panic nil_deref
    /\ stable (length (structs w)) (length (maps w)) no_post w w') w.
Proof.
  intros Hnil Hdec Huser Hprio.
  set (n := length (structs w)). set (m := length (maps w)).
  unfold handleDialog.
  wp_go. wp_go; [congruence|]. wp_go. wp_go; last first.
  { exfalso. simpl in *. rewrite lookup_app_r in * by lia.
    rewrite Nat.sub_diag in *. done. }
  simpl in *. rewrite lookup_app_r in * by lia. rewrite Nat.sub_diag in *.
  simplify_eq/=. wp_go. wp_go. wp_go.
  apply (wp_for_range (stable n m no_post w)).
  - intros team wi _ HS. repeat wp_go; [|stable_go].
    unfold map_contents in *. by rewrite lookup_empty in *.
  - intros w2 HS. cbn [Request_Cancelled zero_SubmitDialogRequest].
    rewrite Hdec. wp_go. apply wp_api_call.
    pose proof (Huser (host w2)) as Hu.
    destruct (GetUser api (Request_UserId request) (host w2)) as [[user err] h2].
    simpl in Hu. subst err. rewrite Hprio. unfold assert_string, published.
    repeat wp_go.
    all: try (split; [done|stable_go]).
    all: exfalso; destruct HS as (Hp & _); simpl in *; congruence.
  - stable_go.
Qed.

(** *** The properties *)

(** X12.  When the body of the request does not decode, handleDialog,
    after its announcements, logs the decoding error and answers with
    status 400: the user is not looked up and no ticket is posted. *)
Theorem handleDialog_rejects_undecodable_body r request e w c cfg out w' :
  Plugin_configuration (plugin w) = Some c ->
  structs w !! c = Some cfg ->
  json_Decode (Request_Body r) = (request, Some e) ->
  handler r w = (out, w') ->
  out = Ok tt
  /\ exists evs,
       run_events w w'
       = evs ++ [EvLogError "Failed to decode SubmitDialogRequest"
                   [("err", LError e)];
                 EvWriteHeader http_StatusBadRequest]
       /\ Forall announce_event evs.
Proof.
  intros Hpub Hc Hdec Hrun.
  pose proof (wp_elim _ _ _ _ _ Hrun
                (handleDialog_undecodable_spec r request e w c cfg Hpub Hc Hdec))
    as (-> & evs & Hhost & Hev).
  split; [done|]. exists evs. by rewrite (host_run_events _ _ _ Hhost).
Qed.

(** X13.  When the host does not know the submitting user, handleDialog
    logs the error of the lookup and answers with status 200 all the
    same: the lookup, the log entry and the status are its last three
    events, and no ticket is posted. *)
Theorem handleDialog_unknown_user_answers_ok r request user e w c cfg out w' :
  Plugin_configuration (plugin w) = Some c ->
  structs w !! c = Some cfg ->
  json_Decode (Request_Body r) = (request, None) ->
  (forall h, (GetUser api (Request_UserId request) h).1 = (user, Some e)) ->
  handler r w = (out, w') ->
  out = Ok tt
  /\ exists evs,
       run_events w w'
       = evs ++ [EvGetUser (Request_UserId request) (user, Some e);
                 EvLogError "Failed to get user for dialog"
                   [("err", LErrorText e)];
                 EvWriteHeader http_StatusOK]
       /\ Forall announce_event evs.
Proof.
  intros Hpub Hc Hdec Huser Hrun.
  pose proof (wp_elim _ _ _ _ _ Hrun
                (handleDialog_unknown_user_spec r request user e w c cfg
                   Hpub Hc Hdec Huser))
    as (-> & evs & Hhost & Hev).
  split; [done|]. exists evs. by rewrite (host_run_events _ _ _ Hhost).
Qed.

(** X14.  For a request that decodes, from a user the host knows, with a
    string as user impact, handleDialog posts the ticket: a post of the
    bot in the configured channel that names the user and carries one
    attachment with the colour of the priority and the fields of the
    submission.  If the host refuses the ticket, the error is logged and
    no status is written.  Otherwise the reply with the tags is posted
    with the id of the ticket as its root, unless the request is a
    cancellation; status 200 is written only after everything succeeded.
    A ticket accepted by the host without a post makes the handler panic
    at the root id. *)
Theorem handleDialog_posts_ticket_thread r request s u w c cfg out w' :
  Plugin_configuration (plugin w) = Some c ->
  structs w !! c = Some cfg ->
  json_Decode (Request_Body r) = (request, None) ->
  (forall h, (GetUser api (Request_UserId request) h).1 = (Some u, None)) ->
  Request_Submission request !! "4-User Impact" = Some (JString s) ->
  handler r w = (out, w') ->
  exists evs res tail,
    run_events w w'
    = evs ++ EvGetUser (Request_UserId request) (Some u, None)
          :: EvCreatePost
               (ticketPost (Plugin_botID (plugin w)) (ChannelID cfg)
                  (User_Username u) (priorityColor s)
                  (submissionFields
                     (range_order jvalue (Request_Submission request))))
               res
          :: tail
    /\ Forall announce_event evs
    /\ match res with
       | (_, Some e) =>
           out = Ok tt
           /\ tail = [EvLogError "Failed to post handleDialog message"
                        [("err", LErrorText e)]]
       | (root, None) =>
           if Request_Cancelled request
           then out = Ok tt /\ tail = [EvWriteHeader http_StatusOK]
           else
             match root with
             | None => out = Panic nil_deref /\ tail = []
             | Some root =>
                 exists res',
                   out = Ok tt
                   /\ tail
                      = EvCreatePost
                          (replyPost (Plugin_botID (plugin w)) (ChannelID cfg)
                             (Post_Id root) (tagMessage (TagUsers cfg)))
                          res'
                        :: match res'.2 with
                           | Some e =>
                               [EvLogError "Failed to post handleDialog message"
                                  [("err", LErrorText e)]]
                           | None => [EvWriteHeader http_StatusOK]
                           end
             end
       end.
Proof.
  intros Hpub Hc Hdec Huser Hprio Hrun.
  pose proof (wp_elim _ _ _ _ _ Hrun
                (handleDialog_ticket_spec r request s u w c cfg Hpub Hc Hdec
                   Huser Hprio))
    as (evs & res & tail & Hhost & Hev & Hres).
  exists evs, res, tail. by rewrite (host_run_events _ _ _ Hhost).
Qed.

(** X15.  With no configuration published, a request that would yield a
    ticket makes handleDialog panic with a nil dereference, at the read
    of the channel of the ticket, before any post is created. *)
Theorem handleDialog_unpublished_panics r request s w out w' :
  Plugin_configuration (plugin w) = None ->
  json_Decode (Request_Body r) = (request, None) ->
  (forall h, (GetUser api (Request_UserId request) h).1.2 = None) ->
  Request_Submission request !! "4-User Impact" = Some (JString s) ->
  handler r w = (out, w') ->
  out = Panic nil_deref
  /\ Forall no_post (run_events w w').
Proof.
  intros Hnil Hdec Huser Hprio Hrun.
  pose proof (wp_elim _ _ _ _ _ Hrun
                (handleDialog_unpublished_spec r request s w Hnil Hdec Huser
                   Hprio))
    as (-> & HS).
  split; [done|]. by eapply stable_run_events.
Qed.
End DialogRuns.

(** ** Runs of the reload *)

Section ReloadRuns.
Context {H : Type}.
Local Open Scope list_scope.
Variable api : HostAPI H.
Variable range_order : forall V : Type, gmap string V -> list (string * V).
Variable json_Marshal : configuration -> string * option error.
Implicit Types (w : World H) (c : ptr) (cfg : configuration).

Lemma stable_snapshots_kept P w w' :
  stable (length (structs w)) (length (maps w)) P w w' -> snapshots_kept w w'.
Proof.
  intros (_ & _ & _ & Hs & Hm & _). split.
  - intros c cfg Hc. rewrite Hs; [done|]. by eapply lookup_lt_Some.
  - intros r g Hr. rewrite Hm; [done|]. by eapply lookup_lt_Some.
Qed.

Lemma snapshots_kept_plugin w w' p :
  snapshots_kept w w' -> snapshots_kept w (with_plugin p w').
Proof. done. Qed.

Lemma diffConfiguration_stable_any n m w0 c w :
  stable n m (fun _ => True) w0 w ->
  wp (diffConfiguration api json_Marshal c)
    (fun r w' => stable n m (fun _ => True) w0 w'
                 /\ forall msg, r = Panic msg -> msg = nil_deref) w.
Proof.
  intros HS. unfold diffConfiguration. repeat wp_go; try (split; [stable_go|]).
  all: try (by intros ? [= <-]).
  all: apply (wp_for_range (stable n m (fun _ => True) w0));
    [ intros team w1 _ HI; repeat wp_go; try stable_go;
      (split; [stable_go|by intros ? [= <-]])
    | intros w1 HI; repeat wp_go; (split; [stable_go|by intros ? [= <-]])
    | stable_go ].
Qed.

Lemma ensureDemoUser_any c w :
  wp (ensureDemoUser api c) (fun r w' =>
    host_step (fun _ => True) w w'
    /\ forall msg, r = Panic msg -> msg = nil_deref) w.
Proof.
  unfold ensureDemoUser. repeat wp_go.
  all: try (split; [host_step_solve|by intros ? [= <-]]).
  all: apply (wp_for_range (host_step (fun _ => True) w)).
  all: try (intros team w1 _ HI; repeat wp_go).
  all: try (intros w1 HI; repeat wp_go).
  all: try (split; [host_step_solve|by intros ? [= <-]]).
  all: host_step_solve.
Qed.

Lemma ensureDemoChannels_any n m w0 c w :
  stable n m (fun _ => True) w0 w ->
  wp (ensureDemoChannels api c) (fun r w' =>
    (stable n m (fun _ => True) w0 w'
     /\ plugin w' = plugin w
     /\ structs w' = structs w)
    /\ forall msg, r = Panic msg -> msg = nil_deref) w.
Proof.
  intros HS. unfold ensureDemoChannels. repeat wp_go.
  all: try (split; [split; [stable_go|done]|by intros ? [= <-]]).
  pose proof (stable_length_maps _ _ _ _ _ HS) as Hlen.
  apply (wp_for_range (fun wi =>
    stable n m (fun _ => True) w0 wi
    /\ plugin wi = plugin w /\ structs wi = structs w
    /\ length (maps w) < length (maps wi))).
  - intros team wi _ (HSi & Hp & Hs & Hm). repeat wp_go.
    all: try (split; [split; [stable_go|done]|by intros ? [= <-]]).
    all: (split; [|split; [done|split; [done|simpl; rewrite length_insert; lia]]]).
    all: apply stable_map_store; [stable_go|simpl; lia].
  - intros wi (HSi & Hp & Hs & Hm). repeat wp_go.
    all: split; [split; [stable_go|done]|by intros ? [= <-]].
  - split; [stable_go|]. simpl. repeat split. rewrite length_app. simpl. lia.
Qed.

Lemma OnConfigurationChange_frame w :
  wf_world w ->
  wp (OnConfigurationChange api range_order json_Marshal) (fun r w' =>
    snapshots_kept w w'
    /\ (forall msg, r = Panic msg -> msg = nil_deref)
    /\ (r = Ok None ->
        exists c', Plugin_configuration (plugin w') = Some c'
                   /\ length (structs w) <= c')) w.
Proof.
  intros [Hwf _].
  set (n := length (structs w)). set (m := length (maps w)).
  assert (HS0 : stable n m (fun _ => True) w w) by by apply stable_refl.
  assert (Hleaf : forall (r : Outcome (option error)) w',
    stable n m (fun _ => True) w w' ->
    (forall msg, r = Panic msg -> msg = nil_deref) ->
    r <> Ok None ->
    snapshots_kept w w'
    /\ (forall msg, r = Panic msg -> msg = nil_deref)
    /\ (r = Ok None ->
        exists c', Plugin_configuration (plugin w') = Some c' /\ n <= c')).
  { intros r w' HS Hmsg Hr. split; [by eapply stable_snapshots_kept|].
    split; [done|]. by intros ->. }
  unfold OnConfigurationChange.
  wp_go. wp_go. wp_go.
  apply (wp_mono _ (fun r w1 => r = Ok tt /\ stable n m (fun _ => True) w w1)).
  2:{ destruct (Plugin_client (plugin w)); wp_go; (split; [done|stable_go]). }
  intros ? w1 [-> HS1]. wp_go.
  apply (wp_mono _ (fun r w2 =>
    (exists c, r = Ok c) /\ stable n m (fun _ => True) w w2)).
  2:{ wp_go; (split; [by eexists|stable_go]). }
  intros ? w2 [[c ->] HS2]. wp_go.
  apply (wp_mono _ (fun r w3 =>
    stable n m (fun _ => True) w w3
    /\ (forall c', r = Ok c' -> n <= c')
    /\ forall msg, r = Panic msg -> msg = nil_deref)).
  2:{ wp_go; (split; [stable_go|]).
      - split; [|by intros ? [= <-]].
        intros c' [= <-]. by eapply stable_length_structs.
      - split; [done|by intros ? [= <-]]. }
  intros [c'|msg] w3 (HS3 & Hc' & Hmsg);
    [|by apply Hleaf; [|intros ? [= <-]; apply Hmsg|]].
  specialize (Hc' _ eq_refl). clear Hmsg.
  repeat wp_go.
  all: try (by apply Hleaf; [stable_go|intros ? [= <-]|]).
  (* ensureDemoUser *)
  match goal with
  | |- wp _ _ ?wx =>
      assert (HS4 : stable n m (fun _ => True) w wx) by stable_go
  end.
  eapply wp_mono; [|apply ensureDemoUser_any].
  intros r w4 [Hstep Hmsg]. pose proof Hstep as (_ & Hstructs4 & _).
  apply (stable_host_step _ _ _ _ _ _ HS4) in Hstep. clear HS4.
  simpl in Hstructs4.
  destruct r as [[uid [e|]]|msg];
    [wp_go; by apply Hleaf|
    |by apply Hleaf; [|intros ? [= <-]; apply Hmsg|]].
  clear Hmsg. repeat wp_go.
  all: try (by apply Hleaf; [stable_go|intros ? [= <-]|]).
  (* ensureDemoChannels *)
  match goal with
  | |- wp _ _ ?wx =>
      assert (HS5 : stable n m (fun _ => True) w wx) by stable_go
  end.
  eapply wp_mono; [|by apply (ensureDemoChannels_any n m w)].
  intros r w6 [(HS6 & Hp6 & Hstructs6) Hmsg]. simpl in Hstructs6, Hp6.
  destruct r as [[mr [e|]]|msg];
    [| |by apply Hleaf; [|intros ? [= <-]; apply Hmsg|]].
  all: clear Hmsg; repeat wp_go.
  all: try (by apply Hleaf; [stable_go|intros ? [= <-]|]).
  match goal with
  | |- wp _ _ ?wx =>
      assert (HS7 : stable n m (fun _ => True) w wx) by stable_go
  end.
  eapply wp_mono; [|by apply (diffConfiguration_stable_any n m w)].
  intros [[]|msg] w8 [HS8 Hmsg];
    [|by apply Hleaf; [|intros ? [= <-]; apply Hmsg|]].
  repeat wp_go.
  - exfalso. destruct HS8 as (Hp8 & _). simpl in Hp8.
    match goal with
    | Hpub : Plugin_configuration (plugin w8) = Some c' |- _ =>
        rewrite Hp8 in Hpub; apply Hwf, lookup_lt_is_Some_1 in Hpub
    end.
    unfold n in Hc'. lia.
  - split; [by apply snapshots_kept_plugin, (stable_snapshots_kept (fun _ => True))|].
    split; [by intros ? [= <-]|]. intros _. by exists c'.
Qed.






(** *** The properties *)

(** X16.  Whatever its outcome (success, error or panic),
    OnConfigurationChange writes to no struct and to no map that existed
    when it was called: what a reader got from getConfiguration before
    the reload stays as it was.  A panic of the reload is a nil
    dereference (never the panic of setConfiguration), and on success the
    published pointer addresses a struct allocated by this reload. *)
Theorem OnConfigurationChange_keeps_snapshots w r w' :
  wf_world w ->
  OnConfigurationChange api range_order json_Marshal w = (r, w') ->
  snapshots_kept w w'
  /\ (forall msg, r = Panic msg -> msg = nil_deref)
  /\ (r = Ok None ->
      exists c', Plugin_configuration (plugin w') = Some c'
                 /\ length (structs w) <= c').
Proof.
  intros Hwf Hrun.
  exact (wp_elim _ _ _ _ _ Hrun (OnConfigurationChange_frame w Hwf)).
Qed.


End ReloadRuns.

(** ** Concrete runs *)

Section Runs.
Local Open Scope list_scope.
Import Mock.

Lemma fresh_world_wf h : wf_world (fresh_world h).
Proof. split; [intros c [=]|intros c cfg r [=]]. Qed.

Lemma published_world_wf off h : wf_world (published_world off h).
Proof.
  split.
  - intros c [= <-]. by eexists.
  - intros [|c] cfg r Hc Hr; simpl in *; [|done].
    injection Hc as <-. injection Hr as <-. lia.
Qed.

Lemma published_world_valid off h : published_valid (published_world off h).
Proof. intros c [= <-]. by eexists. Qed.

Lemma mock_range_order_perm (V : Type) (m : gmap string V) :
  range_order V m ≡ₚ map_to_list m.
Proof. reflexivity. Qed.

Example strings_Split_examples :
  strings_Split "4-User Impact" "-" = ["4"; "User Impact"]
  /\ strings_Split "Impact" "-" = ["Impact"]
  /\ strings_Split "" "-" = [""]
  /\ strings_Split "alice,bob" "," = ["alice"; "bob"].
Proof. by vm_compute. Qed.

Example tagMessage_examples :
  tagMessage "alice,bob" = "cc:@alice, @bob"
  /\ tagMessage "" = "Update the plugin configuration to tag users in the future.".
Proof. by vm_compute. Qed.

(** C6.  Old and new snapshot differ in the text style only (from [""] to
    ["**"]); the one entry of the diff is ["text_style"], and it carries
    the channel name ["demo"], not the new text style. *)
Theorem configurationDiff_text_style_carries_channel_name :
  let old := demo_configuration false in
  let new := {|
    Username := "demo"; ChannelName := "demo"; LastName := "Plugin";
    TextStyle := "**"; RandomSecret := "s3cret"; SecretMessage := "hello";
    EnableMentionUser := false; MentionUser := ""; SecretNumber := 7;
    IntegrationRequestDelay := 0; disabled := false;
    demoUserID := "user-demo"; demoChannelIDs := Some 0 |} in
  TextStyle new = "**"
  /\ TextStyle old = ""
  /\ configurationDiff old new = {[ "text_style" := PString "demo" ]}
  /\ configurationDiff old new !! "text_style" <> Some (PString (TextStyle new)).
Proof. repeat split. intros [=]. Qed.



(** *** The theorems at concrete inputs *)

Lemma getConfiguration_unpublished_zero_witness :
  Plugin_configuration (plugin (fresh_world quiet_host)) = None
  /\ exists c w',
       getConfiguration (fresh_world quiet_host) = (Ok c, w')
       /\ structs w' !! c = Some zero_configuration
       /\ plugin w' = plugin (fresh_world quiet_host).
Proof.
  split; [reflexivity|].
  destruct (getConfiguration_unpublished_zero (fresh_world quiet_host) eq_refl)
    as (c & w' & Hrun & Hzero & Hrest).
  exists c, w'. repeat split; [exact Hrun|exact Hzero|].
  apply Hrest.
Defined.

Lemma setConfiguration_same_instance_panics_witness :
  Plugin_configuration (plugin (published_world false quiet_host)) = Some 0
  /\ setConfiguration (Some 0) (published_world false quiet_host)
     = (Panic "setConfiguration called with the existing configuration",
        published_world false quiet_host).
Proof.
  split; [reflexivity|].
  apply setConfiguration_same_instance_panics. reflexivity.
Defined.

Lemma BackgroundJob_disabled_skips_witness :
  disabled (demo_configuration true) = true
  /\ BackgroundJob two_teams range_order (published_world true quiet_host)
     = (Ok tt, published_world true quiet_host).
Proof.
  split; [reflexivity|].
  apply (BackgroundJob_disabled_skips two_teams range_order
           (published_world true quiet_host) 0 (demo_configuration true));
    reflexivity.
Defined.

Lemma Clone_deep_copy_witness :
  exists c' cfg' w',
    Clone range_order 0 (published_world false quiet_host) = (Ok c', w')
    /\ structs w' !! c' = Some cfg'
    /\ c' <> 0
    /\ exists w'',
         mutate_all (demoChannelIDs cfg')
           [Assign "b" "channel-b"; Delete "a"; Assign "a" "other"] w'
         = (Ok tt, w'')
         /\ map_contents w'' (demoChannelIDs cfg')
            = {[ "a" := "other"; "b" := "channel-b" ]}
         /\ map_contents w'' (Some 0) = {[ "a" := "channel-a" ]}.
Proof.
  destruct (Clone_deep_copy range_order mock_range_order_perm
              (published_world false quiet_host) 0 (demo_configuration false)
              (published_world_wf false quiet_host) eq_refl)
    as (c' & cfg' & r' & w' & Hrun & Hne & Hc' & _ & _ & _ & _ & _ & _ & Hops).
  exists c', cfg', w'.
  split; [exact Hrun|]. split; [exact Hc'|]. split; [exact Hne|].
  destruct (Hops [Assign "b" "channel-b"; Delete "a"; Assign "a" "other"])
    as (w'' & Hmut & Hclone & _ & Horig).
  exists w''. split; [exact Hmut|]. split; [|exact Horig].
  rewrite Hclone. by vm_compute.
Defined.






Lemma handleDialog_unchecked_priority_witness :
  (exists w',
     dialog "no impact"
     = (Panic "interface conversion: interface {} is nil, not string", w')
     /\ forall status,
          EvWriteHeader status ∉ run_events (published_world false quiet_host) w')
  /\ priorityColor "Urgent" = ""
  /\ forall post res atts att,
       EvCreatePost post res
       ∈ run_events (published_world false quiet_host) (dialog "urgent").2 ->
       Post_Props post !! "attachments" = Some (PAttachments atts) ->
       att ∈ atts ->
       Attachment_Color att = "".
Proof.
  split.
  - apply (proj1 (handleDialog_unchecked_priority one_team range_order
                    manifest_Id json_Decode ChannelID TagUsers
                    {| Request_Body := "no impact" |}
                    (submission {[ "1-Summary" := JString "disk full" ]})
                    (published_world false quiet_host)
                    (published_world_valid false quiet_host) eq_refl)).
    + intros h. reflexivity.
    + intros s Hs. vm_compute in Hs. discriminate Hs.
  - apply (proj2 (handleDialog_unchecked_priority one_team range_order
                    manifest_Id json_Decode ChannelID TagUsers
                    {| Request_Body := "urgent" |}
                    (submission {[ "4-User Impact" := JString "Urgent" ]})
                    (published_world false quiet_host)
                    (published_world_valid false quiet_host) eq_refl)
             "Urgent").
    + by vm_compute.
    + intros [=].
    + intros [=].
    + intros [=].
Defined.

(** In that run the ticket is posted, with one attachment, whose colour
    is the empty string. *)
Example dialog_urgent_posts_without_colour :
  exists post res att,
    EvCreatePost post res
    ∈ run_events (published_world false quiet_host) (dialog "urgent").2
    /\ Post_Props post !! "attachments" = Some (PAttachments [att])
    /\ Attachment_Color att = ""
    /\ Attachment_Fields att
       = [{| Field_Title := "User Impact"; Field_Value := JString "Urgent" |}].
Proof.
  eexists _, _, _. split.
  - eapply (list_elem_of_lookup_2 _ 3). by vm_compute.
  - by vm_compute.
Qed.
End Runs.

(** ** Concrete runs of the further properties *)

Section FurtherRuns.
Local Open Scope list_scope.
Import Mock.

Lemma two_channel_world_wf h : wf_world (two_channel_world h).
Proof.
  split.
  - intros c [= <-]. by eexists.
  - intros [|c] cfg r Hc Hr; simpl in *; [|done].
    injection Hc as <-. injection Hr as <-. lia.
Qed.


(** A message for a team without a channel goes to the channel [""]. *)
Lemma postPluginMessage_one_team_witness :
  let w := published_world false quiet_host in
  exists res,
    run_events w (postPluginMessage two_teams range_order "b" "hello" w).2
    = [EvCreatePost (plainPost "bot" "" "hello") res].
Proof.
  intros w.
  destruct (postPluginMessage_one_team two_teams range_order w 0
              (demo_configuration false) "b" "hello" _ _
              eq_refl eq_refl eq_refl ltac:(done) (surjective_pairing _))
    as (res & Hev & _).
  exists res. exact Hev.
Defined.

(** The broadcast stops at the first channel, whose post is refused. *)
Lemma postPluginMessage_broadcast_stops_at_failure_witness :
  let w := two_channel_world quiet_host in
  let run := postPluginMessage picky range_order "" "hello" w in
  run.1 = Ok (Some forbidden)
  /\ posts_of (run_events w run.2) = [plainPost "bot" "channel-a" "hello"]
  /\ posts_of (run_events w run.2)
     `prefix_of` [plainPost "bot" "channel-a" "hello";
                  plainPost "bot" "channel-b" "hello"].
Proof.
  intros w run.
  destruct (postPluginMessage_broadcast_stops_at_failure picky range_order w 0
              (demo_configuration false) "hello" run.1 run.2
              eq_refl eq_refl eq_refl (surjective_pairing _))
    as (Hprefix & _).
  split; [reflexivity|]. split; [reflexivity|exact Hprefix].
Defined.


Lemma ensureDemoUser_creates_only_on_not_found_witness :
  let w := published_world false quiet_host in
  let run := ensureDemoUser two_teams 0 w in
  exists res evs,
    run_events w run.2
    = EvGetUserByUsername "demo" (None, Some not_found)
      :: EvLogInfo "DemoUser doesn't exist. Trying to create it." []
      :: EvCreateUser (demoUser (demo_configuration false)) res :: evs.
Proof.
  intros w run.
  pose proof (ensureDemoUser_creates_only_on_not_found two_teams 0
                (demo_configuration false) w None not_found quiet_host
                run.1 run.2 eq_refl eq_refl (surjective_pairing _))
    as Hspec.
  simpl in Hspec. destruct Hspec as (res & evs & Hev & _).
  by exists res, evs.
Defined.

Lemma ensureDemoChannels_creates_only_missing_witness :
  let w := published_world false quiet_host in
  let run := ensureDemoChannels two_teams 0 w in
  exists groups,
    run_events w run.2 = EvGetTeams ([teamA; teamB], None) :: concat groups
    /\ Forall2 (channel_setup (demo_configuration false))
         (take (length groups) [teamA; teamB]) groups
    /\ length groups = 2.
Proof.
  intros w run.
  destruct (ensureDemoChannels_creates_only_missing two_teams 0
              (demo_configuration false) w [teamA; teamB] run.1 run.2
              eq_refl eq_refl (surjective_pairing _))
    as (groups & Hev & Hshape & Hall).
  exists groups. split; [exact Hev|]. split; [exact Hshape|].
  by eapply Hall.
Defined.

Lemma setEnabled_flips_only_the_flag_witness :
  let w := published_world false quiet_host in
  let w' := (setEnabled range_order false w).2 in
  exists c' cfg',
    Plugin_configuration (plugin w') = Some c'
    /\ c' <> 0
    /\ structs w' !! c' = Some cfg'
    /\ disabled cfg' = true
    /\ map_contents w' (demoChannelIDs cfg') = {[ "a" := "channel-a" ]}
    /\ structs w' !! 0 = Some (demo_configuration false).
Proof.
  intros w w'.
  destruct (setEnabled_flips_only_the_flag range_order mock_range_order_perm
              false w 0 (demo_configuration false) _ w'
              (published_world_wf false quiet_host) eq_refl eq_refl
              (surjective_pairing _))
    as (_ & c' & cfg' & Hpub & Hne & Hc' & Hflag & _ & Hmap & Hold & _).
  exists c', cfg'. split; [exact Hpub|]. split; [exact Hne|].
  split; [exact Hc'|]. split; [|split; [exact Hmap|exact Hold]].
  by apply (f_equal disabled) in Hflag.
Defined.

Lemma setEnabled_governs_the_hooks_witness :
  let w := published_world false quiet_host in
  let w1 := (setEnabled range_order false w).2 in
  BackgroundJob two_teams range_order w1 = (Ok tt, w1)
  /\ postPluginMessage two_teams range_order "a" "hello" w1 = (Ok None, w1).
Proof.
  intros w w1.
  destruct (setEnabled_governs_the_hooks two_teams range_order
              mock_range_order_perm false w 0 (demo_configuration false) _ w1
              (published_world_wf false quiet_host) eq_refl eq_refl
              (surjective_pairing _))
    as [Hjob Hpost].
  split; [exact Hjob|apply Hpost].
Defined.

(** A change of the integration delay alone is not announced. *)
Lemma diffConfiguration_silent_iff_unchanged_witness :
  let old := demo_configuration false in
  let new := {|
    Username := "demo"; ChannelName := "demo"; LastName := "Plugin";
    TextStyle := ""; RandomSecret := "s3cret"; SecretMessage := "hello";
    EnableMentionUser := false; MentionUser := ""; SecretNumber := 7;
    IntegrationRequestDelay := 5; disabled := false;
    demoUserID := "user-demo"; demoChannelIDs := Some 0 |} in
  let w := {|
    plugin := {| Plugin_client := true; Plugin_configuration := Some 0;
                 Plugin_botID := "bot" |};
    structs := [old; new];
    maps := [{[ "a" := "channel-a" ]}];
    host := quiet_host; trace := []
  |} in
  diffConfiguration two_teams json_Marshal 1 w = (Ok tt, w).
Proof.
  intros old new w.
  destruct (diffConfiguration two_teams json_Marshal 1 w) as [r w'] eqn:Hrun.
  destruct (diffConfiguration_silent_iff_unchanged two_teams json_Marshal
              w 0 old 1 new r w' eq_refl eq_refl eq_refl Hrun)
    as [Hsame _].
  destruct Hsame as [-> ->]; [by repeat split|]. reflexivity.
Defined.

Lemma handleDialog_rejects_undecodable_body_witness :
  let w := published_world false quiet_host in
  (dialog "garbage").1 = Ok tt
  /\ exists evs,
       run_events w (dialog "garbage").2
       = evs ++ [EvLogError "Failed to decode SubmitDialogRequest"
                   [("err", LError (ErrNew "unexpected end of JSON input"))];
                 EvWriteHeader http_StatusBadRequest].
Proof.
  intros w.
  destruct (handleDialog_rejects_undecodable_body one_team range_order
              manifest_Id json_Decode ChannelID TagUsers
              {| Request_Body := "garbage" |} zero_SubmitDialogRequest
              (ErrNew "unexpected end of JSON input") w 0
              (demo_configuration false) (dialog "garbage").1
              (dialog "garbage").2 eq_refl eq_refl eq_refl
              (surjective_pairing _))
    as (Hout & evs & Hev & _).
  split; [exact Hout|]. by exists evs.
Defined.

Lemma handleDialog_unknown_user_answers_ok_witness :
  let w := published_world false quiet_host in
  let run := handleDialog strangers range_order manifest_Id json_Decode
               ChannelID TagUsers {| Request_Body := "urgent" |} w in
  run.1 = Ok tt
  /\ exists evs,
       run_events w run.2
       = evs ++ [EvGetUser "u1" (None, Some not_found);
                 EvLogError "Failed to get user for dialog"
                   [("err", LErrorText not_found)];
                 EvWriteHeader http_StatusOK].
Proof.
  intros w run.
  destruct (handleDialog_unknown_user_answers_ok strangers range_order
              manifest_Id json_Decode ChannelID TagUsers
              {| Request_Body := "urgent" |}
              (submission {[ "4-User Impact" := JString "Urgent" ]})
              None not_found w 0 (demo_configuration false) run.1 run.2
              eq_refl eq_refl eq_refl (fun h => eq_refl)
              (surjective_pairing _))
    as (Hout & evs & Hev & _).
  split; [exact Hout|]. by exists evs.
Defined.

Lemma handleDialog_posts_ticket_thread_witness :
  let w := published_world false quiet_host in
  exists evs res tail,
    run_events w (dialog "urgent").2
    = evs ++ EvGetUser "u1" (Some (user_of "u1"), None)
          :: EvCreatePost
               (ticketPost "bot" "tickets" "reporter" ""
                  [{| Field_Title := "User Impact";
                      Field_Value := JString "Urgent" |}])
               res
          :: tail.
Proof.
  intros w.
  destruct (handleDialog_posts_ticket_thread one_team range_order
              manifest_Id json_Decode ChannelID TagUsers
              {| Request_Body := "urgent" |}
              (submission {[ "4-User Impact" := JString "Urgent" ]})
              "Urgent" (user_of "u1") w 0 (demo_configuration false)
              (dialog "urgent").1 (dialog "urgent").2
              eq_refl eq_refl eq_refl (fun h => eq_refl) eq_refl
              (surjective_pairing _))
    as (evs & res & tail & Hev & _).
  exists evs, res, tail. exact Hev.
Defined.

Lemma handleDialog_unpublished_panics_witness :
  let w := fresh_world quiet_host in
  let run := handleDialog one_team range_order manifest_Id json_Decode
               ChannelID TagUsers {| Request_Body := "urgent" |} w in
  run.1 = Panic nil_deref
  /\ Forall no_post (run_events w run.2).
Proof.
  intros w run.
  apply (handleDialog_unpublished_panics one_team range_order
           manifest_Id json_Decode ChannelID TagUsers
           {| Request_Body := "urgent" |}
           (submission {[ "4-User Impact" := JString "Urgent" ]})
           "Urgent" w run.1 run.2 eq_refl eq_refl (fun h => eq_refl) eq_refl
           (surjective_pairing _)).
Defined.

Lemma OnConfigurationChange_keeps_snapshots_witness :
  let w := published_world false refusing_host in
  snapshots_kept w reload_refused.2
  /\ snapshots_kept (published_world false quiet_host) reload_teamless.2.
Proof.
  intros w. split.
  - apply (OnConfigurationChange_keeps_snapshots two_teams range_order
             json_Marshal w reload_refused.1 reload_refused.2
             (published_world_wf false refusing_host) (surjective_pairing _)).
  - apply (OnConfigurationChange_keeps_snapshots teamless range_order
             json_Marshal (published_world false quiet_host)
             reload_teamless.1 reload_teamless.2
             (published_world_wf false quiet_host) (surjective_pairing _)).
Defined.



Lemma reload_refused_fails :
  reload_refused.1
  = Ok (Some (ErrWrap (ErrApp forbidden) "failed to ensure demo channels")).
Proof. by vm_compute. Qed.


End FurtherRuns.
